(** * Library-API: the catalogue and the booking ledger of [DatabaseManager]

    A shallow embedding of [src/app/database.py] and [src/app/app_model.py].
    The PostgreSQL store behind [self.connection] is modelled by its tables
    (lists of rows, in insertion order), the three SERIAL sequences and the
    constraints declared in [create_tables]; every method of the class is a
    computation in a state-and-exception monad over that store, and
    [try ... except Exception as e: print(...)] is the handler [try_except].
    Connections run with [autocommit = True]: every [cursor.execute] is its
    own transaction, so a statement that fails leaves the effects of the
    statements before it in place. *)

From Stdlib Require Import ZArith QArith Qround String Ascii List Bool Lia.
From stdpp Require Import gmap.

Import ListNotations.
Local Open Scope string_scope.
Local Open Scope Z_scope.
Local Open Scope list_scope.

(** ** Python values *)

(** [datetime] values are counted in microseconds, the resolution of both
    Python's [datetime] and the store's TIMESTAMP; their order is the order
    of the counts. *)
Definition datetime := Z.

(** [dt.replace(microsecond=0)] *)
Definition replace_microsecond_0 (dt : datetime) : datetime :=
  dt - dt mod 1000000.

(** Instances of [(int, float)].  [bool] is a subclass of [int], so
    [isinstance(True, (int, float))] holds.  A float stands for the decimal
    number its [repr] sends to the store (NaN and the infinities are left
    out of the model). *)
Inductive pynum :=
| PyBool (b : bool)
| PyInt (z : Z)
| PyFloat (q : Q).

Inductive pyval :=
| PyNone
| PyNum (n : pynum)
| PyStr (s : string).

Definition is_None (v : pyval) : bool :=
  match v with PyNone => true | _ => false end.

(** [isinstance(v, (int, float))] *)
Definition isinstance_int_float (v : pyval) : bool :=
  match v with PyNum _ => true | _ => false end.

(** Truth value of an optional [str] argument: [None] and [''] are false. *)
Definition truthy (s : option string) : bool :=
  match s with
  | Some s => negb (String.eqb s "")
  | None => false
  end.

(** [app_model.BookModel]; [genres_of] is its field [genres], [price] is
    a [float | int]. *)
Record BookModel := {
  first_name : string;
  last_name : string;
  avatar : option (list Byte.byte);
  genres_of : list string;
  title : string;
  price : pynum;
  pages : Z
}.

(** ** The store *)

(** Rows of the five tables of [create_tables]. *)
Record authors_row := {
  a_id : Z;
  a_first_name : string;
  a_last_name : string;
  a_avatar : option (list Byte.byte)
}.

Record genres_row := { g_id : Z; g_name : string }.

(** [price] is NUMERIC(7, 2): it is kept as a whole number of hundredths. *)
Record books_row := {
  b_id : Z;
  b_title : string;
  b_price : Z;
  b_pages : Z;
  b_author_id : Z
}.

Record book_genres_row := { bg_book_id : Z; bg_genre_id : Z }.

Record bookings_row := {
  user_id : Z;
  book_id : Z;
  start_date : datetime;
  end_date : datetime
}.

(** Exceptions that reach the [except Exception] clauses. *)
Inductive exn :=
| AttributeError            (* self.connection is None *)
| UniqueViolation
| ForeignKeyViolation
| StringDataRightTruncation
| NumericValueOutOfRange
| DatatypeMismatch          (* a boolean for a NUMERIC column *)
| UndefinedFunction.        (* no operator numeric >= boolean *)

(** A line written by [print]; [ErrLine p e] is [print(f"{p}: {e}")]. *)
Inductive line :=
| Line (s : string)
| ErrLine (p : string) (e : exn).

Record db := {
  connection : bool;             (* self.connection is not None *)
  authors : list authors_row;
  authors_id_seq : Z;
  genres : list genres_row;
  genres_id_seq : Z;
  books : list books_row;
  books_id_seq : Z;
  book_genres : list book_genres_row;
  bookings : list bookings_row;
  stdout : list line
}.

(** The store after [connect()] and [create_tables()] on a fresh database. *)
Definition empty_db : db := {|
  connection := true;
  authors := []; authors_id_seq := 1;
  genres := []; genres_id_seq := 1;
  books := []; books_id_seq := 1;
  book_genres := [];
  bookings := [];
  stdout := []
|}.

Definition set_connection (c : bool) (st : db) : db :=
  {| connection := c;
     authors := authors st; authors_id_seq := authors_id_seq st;
     genres := genres st; genres_id_seq := genres_id_seq st;
     books := books st; books_id_seq := books_id_seq st;
     book_genres := book_genres st; bookings := bookings st;
     stdout := stdout st |}.

Definition set_authors (l : list authors_row) (seq : Z) (st : db) : db :=
  {| connection := connection st;
     authors := l; authors_id_seq := seq;
     genres := genres st; genres_id_seq := genres_id_seq st;
     books := books st; books_id_seq := books_id_seq st;
     book_genres := book_genres st; bookings := bookings st;
     stdout := stdout st |}.

Definition set_genres (l : list genres_row) (seq : Z) (st : db) : db :=
  {| connection := connection st;
     authors := authors st; authors_id_seq := authors_id_seq st;
     genres := l; genres_id_seq := seq;
     books := books st; books_id_seq := books_id_seq st;
     book_genres := book_genres st; bookings := bookings st;
     stdout := stdout st |}.

Definition set_books (l : list books_row) (seq : Z) (st : db) : db :=
  {| connection := connection st;
     authors := authors st; authors_id_seq := authors_id_seq st;
     genres := genres st; genres_id_seq := genres_id_seq st;
     books := l; books_id_seq := seq;
     book_genres := book_genres st; bookings := bookings st;
     stdout := stdout st |}.

Definition set_book_genres (l : list book_genres_row) (st : db) : db :=
  {| connection := connection st;
     authors := authors st; authors_id_seq := authors_id_seq st;
     genres := genres st; genres_id_seq := genres_id_seq st;
     books := books st; books_id_seq := books_id_seq st;
     book_genres := l; bookings := bookings st;
     stdout := stdout st |}.

Definition set_bookings (l : list bookings_row) (st : db) : db :=
  {| connection := connection st;
     authors := authors st; authors_id_seq := authors_id_seq st;
     genres := genres st; genres_id_seq := genres_id_seq st;
     books := books st; books_id_seq := books_id_seq st;
     book_genres := book_genres st; bookings := l;
     stdout := stdout st |}.

Definition set_stdout (l : list line) (st : db) : db :=
  {| connection := connection st;
     authors := authors st; authors_id_seq := authors_id_seq st;
     genres := genres st; genres_id_seq := genres_id_seq st;
     books := books st; books_id_seq := books_id_seq st;
     book_genres := book_genres st; bookings := bookings st;
     stdout := l |}.

(** ** The monad of the methods: state and exceptions *)

Definition M (A : Type) : Type := db -> (exn + A) * db.

Definition ret {A} (a : A) : M A := fun st => (inr a, st).

Definition bind {A B} (m : M A) (k : A -> M B) : M B :=
  fun st =>
    match m st with
    | (inr a, st') => k a st'
    | (inl e, st') => (inl e, st')
    end.

Definition raise {A} (e : exn) : M A := fun st => (inl e, st).

Definition get : M db := fun st => (inr st, st).

Definition modify (f : db -> db) : M unit := fun st => (inr tt, f st).

Declare Scope db_scope.
Delimit Scope db_scope with db.
Notation "x <- m ;; k" := (bind m (fun x => k))
  (at level 100, m at next level, right associativity) : db_scope.
Notation "m ;; k" := (bind m (fun _ => k))
  (at level 100, right associativity) : db_scope.
Local Open Scope db_scope.

(** [print(...)] *)
Definition print (l : line) : M unit :=
  modify (fun st => set_stdout (stdout st ++ [l]) st).

(** [try: body except Exception as e: handler(e)]; the method then falls off
    its end and returns [None], here [dflt]. *)
Definition try_except {A} (body : M A) (handler : exn -> M unit) (dflt : A)
  : M A :=
  fun st =>
    match body st with
    | (inr a, st') => (inr a, st')
    | (inl e, st') => (handler e ;; ret dflt) st'
    end.

(** Lifting a check of the store into the monad. *)
Definition lift {A} (r : exn + A) : M A :=
  match r with inr a => ret a | inl e => raise e end.

(** [with self.connection.cursor() as cursor]: an attribute access on
    [None] when [connect] failed or was never called. *)
Definition cursor : M unit :=
  st <- get ;; if connection st then ret tt else raise AttributeError.

(** ** Column types of [create_tables] *)

Fixpoint all_spaces (s : string) : bool :=
  match s with
  | EmptyString => true
  | String c s' => Ascii.eqb c " " && all_spaces s'
  end.

(** VARCHAR(n): a value longer than [n] characters is refused, unless the
    excess is made of spaces only, which the store cuts off. *)
Definition varchar (n : nat) (s : string) : exn + string :=
  if (String.length s <=? n)%nat then inr s
  else if all_spaces (substring n (String.length s - n) s)
       then inr (substring 0 n s)
       else inl StringDataRightTruncation.

(** Rounding to the nearest integer, ties away from zero. *)
Definition round_half_away (q : Q) : Z :=
  if Qle_bool 0 q then Qfloor (q + (1 # 2))%Q
  else - Qfloor (- q + (1 # 2))%Q.

(** NUMERIC(7, 2), in hundredths: two decimals are kept and the rounded
    value must stay below 10^5 in absolute value. *)
Definition numeric_7_2 (p : pynum) : exn + Z :=
  match p with
  | PyBool _ => inl DatatypeMismatch
  | PyInt z =>
      if Z.abs (z * 100) <? 10000000 then inr (z * 100)
      else inl NumericValueOutOfRange
  | PyFloat q =>
      let c := round_half_away (q * 100)%Q in
      if Z.abs c <? 10000000 then inr c else inl NumericValueOutOfRange
  end.

(** SMALLINT *)
Definition smallint (z : Z) : exn + Z :=
  if (-32768 <=? z) && (z <=? 32767) then inr z
  else inl NumericValueOutOfRange.

(** INTEGER *)
Definition fits_integer (z : Z) : bool :=
  (-2147483648 <=? z) && (z <=? 2147483647).

Definition integer (z : Z) : exn + Z :=
  if fits_integer z then inr z else inl NumericValueOutOfRange.

(** ** The statements sent through [cursor.execute]

    Each definition is one call of [cursor.execute], together with the
    [fetchone]/[fetchall]/[rowcount] that reads its result.  The [id]
    columns are filled from their sequences only, so the primary keys on
    them cannot be violated; a sequence value that was drawn is not given
    back when the INSERT fails. *)

(** SELECT id FROM authors WHERE first_name = %s AND last_name = %s;
    then [fetchone()]. *)
Definition author_matches (fn ln : string) (a : authors_row) : bool :=
  String.eqb (a_first_name a) fn && String.eqb (a_last_name a) ln.

Definition select_author (fn ln : string) : M (option Z) :=
  st <- get ;;
  ret (option_map a_id (List.find (author_matches fn ln) (authors st))).

(** INSERT INTO authors (first_name, last_name, avatar)
    VALUES (%s, %s, %s) RETURNING id; then [fetchone()[0]]. *)
Definition insert_author (fn ln : string) (av : option (list Byte.byte))
  : M Z :=
  st <- get ;;
  let id := authors_id_seq st in
  modify (set_authors (authors st) (id + 1)) ;;
  fn' <- lift (varchar 50 fn) ;;
  ln' <- lift (varchar 50 ln) ;;
  let row := {| a_id := id; a_first_name := fn'; a_last_name := ln';
                a_avatar := av |} in
  modify (fun st => set_authors (authors st ++ [row]) (authors_id_seq st) st) ;;
  ret id.

(** SELECT id FROM genres WHERE name = %s; then [fetchone()]. *)
Definition select_genre (name : string) : M (option Z) :=
  st <- get ;;
  ret (option_map g_id
         (List.find (fun g => String.eqb (g_name g) name) (genres st))).

(** INSERT INTO genres (name) VALUES (%s) RETURNING id; [name] is UNIQUE. *)
Definition insert_genre (name : string) : M Z :=
  st <- get ;;
  let id := genres_id_seq st in
  modify (set_genres (genres st) (id + 1)) ;;
  name' <- lift (varchar 32 name) ;;
  if existsb (fun g => String.eqb (g_name g) name') (genres st)
  then raise UniqueViolation
  else
    modify (fun st =>
      set_genres (genres st ++ [{| g_id := id; g_name := name' |}])
                 (genres_id_seq st) st) ;;
    ret id.

(** INSERT INTO books (title, price, pages, author_id)
    VALUES (%s, %s, %s, %s) RETURNING id; [title] is UNIQUE and
    [author_id] REFERENCES authors(id). *)
Definition insert_book (t : string) (p : pynum) (pg : Z) (author : Z)
  : M Z :=
  st <- get ;;
  let id := books_id_seq st in
  modify (set_books (books st) (id + 1)) ;;
  t' <- lift (varchar 255 t) ;;
  p' <- lift (numeric_7_2 p) ;;
  pg' <- lift (smallint pg) ;;
  if existsb (fun b => String.eqb (b_title b) t') (books st)
  then raise UniqueViolation
  else if negb (existsb (fun a => a_id a =? author) (authors st))
  then raise ForeignKeyViolation
  else
    let row := {| b_id := id; b_title := t'; b_price := p'; b_pages := pg';
                  b_author_id := author |} in
    modify (fun st => set_books (books st ++ [row]) (books_id_seq st) st) ;;
    ret id.

(** INSERT INTO book_genres (book_id, genre_id) VALUES (%s, %s);
    PRIMARY KEY (book_id, genre_id), both columns are foreign keys. *)
Definition insert_book_genre (b g : Z) : M unit :=
  st <- get ;;
  if existsb (fun r => (bg_book_id r =? b) && (bg_genre_id r =? g))
       (book_genres st)
  then raise UniqueViolation
  else if negb (existsb (fun r => b_id r =? b) (books st)
                && existsb (fun r => g_id r =? g) (genres st))
  then raise ForeignKeyViolation
  else
    modify (fun st =>
      set_book_genres
        (book_genres st ++ [{| bg_book_id := b; bg_genre_id := g |}]) st).

(** DELETE FROM book_genres WHERE book_id = %s;
    DELETE FROM books WHERE id = %s;
    then [cursor.rowcount], the count of the last statement.  The two
    statements travel in one [execute] and form one transaction: when a row
    of [bookings] still references a book that the second statement
    deletes, the foreign key of [bookings.book_id] fails it and the first
    statement is undone with it. *)
Definition delete_book (id : Z) : M Z :=
  st <- get ;;
  let deleted := List.filter (fun b => b_id b =? id) (books st) in
  if negb (Nat.eqb (length deleted) 0)
     && existsb (fun r => book_id r =? id) (bookings st)
  then raise ForeignKeyViolation
  else
    modify (set_book_genres
              (List.filter (fun r => negb (bg_book_id r =? id))
                 (book_genres st))) ;;
    modify (set_books (List.filter (fun b => negb (b_id b =? id)) (books st))
              (books_id_seq st)) ;;
    ret (Z.of_nat (length deleted)).

(** The value stored under a book id in the dictionary that
    [get_books_filtered] returns: the selected columns books.title,
    books.price, books.pages, authors.first_name, authors.last_name. *)
Record book_info := {
  bi_title : string;
  bi_price : Z;
  bi_pages : Z;
  bi_first_name : string;
  bi_last_name : string
}.

(** The conditions that [get_books_filtered] appends to "WHERE 1=1", each
    with the parameter it appends to [params]. *)
Inductive condition :=
| PriceGe (v : pynum)           (* AND books.price >= %s *)
| PriceLe (v : pynum)           (* AND books.price <= %s *)
| FirstNameEq (s : string)      (* AND authors.first_name = %s *)
| LastNameEq (s : string)       (* AND authors.last_name = %s *)
| GenreNameEq (s : string).     (* AND genres.name = %s *)

Definition price_of_hundredths (c : Z) : Q := c # 100.

(** A Python [bool] reaches the store as [true]/[false], and the store has
    no operator between NUMERIC and BOOLEAN: the statement is refused
    whatever the tables hold. *)
Definition condition_typed (c : condition) : bool :=
  match c with
  | PriceGe (PyBool _) | PriceLe (PyBool _) => false
  | _ => true
  end.

Definition pynum_value (v : pynum) : Q :=
  match v with
  | PyBool b => if b then 1%Q else 0%Q
  | PyInt z => inject_Z z
  | PyFloat q => q
  end.

Definition condition_holds (b : books_row) (g : genres_row) (a : authors_row)
    (c : condition) : bool :=
  match c with
  | PriceGe v => Qle_bool (pynum_value v) (price_of_hundredths (b_price b))
  | PriceLe v => Qle_bool (price_of_hundredths (b_price b)) (pynum_value v)
  | FirstNameEq s => String.eqb (a_first_name a) s
  | LastNameEq s => String.eqb (a_last_name a) s
  | GenreNameEq s => String.eqb (g_name g) s
  end.

(** FROM books JOIN book_genres ON books.id = book_genres.book_id
    JOIN genres ON book_genres.genre_id = genres.id
    JOIN authors ON books.author_id = authors.id *)
Definition books_join (st : db)
  : list (books_row * genres_row * authors_row) :=
  flat_map (fun b =>
    flat_map (fun bg =>
      flat_map (fun g =>
        List.map (fun a => (b, g, a))
          (List.filter (fun a => b_author_id b =? a_id a) (authors st)))
        (List.filter (fun g => bg_genre_id bg =? g_id g) (genres st)))
      (List.filter (fun bg => b_id b =? bg_book_id bg) (book_genres st)))
    (books st).

Definition project (r : books_row * genres_row * authors_row)
  : Z * book_info :=
  let '(b, g, a) := r in
  (b_id b, {| bi_title := b_title b; bi_price := b_price b;
              bi_pages := b_pages b; bi_first_name := a_first_name a;
              bi_last_name := a_last_name a |}).

(** [cursor.execute(query, params)] then [cursor.fetchall()] *)
Definition select_books (query : list condition)
  : M (list (Z * book_info)) :=
  st <- get ;;
  if forallb condition_typed query then
    ret (List.map project
           (List.filter
              (fun r => let '(b, g, a) := r in
                        forallb (condition_holds b g a) query)
              (books_join st)))
  else raise UndefinedFunction.

(** SELECT COUNT( * ) FROM bookings
    WHERE book_id = %s AND (start_date < %s AND %s < end_date);
    then [fetchone()[0]]. *)
Definition conflicts (b : Z) (s : datetime) (r : bookings_row) : bool :=
  (book_id r =? b) && ((start_date r <? s) && (s <? end_date r)).

Definition count_conflicts (b : Z) (s : datetime) : M Z :=
  st <- get ;;
  ret (Z.of_nat (length (List.filter (conflicts b s) (bookings st)))).

(** INSERT INTO bookings (user_id, book_id, start_date, end_date)
    VALUES (%s, %s, %s, %s); [book_id] REFERENCES books(id). *)
Definition insert_booking (u b : Z) (s e : datetime) : M unit :=
  st <- get ;;
  u' <- lift (integer u) ;;
  b' <- lift (integer b) ;;
  if negb (existsb (fun r => b_id r =? b') (books st))
  then raise ForeignKeyViolation
  else
    let row := {| user_id := u'; book_id := b'; start_date := s;
                  end_date := e |} in
    modify (fun st => set_bookings (bookings st ++ [row]) st).

(** DELETE FROM bookings WHERE book_id = %s AND user_id = %s *)
Definition delete_bookings (b u : Z) : M unit :=
  modify (fun st =>
    set_bookings
      (List.filter (fun r => negb ((book_id r =? b) && (user_id r =? u)))
         (bookings st)) st).

(** DELETE FROM bookings WHERE end_date < %s; *)
Definition expired (now : datetime) (r : bookings_row) : bool :=
  end_date r <? now.

Definition delete_expired (now : datetime) : M unit :=
  modify (fun st =>
    set_bookings (List.filter (fun r => negb (expired now r)) (bookings st))
      st).

(** SELECT bookings.book_id, bookings.start_date, bookings.end_date
    FROM bookings JOIN books ON bookings.book_id = books.id
    JOIN authors ON books.author_id = authors.id
    WHERE bookings.end_date >= %s; then [fetchall()]. *)
Definition select_active_bookings (now : datetime)
  : M (list (Z * datetime * datetime)) :=
  st <- get ;;
  ret (flat_map (fun r =>
         flat_map (fun b =>
           List.map (fun a => (book_id r, start_date r, end_date r))
             (List.filter (fun a => b_author_id b =? a_id a) (authors st)))
           (List.filter (fun b => book_id r =? b_id b) (books st)))
         (List.filter (fun r => now <=? end_date r) (bookings st))).

(** ** The methods of [DatabaseManager] *)

(** *** [add_book] *)

(** "Проверка и добавление автора": the author is looked up by first and
    last name and inserted when the lookup finds no row. *)
Definition add_book_author (book : BookModel) : M Z :=
  author <- select_author (first_name book) (last_name book) ;;
  match author with
  | None => insert_author (first_name book) (last_name book) (avatar book)
  | Some id => ret id
  end.

(** "Проверка и добавление жанров": the loop over [book.genres]. *)
Fixpoint add_book_genres (names : list string) : M (list Z) :=
  match names with
  | [] => ret []
  | genre :: rest =>
      genre_result <- select_genre genre ;;
      genre_id <- match genre_result with
                  | None => insert_genre genre
                  | Some id => ret id
                  end ;;
      genre_ids <- add_book_genres rest ;;
      ret (genre_id :: genre_ids)
  end.

(** "Добавление связи книга-жанр": the loop over [genre_ids]. *)
Fixpoint add_book_links (b : Z) (genre_ids : list Z) : M unit :=
  match genre_ids with
  | [] => ret tt
  | genre_id :: rest => insert_book_genre b genre_id ;; add_book_links b rest
  end.

Definition add_book_body (book : BookModel) : M unit :=
  cursor ;;
  author_id <- add_book_author book ;;
  genre_ids <- add_book_genres (genres_of book) ;;
  b <- insert_book (title book) (price book) (pages book) author_id ;;
  add_book_links b genre_ids.

Definition add_book (book : BookModel) : M unit :=
  try_except (add_book_body book)
    (fun e => print (ErrLine "Ошибка при записи книги" e)) tt.

(** *** [remove_book] *)

Definition remove_book_body (id : Z) : M unit :=
  cursor ;;
  books_deleted <- delete_book id ;;
  if books_deleted =? 0
  then print (Line "Книги с таким id не существует")
  else print (Line "Книга удалена").

Definition remove_book (id : Z) : M unit :=
  try_except (remove_book_body id)
    (fun e => print (ErrLine "Ошибка при удалении книги" e)) tt.

(** *** [_checking_booking_date]; [now] is its reading of
    [datetime.now()]. *)

Definition _checking_booking_date_body (now : datetime) : M unit :=
  cursor ;; delete_expired now.

Definition _checking_booking_date (now : datetime) : M unit :=
  try_except (_checking_booking_date_body now)
    (fun e => print (ErrLine "Ошибка при снятии бронирования по времени" e))
    tt.

(** *** [get_books_filtered] *)

(** The query and its parameters, as the five [if]s build them. *)
Definition filter_query (min_price max_price : pyval)
    (genre_name author_first_name author_last_name : option string)
  : list condition :=
  let query : list condition := [] in
  let query :=
    if negb (is_None min_price) && isinstance_int_float min_price then
      match min_price with
      | PyNum v => (query ++ [PriceGe v])%list
      | _ => query
      end
    else query in
  let query :=
    if negb (is_None max_price) && isinstance_int_float max_price then
      match max_price with
      | PyNum v => (query ++ [PriceLe v])%list
      | _ => query
      end
    else query in
  let query :=
    match author_first_name with
    | Some s => if truthy author_first_name
                then (query ++ [FirstNameEq s])%list else query
    | None => query
    end in
  let query :=
    match author_last_name with
    | Some s => if truthy author_last_name
                then (query ++ [LastNameEq s])%list else query
    | None => query
    end in
  match genre_name with
  | Some s => if truthy genre_name then (query ++ [GenreNameEq s])%list else query
  | None => query
  end.

(** [books_list[book[0]] = {...}] for every fetched row, in order. *)
Definition books_dict (rows : list (Z * book_info)) : gmap Z book_info :=
  fold_left (fun (d : gmap Z book_info) r => <[r.1 := r.2]> d) rows ∅.

Definition get_books_filtered_body (min_price max_price : pyval)
    (genre_name author_first_name author_last_name : option string)
  : M (option (gmap Z book_info)) :=
  let query :=
    filter_query min_price max_price genre_name author_first_name
      author_last_name in
  cursor ;;
  rows <- select_books query ;;
  ret (Some (books_dict rows)).

Definition get_books_filtered (now : datetime) (min_price max_price : pyval)
    (genre_name author_first_name author_last_name : option string)
  : M (option (gmap Z book_info)) :=
  _checking_booking_date now ;;
  try_except
    (get_books_filtered_body min_price max_price genre_name
       author_first_name author_last_name)
    (fun e => print (ErrLine "Ошибка при выборке книг с фильтрами" e))
    None.

(** *** [_is_available_bookings] *)

Definition _is_available_bookings_body (b : Z) (start : datetime)
  : M (option bool) :=
  cursor ;;
  count <- count_conflicts b start ;;
  ret (Some (count =? 0)).

Definition _is_available_bookings (now : datetime) (b : Z)
    (start : datetime) : M (option bool) :=
  _checking_booking_date now ;;
  try_except (_is_available_bookings_body b start)
    (fun e => print (ErrLine "Ошибка при проверки бронирования" e))
    None.

(** *** [add_booking] *)

(** Truth value of a [bool | None]. *)
Definition is_true (o : option bool) : bool :=
  match o with Some true => true | _ => false end.

Definition add_booking_body (now : datetime) (u b : Z) (start stop : datetime)
  : M unit :=
  available <- _is_available_bookings now b start ;;
  if is_true available then
    cursor ;;
    insert_booking u b start stop ;;
    print (Line "Книга забронирована")
  else print (Line "Ошибка: книга уже забронирована на это время").

Definition add_booking (now : datetime) (u b : Z) (start stop : datetime)
  : M unit :=
  let start := replace_microsecond_0 start in
  let stop := replace_microsecond_0 stop in
  try_except (add_booking_body now u b start stop)
    (fun e => print (ErrLine "Ошибка при создании бронирования" e)) tt.

(** *** [cancel_booking] *)

Definition cancel_booking_body (u booking_id : Z) : M unit :=
  cursor ;;
  delete_bookings booking_id u ;;
  print (Line "Бронирование успешно отменено").

Definition cancel_booking (u booking_id : Z) : M unit :=
  try_except (cancel_booking_body u booking_id)
    (fun e => print (ErrLine "Ошибка при отмене бронирования" e)) tt.

(** *** [get_active_bookings]; [now] is read by the sweep, [now'] by the
    SELECT after it. *)

Definition get_active_bookings_body (now' : datetime)
  : M (option (list (Z * datetime * datetime))) :=
  cursor ;;
  bookings_list <- select_active_bookings now' ;;
  ret (Some bookings_list).

Definition get_active_bookings (now now' : datetime)
  : M (option (list (Z * datetime * datetime))) :=
  _checking_booking_date now ;;
  try_except (get_active_bookings_body now')
    (fun e => print (ErrLine "Ошибка при получении активных бронирований" e))
    None.

(** *** [get_genres_by_book_id]; [le] is the order of the store's
    collation on VARCHAR values, which ORDER BY follows. *)

Fixpoint insert_by (le : string -> string -> bool) (x : string)
    (l : list string) : list string :=
  match l with
  | [] => [x]
  | y :: l' => if le x y then x :: y :: l' else y :: insert_by le x l'
  end.

Fixpoint order_by (le : string -> string -> bool) (l : list string)
  : list string :=
  match l with
  | [] => []
  | x :: l' => insert_by le x (order_by le l')
  end.

(** Each element is before or level with the next one. *)
Fixpoint sorted_by (le : string -> string -> bool) (l : list string)
  : bool :=
  match l with
  | x :: (y :: _) as l' => le x y && sorted_by le l'
  | _ => true
  end.

(** FROM genres g JOIN book_genres bg ON g.id = bg.genre_id
    WHERE bg.book_id = %s, projected on g.name *)
Definition genre_names_join (b : Z) (st : db) : list string :=
  flat_map (fun g =>
    List.map (fun _ => g_name g)
      (List.filter
         (fun bg => (g_id g =? bg_genre_id bg) && (bg_book_id bg =? b))
         (book_genres st)))
    (genres st).

(** SELECT g.name FROM genres g
    JOIN book_genres bg ON g.id = bg.genre_id
    WHERE bg.book_id = %s ORDER BY g.name; then [fetchall()] and
    [[row[0] for row in results]]. *)
Definition select_genre_names (le : string -> string -> bool) (b : Z)
  : M (list string) :=
  st <- get ;;
  ret (order_by le (genre_names_join b st)).

Definition get_genres_by_book_id_body (le : string -> string -> bool)
    (b : Z) : M (option (list string)) :=
  cursor ;;
  genres <- select_genre_names le b ;;
  ret (Some genres).

Definition get_genres_by_book_id (le : string -> string -> bool) (b : Z)
  : M (option (list string)) :=
  try_except (get_genres_by_book_id_body le b)
    (fun e => print (ErrLine "Ошибка при получении жанра книги" e)) None.

(** ** Running the methods *)

(** The value a call returns (or the exception it lets through) and the
    store it leaves. *)
Definition result {A} (m : M A) (st : db) : exn + A := fst (m st).
Definition exec {A} (m : M A) (st : db) : db := snd (m st).

(** The lines a call printed. *)
Definition printed {A} (m : M A) (st : db) : list line :=
  skipn (length (stdout st)) (stdout (exec m st)).

(** A store whose [connect()] failed: [self.connection] is still [None]. *)
Definition disconnected (st : db) : db := set_connection false st.

(** A caller issuing [add_booking] calls one after the other. *)
Record booking_call := {
  call_now : datetime;
  call_user : Z;
  call_book : Z;
  call_start : datetime;
  call_end : datetime
}.

Definition add_bookings (calls : list booking_call) (st : db) : db :=
  fold_left
    (fun st c =>
       exec (add_booking (call_now c) (call_user c) (call_book c)
               (call_start c) (call_end c)) st)
    calls st.

(** A caller of the class: one call of a method, and a run of calls one
    after the other. *)
Inductive call :=
| AddBook (book : BookModel)
| RemoveBook (id : Z)
| GetBooksFiltered (now : datetime) (min_price max_price : pyval)
    (genre_name author_first_name author_last_name : option string)
| IsAvailableBookings (now : datetime) (b : Z) (start : datetime)
| AddBooking (now : datetime) (u b : Z) (start stop : datetime)
| CancelBooking (u booking_id : Z)
| CheckingBookingDate (now : datetime)
| GetActiveBookings (now now' : datetime)
| GetGenresByBookId (le : string -> string -> bool) (b : Z).

Definition run_call (c : call) (st : db) : db :=
  match c with
  | AddBook book => exec (add_book book) st
  | RemoveBook id => exec (remove_book id) st
  | GetBooksFiltered now min_price max_price g f l =>
      exec (get_books_filtered now min_price max_price g f l) st
  | IsAvailableBookings now b start =>
      exec (_is_available_bookings now b start) st
  | AddBooking now u b start stop =>
      exec (add_booking now u b start stop) st
  | CancelBooking u b => exec (cancel_booking u b) st
  | CheckingBookingDate now => exec (_checking_booking_date now) st
  | GetActiveBookings now now' => exec (get_active_bookings now now') st
  | GetGenresByBookId le b => exec (get_genres_by_book_id le b) st
  end.

Definition run_calls (calls : list call) (st : db) : db :=
  fold_left (fun st c => run_call c st) calls st.

(** A property of the store that a computation keeps. *)
Definition preserves (P : db -> Prop) {A} (m : M A) : Prop :=
  forall st, P st -> P (snd (m st)).

(** ** The constraints of [create_tables] *)

Definition ids_of {A} (id : A -> Z) (l : list A) : list Z := List.map id l.

(** Primary and unique keys hold, every id was drawn from its sequence, and
    every foreign key points at a row. *)
Record constraints_hold (st : db) : Prop := {
  author_ids_unique : List.NoDup (ids_of a_id (authors st));
  author_ids_drawn : Forall (fun a => a_id a < authors_id_seq st) (authors st);
  genre_ids_unique : List.NoDup (ids_of g_id (genres st));
  genre_ids_drawn : Forall (fun g => g_id g < genres_id_seq st) (genres st);
  genre_names_unique : List.NoDup (List.map g_name (genres st));
  book_ids_unique : List.NoDup (ids_of b_id (books st));
  book_ids_drawn : Forall (fun b => b_id b < books_id_seq st) (books st);
  book_titles_unique : List.NoDup (List.map b_title (books st));
  book_author_exists :
    Forall (fun b => In (b_author_id b) (ids_of a_id (authors st)))
      (books st);
  book_genres_unique : List.NoDup (book_genres st);
  book_genres_book_exists :
    Forall (fun r => In (bg_book_id r) (ids_of b_id (books st)))
      (book_genres st);
  book_genres_genre_exists :
    Forall (fun r => In (bg_genre_id r) (ids_of g_id (genres st)))
      (book_genres st);
  bookings_book_exists :
    Forall (fun r => In (book_id r) (ids_of b_id (books st))) (bookings st)
}.

(** ** Properties of the ledger *)

(** The rows that survive the expiry sweep run at [now]. *)
Definition live (now : datetime) (l : list bookings_row)
  : list bookings_row :=
  List.filter (fun r => negb (expired now r)) l.

(** [b] is a booking of the same book as [a] and starts strictly inside
    [a]: a.start < b.start < a.end. *)
Definition starts_inside (a b : bookings_row) : bool :=
  (book_id a =? book_id b)
  && ((start_date a <? start_date b) && (start_date b <? end_date a)).

(** No two stored bookings [a], [b] of a book have a.start < b.start <
    a.end. *)
Definition no_overlap (l : list bookings_row) : bool :=
  forallb (fun a => forallb (fun b => negb (starts_inside a b)) l) l.

(** No stored booking starts strictly inside a booking of the same book
    that was stored before it. *)
Fixpoint no_overlap_in_order (l : list bookings_row) : bool :=
  match l with
  | [] => true
  | a :: rest =>
      forallb (fun b => negb (starts_inside a b)) rest
      && no_overlap_in_order rest
  end.

(** ** Properties of the catalogue *)

(** [st'] has the authors and the connection of [st]. *)
Definition same_authors (st st' : db) : Prop :=
  authors st' = authors st
  /\ authors_id_seq st' = authors_id_seq st
  /\ connection st' = connection st.

(** ** The filters of [get_books_filtered], as its callers see them *)

(** A price bound counts when it is an int or a float. *)
Definition price_bound (v : pyval) : option Q :=
  match v with
  | PyNum n => Some (pynum_value n)
  | _ => None
  end.

(** A name counts when it is a non-empty string. *)
Definition name_filter (s : option string) : option string :=
  match s with
  | Some s => if String.eqb s "" then None else Some s
  | None => None
  end.

Definition holds {A} (f : option A) (test : A -> bool) : bool :=
  match f with Some x => test x | None => true end.

(** The conjunction of the filters that count, on one row of the join. *)
Definition satisfies (min_price max_price : pyval)
    (genre_name author_first_name author_last_name : option string)
    (r : books_row * genres_row * authors_row) : bool :=
  let '(b, g, a) := r in
  holds (price_bound min_price)
    (fun q => Qle_bool q (price_of_hundredths (b_price b)))
  && holds (price_bound max_price)
       (fun q => Qle_bool (price_of_hundredths (b_price b)) q)
  && holds (name_filter genre_name) (String.eqb (g_name g))
  && holds (name_filter author_first_name) (String.eqb (a_first_name a))
  && holds (name_filter author_last_name) (String.eqb (a_last_name a)).

(** A Python [bool] passed as a price. *)
Definition is_bool (v : pyval) : bool :=
  match v with PyNum (PyBool _) => true | _ => false end.

(** ** Sample data *)

Definition dune : BookModel := {|
  first_name := "Frank"; last_name := "Herbert"; avatar := None;
  genres_of := ["SF"]; title := "Dune";
  price := PyInt 10; pages := 600
|}.

Definition children_of_dune : BookModel := {|
  first_name := "Frank"; last_name := "Herbert";
  avatar := Some [Byte.x89; Byte.x50];
  genres_of := ["SF"; "Saga"]; title := "Children of Dune";
  price := PyFloat (1250 # 100); pages := 400
|}.

(** A book that names one genre twice. *)
Definition dune_messiah : BookModel := {|
  first_name := "Frank"; last_name := "Herbert"; avatar := None;
  genres_of := ["SF"; "SF"]; title := "Dune Messiah";
  price := PyInt 9; pages := 350
|}.

(** A book without a genre. *)
Definition eye : BookModel := {|
  first_name := "Frank"; last_name := "Herbert"; avatar := None;
  genres_of := []; title := "Eye";
  price := PyFloat (799 # 100); pages := 328
|}.

(** A catalogue holding [dune] alone, as book 1. *)
Definition catalogue : db := exec (add_book dune) empty_db.

(** One second, in the unit of [datetime]. *)
Definition seconds (n : Z) : datetime := n * 1000000.

(** Book 1 booked by user 1 from second 5 to second 15. *)
Definition booked_5_15 : db :=
  exec (add_booking 0 1 1 (seconds 5) (seconds 15)) catalogue.

(** ... and again by user 1 from second 20 to second 30. *)
Definition booked_twice : db :=
  exec (add_booking 0 1 1 (seconds 20) (seconds 30)) booked_5_15.

(** Two calls on book 1: seconds 5 to 15 first, seconds 0 to 12 after. *)
Definition late_then_early : list booking_call :=
  [{| call_now := 0; call_user := 1; call_book := 1;
      call_start := seconds 5; call_end := seconds 15 |};
   {| call_now := 0; call_user := 2; call_book := 1;
      call_start := seconds 0; call_end := seconds 12 |}].

(** * Proofs *)

(** ** The monad *)

Lemma try_except_returns {A} (body : M A) handler (dflt : A) st a st' :
  body st = (inr a, st') -> try_except body handler dflt st = (inr a, st').
Proof. unfold try_except. intros ->. reflexivity. Qed.

Lemma try_except_catches {A} (body : M A) p (dflt : A) st e st' :
  body st = (inl e, st') ->
  try_except body (fun e => print (ErrLine p e)) dflt st
  = (inr dflt, set_stdout (stdout st' ++ [ErrLine p e]) st').
Proof. unfold try_except. intros ->. reflexivity. Qed.

Lemma try_except_never_raises {A} (body : M A) handler (dflt : A) st :
  (forall e st', exists st'', handler e st' = (inr tt, st'')) ->
  exists a, result (try_except body handler dflt) st = inr a.
Proof.
  intros Hh. unfold result, try_except.
  destruct (body st) as [[e | a] st'].
  - destruct (Hh e st') as [st'' Hst]. unfold bind. rewrite Hst.
    exists dflt. reflexivity.
  - exists a. reflexivity.
Qed.

Lemma print_returns l st : exists st', print l st = (inr tt, st').
Proof. eexists. reflexivity. Qed.

Lemma cursor_connected st : connection st = true -> cursor st = (inr tt, st).
Proof. intros H. unfold cursor, bind, get, ret. rewrite H. reflexivity. Qed.

Lemma cursor_disconnected st :
  connection st = false -> cursor st = (inl AttributeError, st).
Proof. intros H. unfold cursor, bind, get, raise. rewrite H. reflexivity. Qed.

(** ** Lists of rows *)

Lemma count_zero_forallb {A} (p : A -> bool) (l : list A) :
  (Z.of_nat (length (List.filter p l)) =? 0)
  = forallb (fun x => negb (p x)) l.
Proof.
  induction l as [| x l IH]; [reflexivity |].
  cbn [List.filter forallb]. destruct (p x); cbn [negb andb].
  - cbn [length]. apply Z.eqb_neq. lia.
  - exact IH.
Qed.

Lemma In_live now r l :
  In r (live now l) <-> In r l /\ ~ end_date r < now.
Proof.
  unfold live, expired. rewrite List.filter_In, negb_true_iff, Z.ltb_ge.
  split; intros [H1 H2]; split; auto; lia.
Qed.

Lemma conflicts_true b s r :
  conflicts b s r = true
  <-> book_id r = b /\ start_date r < s /\ s < end_date r.
Proof.
  unfold conflicts.
  rewrite !andb_true_iff, Z.eqb_eq, !Z.ltb_lt. tauto.
Qed.

(** ** The expiry sweep *)

Lemma sweep_connected now st :
  connection st = true ->
  _checking_booking_date now st
  = (inr tt, set_bookings (live now (bookings st)) st).
Proof.
  intros H. unfold _checking_booking_date.
  apply try_except_returns.
  unfold _checking_booking_date_body, bind.
  rewrite (cursor_connected _ H). reflexivity.
Qed.

Lemma sweep_disconnected now st :
  connection st = false ->
  _checking_booking_date now st
  = (inr tt,
     set_stdout
       (stdout st
        ++ [ErrLine "Ошибка при снятии бронирования по времени"
              AttributeError]) st).
Proof.
  intros H. unfold _checking_booking_date.
  apply try_except_catches.
  unfold _checking_booking_date_body, bind.
  rewrite (cursor_disconnected _ H). reflexivity.
Qed.

Lemma is_available_connected now b s st :
  connection st = true ->
  _is_available_bookings now b s st
  = (inr (Some (forallb (fun r => negb (conflicts b s r))
                  (live now (bookings st)))),
     set_bookings (live now (bookings st)) st).
Proof.
  intros H. unfold _is_available_bookings, bind at 1.
  rewrite (sweep_connected _ _ H).
  apply try_except_returns.
  unfold _is_available_bookings_body, bind.
  rewrite cursor_connected by exact H.
  unfold count_conflicts, bind, get, ret. cbn [bookings set_bookings].
  rewrite count_zero_forallb. reflexivity.
Qed.

Lemma get_active_bookings_connected now now' st :
  connection st = true ->
  get_active_bookings now now' st
  = (let st' := set_bookings (live now (bookings st)) st in
     (inr (Some (flat_map (fun r =>
         flat_map (fun b =>
           List.map (fun a => (book_id r, start_date r, end_date r))
             (List.filter (fun a => b_author_id b =? a_id a) (authors st')))
           (List.filter (fun b => book_id r =? b_id b) (books st')))
         (List.filter (fun r => now' <=? end_date r) (bookings st')))),
      st')).
Proof.
  intros H. unfold get_active_bookings, bind at 1.
  rewrite (sweep_connected _ _ H).
  apply try_except_returns.
  unfold get_active_bookings_body, bind.
  rewrite cursor_connected by exact H. reflexivity.
Qed.

(** ** The availability check *)

(** C1.  On a connected store, [_is_available_bookings] answers for the rows
    of the ledger as the check reads it (the rows left by the sweep it
    starts with, which are also the rows it leaves): it reports a conflict
    ([False]) exactly when one of these rows of the book has
    start < candidate start < end, and reports the book available ([True])
    otherwise.  Only the candidate's start is looked at: against one
    booking (5, 15) of the book that has not expired, a candidate starting
    at 0 (such as (0, 12)) is accepted and a candidate starting at 10 (such
    as (10, 20)) is refused. *)
Theorem is_available_conflict_rule (now : datetime) (b : Z) (s : datetime)
    (st : db) :
  connection st = true ->
  let existing := live now (bookings st) in
  bookings (exec (_is_available_bookings now b s) st) = existing
  /\ (exists available : bool,
        result (_is_available_bookings now b s) st = inr (Some available)
        /\ (available = false <->
            exists r, In r existing /\ book_id r = b
                      /\ start_date r < s /\ s < end_date r)
        /\ (available = true <->
            forall r, In r existing -> book_id r = b ->
                      ~ (start_date r < s /\ s < end_date r)))
  /\ (forall u,
        bookings st
        = [{| user_id := u; book_id := b; start_date := 5;
              end_date := 15 |}] ->
        now <= 15 ->
        result (_is_available_bookings now b 0) st = inr (Some true)
        /\ result (_is_available_bookings now b 10) st = inr (Some false)).
Proof.
  intros Hc existing. unfold result, exec.
  split; [| split].
  - rewrite is_available_connected by exact Hc. reflexivity.
  - rewrite is_available_connected by exact Hc. cbn [fst].
    fold existing. eexists. split; [reflexivity |]. split.
    + rewrite <- not_true_iff_false, forallb_forall. split.
      * intros Hn.
        destruct (existsb (conflicts b s) existing) eqn:E.
        -- apply existsb_exists in E as [r [Hr Hcf]].
           exists r. apply conflicts_true in Hcf. tauto.
        -- exfalso. apply Hn. intros r Hr.
           destruct (conflicts b s r) eqn:Ecf; [| reflexivity].
           assert (existsb (conflicts b s) existing = true) as E'
               by (apply existsb_exists; eauto).
           congruence.
      * intros [r [Hr Hcf]] Hall.
        specialize (Hall r Hr). apply negb_true_iff in Hall.
        assert (conflicts b s r = true) by (apply conflicts_true; tauto).
        congruence.
    + rewrite forallb_forall. split.
      * intros Hall r Hr Hb Hin. specialize (Hall r Hr).
        apply negb_true_iff in Hall.
        assert (conflicts b s r = true) by (apply conflicts_true; tauto).
        congruence.
      * intros Hall r Hr. apply negb_true_iff.
        destruct (conflicts b s r) eqn:Ecf; [| reflexivity].
        apply conflicts_true in Ecf. exfalso.
        apply (Hall r Hr); tauto.
  - intros u Hb Hnow.
    rewrite !is_available_connected by exact Hc. rewrite Hb.
    unfold live, expired. cbn [List.filter end_date].
    assert ((15 <? now) = false) as -> by (apply Z.ltb_ge; lia).
    cbn [negb forallb conflicts]. unfold conflicts. cbn.
    rewrite Z.eqb_refl. split; reflexivity.
Qed.

Lemma is_available_conflict_rule_witness :
  connection booked_5_15 = true
  /\ bookings
       (exec (_is_available_bookings (seconds 1) 1 (seconds 10)) booked_5_15)
     = live (seconds 1) (bookings booked_5_15).
Proof.
  split; [reflexivity |].
  apply (is_available_conflict_rule (seconds 1) 1 (seconds 10) booked_5_15).
  reflexivity.
Defined.

(** C4.  On a connected store the sweep run at [now] deletes exactly the
    bookings with end < now and touches nothing else; [get_active_bookings]
    and [_is_available_bookings] run it first, so they leave the swept
    ledger behind, a booking with end < now is in no listed row, and it
    takes no part in the conflict check, whose answer is the one computed
    on the rows that survive the sweep. *)
Theorem sweep_before_reads (now now' : datetime) (b : Z) (s : datetime)
    (st : db) :
  connection st = true ->
  (* the sweep *)
  (let st' := exec (_checking_booking_date now) st in
   (forall r, In r (bookings st') <-> In r (bookings st) /\ ~ end_date r < now)
   /\ bookings st' = live now (bookings st)
   /\ st' = set_bookings (bookings st') st)
  (* the listing *)
  /\ (bookings (exec (get_active_bookings now now') st)
      = live now (bookings st)
      /\ exists rows,
           result (get_active_bookings now now') st = inr (Some rows)
           /\ forall row, In row rows ->
                exists r, In r (bookings st)
                          /\ row = (book_id r, start_date r, end_date r)
                          /\ ~ end_date r < now /\ ~ end_date r < now')
  (* the availability check *)
  /\ (bookings (exec (_is_available_bookings now b s) st)
      = live now (bookings st)
      /\ result (_is_available_bookings now b s) st
         = inr (Some (forallb (fun r => negb (conflicts b s r))
                        (live now (bookings st))))
      /\ forall r, In r (bookings st) -> end_date r < now ->
           ~ In r (bookings (exec (_is_available_bookings now b s) st))).
Proof.
  intros Hc. unfold result, exec. split; [| split].
  - rewrite sweep_connected by exact Hc. cbn [snd bookings set_bookings].
    split; [| split; reflexivity].
    intros r. apply In_live.
  - rewrite get_active_bookings_connected by exact Hc. cbn [fst snd].
    cbn [bookings set_bookings].
    split; [reflexivity |].
    eexists; split; [reflexivity |].
    intros row Hrow.
    apply in_flat_map in Hrow as [r [Hr Hrow]].
    apply List.filter_In in Hr as [Hr Hnow'].
    apply in_flat_map in Hrow as [bk [_ Hrow]].
    apply in_map_iff in Hrow as [a [Hrow _]].
    apply In_live in Hr as [Hr Hnow].
    apply Z.leb_le in Hnow'.
    exists r. repeat split; auto; lia.
  - rewrite is_available_connected by exact Hc. cbn [fst snd].
    cbn [bookings set_bookings].
    split; [reflexivity | split; [reflexivity |]].
    intros r _ Hexp Hin. apply In_live in Hin. tauto.
Qed.

Lemma sweep_before_reads_witness :
  connection booked_5_15 = true
  /\ bookings (exec (get_active_bookings (seconds 16) (seconds 17)) booked_5_15)
     = live (seconds 16) (bookings booked_5_15).
Proof.
  split; [reflexivity |].
  apply (sweep_before_reads (seconds 16) (seconds 17) 1 0 booked_5_15).
  reflexivity.
Defined.

(** ** [add_booking] *)

Lemma insert_booking_run u b s e st :
  insert_booking u b s e st
  = if fits_integer u && fits_integer b then
      if existsb (fun r => b_id r =? b) (books st) then
        (inr tt,
         set_bookings
           (bookings st
            ++ [{| user_id := u; book_id := b; start_date := s;
                   end_date := e |}]) st)
      else (inl ForeignKeyViolation, st)
    else (inl NumericValueOutOfRange, st).
Proof.
  unfold insert_booking, integer, bind, get, lift, ret, raise, modify.
  destruct (fits_integer u); [| reflexivity].
  destruct (fits_integer b); [| reflexivity].
  cbn [andb negb].
  destruct (existsb (fun r => b_id r =? b) (books st)); reflexivity.
Qed.

Lemma add_booking_connected now u b start stop st :
  connection st = true ->
  add_booking now u b start stop st
  = let s := replace_microsecond_0 start in
    let e := replace_microsecond_0 stop in
    let st1 := set_bookings (live now (bookings st)) st in
    if forallb (fun r => negb (conflicts b s r)) (live now (bookings st))
    then
      match insert_booking u b s e st1 with
      | (inr _, st2) =>
          (inr tt, set_stdout (stdout st2 ++ [Line "Книга забронирована"]) st2)
      | (inl ex, st2) =>
          (inr tt,
           set_stdout
             (stdout st2 ++ [ErrLine "Ошибка при создании бронирования" ex])
             st2)
      end
    else
      (inr tt,
       set_stdout
         (stdout st1
          ++ [Line "Ошибка: книга уже забронирована на это время"]) st1).
Proof.
  intros H. cbv zeta. unfold add_booking, try_except, add_booking_body.
  unfold bind at 1. rewrite is_available_connected by exact H.
  destruct (forallb _ (live now (bookings st))); cbn [is_true].
  - unfold bind at 1. rewrite cursor_connected by exact H.
    unfold bind at 1.
    destruct (insert_booking u b _ _ _) as [[ex | []] st2]; reflexivity.
  - reflexivity.
Qed.

Lemma add_booking_disconnected now u b start stop st :
  connection st = false ->
  bookings (exec (add_booking now u b start stop) st) = bookings st.
Proof.
  intros H. unfold exec, add_booking, try_except, add_booking_body.
  unfold bind at 1. unfold _is_available_bookings. unfold bind at 1.
  rewrite sweep_disconnected by exact H.
  unfold try_except, _is_available_bookings_body. unfold bind at 1.
  rewrite cursor_disconnected by exact H. reflexivity.
Qed.

(** ** The order-aware invariant *)

Lemma no_overlap_in_order_app l x :
  no_overlap_in_order (l ++ [x])
  = no_overlap_in_order l && forallb (fun a => negb (starts_inside a x)) l.
Proof.
  induction l as [| a l IH]; [reflexivity |].
  cbn [app no_overlap_in_order forallb]. rewrite IH, forallb_app.
  cbn [forallb]. rewrite andb_true_r.
  destruct (forallb (fun b => negb (starts_inside a b)) l),
    (negb (starts_inside a x)), (no_overlap_in_order l),
    (forallb (fun a0 => negb (starts_inside a0 x)) l); reflexivity.
Qed.

Lemma forallb_filter {A} (p q : A -> bool) l :
  forallb p l = true -> forallb p (List.filter q l) = true.
Proof.
  rewrite !forallb_forall. intros H x Hx.
  apply List.filter_In in Hx as [Hx _]. auto.
Qed.

Lemma no_overlap_in_order_filter q l :
  no_overlap_in_order l = true ->
  no_overlap_in_order (List.filter q l) = true.
Proof.
  induction l as [| a l IH]; [reflexivity |].
  cbn [no_overlap_in_order List.filter]. intros H.
  apply andb_true_iff in H as [H1 H2].
  destruct (q a); [| auto].
  cbn [no_overlap_in_order]. apply andb_true_iff. split; [| auto].
  apply forallb_filter. exact H1.
Qed.

Lemma no_conflict_no_start_inside u b s e l :
  forallb (fun r => negb (conflicts b s r)) l = true ->
  forallb
    (fun a =>
       negb (starts_inside a
               {| user_id := u; book_id := b; start_date := s;
                  end_date := e |})) l = true.
Proof.
  rewrite !forallb_forall. intros H a Ha. specialize (H a Ha).
  unfold conflicts in H. unfold starts_inside. cbn. exact H.
Qed.

Lemma add_booking_keeps_order now u b start stop st :
  no_overlap_in_order (bookings st) = true ->
  no_overlap_in_order (bookings (exec (add_booking now u b start stop) st))
  = true.
Proof.
  intros Hinv. destruct (connection st) eqn:Hc.
  - unfold exec. rewrite add_booking_connected by exact Hc. cbv zeta.
    assert (Hlive : no_overlap_in_order (live now (bookings st)) = true)
      by (apply no_overlap_in_order_filter; exact Hinv).
    destruct (forallb _ (live now (bookings st))) eqn:Hav.
    + rewrite insert_booking_run.
      destruct (fits_integer u && fits_integer b); [| exact Hlive].
      cbn [books set_bookings].
      destruct (existsb _ (books st)); [| exact Hlive].
      cbn [snd bookings set_stdout set_bookings].
      rewrite no_overlap_in_order_app, Hlive.
      apply no_conflict_no_start_inside. exact Hav.
    + exact Hlive.
  - rewrite add_booking_disconnected by exact Hc. exact Hinv.
Qed.

Lemma no_overlap_in_order_split l :
  no_overlap_in_order l = true ->
  forall l1 a l2 b l3,
    l = l1 ++ a :: l2 ++ b :: l3 -> starts_inside a b = false.
Proof.
  intros Hinv l1. revert l Hinv.
  induction l1 as [| x l1 IH]; intros l Hinv a l2 b l3 ->.
  - cbn [app no_overlap_in_order] in Hinv.
    apply andb_true_iff in Hinv as [Hall _].
    rewrite forallb_app in Hall. apply andb_true_iff in Hall as [_ Hall].
    cbn [forallb] in Hall. apply andb_true_iff in Hall as [Hb _].
    apply negb_true_iff in Hb. exact Hb.
  - cbn [app no_overlap_in_order] in Hinv.
    apply andb_true_iff in Hinv as [_ Hinv].
    eapply IH; [exact Hinv | reflexivity].
Qed.

Lemma add_bookings_keep_order calls st :
  no_overlap_in_order (bookings st) = true ->
  no_overlap_in_order (bookings (add_bookings calls st)) = true.
Proof.
  revert st. induction calls as [| c calls IH]; intros st Hinv.
  - exact Hinv.
  - cbn [add_bookings fold_left]. apply IH.
    apply add_booking_keeps_order. exact Hinv.
Qed.

(** C2, as the code has it.  Whatever [add_booking] calls are made, from a
    ledger where no booking starts strictly inside a booking of the same
    book stored before it (the empty ledger is one), the ledger stays so:
    for stored bookings [a] and [b] of one book with [a] stored before
    [b], a.start < b.start < a.end never holds.  Nothing is promised for a
    booking stored after the one it covers. *)
Theorem add_bookings_no_later_start_inside (calls : list booking_call)
    (st : db) :
  no_overlap_in_order (bookings st) = true ->
  no_overlap_in_order (bookings (add_bookings calls st)) = true
  /\ forall l1 a l2 b l3,
       bookings (add_bookings calls st) = l1 ++ a :: l2 ++ b :: l3 ->
       book_id a = book_id b ->
       ~ (start_date a < start_date b /\ start_date b < end_date a).
Proof.
  intros Hinv.
  pose proof (add_bookings_keep_order calls st Hinv) as Hfin.
  split; [exact Hfin |].
  intros l1 a l2 b l3 Hsplit Hbook [H1 H2].
  pose proof (no_overlap_in_order_split _ Hfin _ _ _ _ _ Hsplit) as Hno.
  unfold starts_inside in Hno.
  apply Z.eqb_eq in Hbook. apply Z.ltb_lt in H1, H2.
  rewrite Hbook, H1, H2 in Hno. discriminate.
Qed.

Lemma add_bookings_no_later_start_inside_witness :
  no_overlap_in_order (bookings catalogue) = true
  /\ no_overlap_in_order (bookings (add_bookings late_then_early catalogue))
     = true.
Proof.
  split; [reflexivity |].
  apply (add_bookings_no_later_start_inside late_then_early catalogue).
  reflexivity.
Defined.

(** C2 fails as stated: on the empty ledger of [catalogue], booking book 1
    from second 5 to 15 and then from second 0 to 12 succeeds twice (the
    second start, 0, is inside no stored interval), and the two stored
    intervals a = (0, 12), b = (5, 15) have a.start < b.start < a.end. *)
Lemma no_overlap_broken_by_earlier_start :
  bookings catalogue = []
  /\ bookings (add_bookings late_then_early catalogue)
     = [{| user_id := 1; book_id := 1; start_date := seconds 5;
           end_date := seconds 15 |};
        {| user_id := 2; book_id := 1; start_date := seconds 0;
           end_date := seconds 12 |}]
  /\ skipn (length (stdout catalogue))
       (stdout (add_bookings late_then_early catalogue))
     = [Line "Книга забронирована"; Line "Книга забронирована"]
  /\ (seconds 0 < seconds 5 /\ seconds 5 < seconds 12)
  /\ no_overlap (bookings (add_bookings late_then_early catalogue)) = false.
Proof. vm_compute. repeat split; reflexivity. Qed.

(** C3, as the code has it.  [add_booking] never compares the two
    instants.  A call with end <= start (after both are cut to whole
    seconds) raises nothing and is decided by the availability check alone:
    when the check passes and the store takes the row (the book exists,
    the ids fit INTEGER) the row is stored with the truncated instants and
    the success line is printed; when the check reports a conflict the
    ledger is the swept one and the conflict line is printed. *)
Theorem add_booking_ignores_interval_order (now : datetime) (u b : Z)
    (start stop : datetime) (st : db) :
  connection st = true ->
  replace_microsecond_0 stop <= replace_microsecond_0 start ->
  let s := replace_microsecond_0 start in
  let e := replace_microsecond_0 stop in
  result (add_booking now u b start stop) st = inr tt
  /\ s mod 1000000 = 0 /\ e mod 1000000 = 0
  /\ (result (_is_available_bookings now b s) st = inr (Some true) ->
      fits_integer u = true -> fits_integer b = true ->
      existsb (fun r => b_id r =? b) (books st) = true ->
      bookings (exec (add_booking now u b start stop) st)
      = live now (bookings st)
        ++ [{| user_id := u; book_id := b; start_date := s;
               end_date := e |}]
      /\ printed (add_booking now u b start stop) st
         = [Line "Книга забронирована"])
  /\ (result (_is_available_bookings now b s) st = inr (Some false) ->
      bookings (exec (add_booking now u b start stop) st)
      = live now (bookings st)
      /\ printed (add_booking now u b start stop) st
         = [Line "Ошибка: книга уже забронирована на это время"]).
Proof.
  intros Hc _ s e. unfold printed, result, exec.
  rewrite add_booking_connected by exact Hc. cbv zeta.
  rewrite is_available_connected by exact Hc. cbn [fst].
  fold s e.
  assert (Hmod : forall t, replace_microsecond_0 t mod 1000000 = 0).
  { intros t. unfold replace_microsecond_0.
    rewrite Zminus_mod, Zmod_mod, Z.sub_diag. reflexivity. }
  split; [| split; [apply Hmod | split; [apply Hmod | split]]].
  - destruct (forallb _ _); [| reflexivity].
    destruct (insert_booking _ _ _ _ _) as [[ex | []] st2]; reflexivity.
  - intros Hav Hu Hb Hbook. injection Hav as Hav. rewrite Hav.
    rewrite insert_booking_run, Hu, Hb. cbn [andb books set_bookings].
    rewrite Hbook. cbn [snd bookings stdout set_stdout set_bookings].
    split; [reflexivity |]. apply drop_app_length.
  - intros Hav. injection Hav as Hav. rewrite Hav.
    cbn [snd bookings stdout set_stdout set_bookings].
    split; [reflexivity |]. apply drop_app_length.
Qed.

Lemma add_booking_ignores_interval_order_witness :
  connection catalogue = true
  /\ replace_microsecond_0 (seconds 10) <= replace_microsecond_0 (seconds 20)
  /\ result (add_booking 0 1 1 (seconds 20) (seconds 10)) catalogue = inr tt.
Proof.
  split; [reflexivity | split; [vm_compute; discriminate |]].
  apply (add_booking_ignores_interval_order 0 1 1 (seconds 20) (seconds 10)
           catalogue); [reflexivity | vm_compute; discriminate].
Defined.

(** C3 fails as stated: on [catalogue], booking book 1 from second 20 to
    second 10 raises nothing, prints the success line and stores the
    row. *)
Lemma invalid_interval_is_stored :
  result (add_booking 0 1 1 (seconds 20) (seconds 10)) catalogue = inr tt
  /\ bookings (exec (add_booking 0 1 1 (seconds 20) (seconds 10)) catalogue)
     = [{| user_id := 1; book_id := 1; start_date := seconds 20;
           end_date := seconds 10 |}]
  /\ printed (add_booking 0 1 1 (seconds 20) (seconds 10)) catalogue
     = [Line "Книга забронирована"]
  /\ seconds 20 >= seconds 10.
Proof. vm_compute. repeat split; try reflexivity. discriminate. Qed.

(** ** [cancel_booking] *)

Lemma cancel_booking_connected u b st :
  connection st = true ->
  cancel_booking u b st
  = (inr tt,
     set_stdout (stdout st ++ [Line "Бронирование успешно отменено"])
       (set_bookings
          (List.filter (fun r => negb ((book_id r =? b) && (user_id r =? u)))
             (bookings st)) st)).
Proof.
  intros H. unfold cancel_booking. apply try_except_returns.
  unfold cancel_booking_body, bind.
  rewrite cursor_connected by exact H. reflexivity.
Qed.

Lemma filter_idem {A} (p : A -> bool) l :
  List.filter p (List.filter p l) = List.filter p l.
Proof.
  induction l as [| x l IH]; [reflexivity |].
  cbn [List.filter]. destruct (p x) eqn:E; [| exact IH].
  cbn [List.filter]. rewrite E, IH. reflexivity.
Qed.

(** C6, as the code has it.  On a connected store [cancel_booking] deletes
    every booking of that (user, book) pair, whatever its interval, and no
    other row; it returns [None] and prints the same success line whatever
    the number of rows it deleted, so the count is not reported.  Deleting
    nothing is not an error: a second identical call leaves the ledger as
    it is and prints the success line again. *)
Theorem cancel_booking_deletes_pair (u b : Z) (st : db) :
  connection st = true ->
  let st' := exec (cancel_booking u b) st in
  result (cancel_booking u b) st = inr tt
  /\ printed (cancel_booking u b) st = [Line "Бронирование успешно отменено"]
  /\ (forall r, In r (bookings st') <->
                In r (bookings st) /\ ~ (book_id r = b /\ user_id r = u))
  /\ st' = set_stdout (stdout st') (set_bookings (bookings st') st)
  /\ result (cancel_booking u b) st' = inr tt
  /\ bookings (exec (cancel_booking u b) st') = bookings st'
  /\ printed (cancel_booking u b) st' = [Line "Бронирование успешно отменено"].
Proof.
  intros Hc st'. unfold printed, result, exec in *. subst st'.
  rewrite (cancel_booking_connected u b st Hc). cbn [fst snd].
  rewrite cancel_booking_connected by exact Hc. cbn [fst snd].
  cbn [bookings stdout set_stdout set_bookings].
  rewrite filter_idem.
  repeat split; try reflexivity; try apply drop_app_length.
  - apply List.filter_In in H as [H _]. exact H.
  - intros [Hb Hu]. apply List.filter_In in H as [_ H].
    apply negb_true_iff, andb_false_iff in H.
    rewrite !Z.eqb_neq in H. tauto.
  - intros [Hin Hne]. apply List.filter_In. split; [exact Hin |].
    apply negb_true_iff, andb_false_iff. rewrite !Z.eqb_neq.
    destruct (Z.eq_dec (book_id r) b); [right | left]; tauto.
Qed.

Lemma cancel_booking_deletes_pair_witness :
  connection booked_twice = true
  /\ printed (cancel_booking 1 1) booked_twice
     = [Line "Бронирование успешно отменено"].
Proof.
  split; [reflexivity |].
  apply (cancel_booking_deletes_pair 1 1 booked_twice). reflexivity.
Defined.

(** C6 fails as stated: cancelling (user 1, book 1) removes two bookings
    from [booked_twice] and none from [catalogue], and the caller gets the
    same return value and the same printed line in both cases. *)
Lemma cancel_does_not_report_count :
  (length (bookings booked_twice)
   - length (bookings (exec (cancel_booking 1 1) booked_twice)) = 2)%nat
  /\ (length (bookings catalogue)
      - length (bookings (exec (cancel_booking 1 1) catalogue)) = 0)%nat
  /\ result (cancel_booking 1 1) booked_twice
     = result (cancel_booking 1 1) catalogue
  /\ printed (cancel_booking 1 1) booked_twice
     = printed (cancel_booking 1 1) catalogue.
Proof. vm_compute. repeat split; reflexivity. Qed.

(** ** [remove_book] *)

Lemma length_filter_zero {A} (p : A -> bool) l :
  Nat.eqb (length (List.filter p l)) 0 = negb (existsb p l).
Proof.
  induction l as [| x l IH]; [reflexivity |].
  cbn [List.filter existsb]. destruct (p x); [reflexivity | exact IH].
Qed.

Lemma count_filter_zero {A} (p : A -> bool) l :
  (Z.of_nat (length (List.filter p l)) =? 0) = negb (existsb p l).
Proof.
  rewrite <- length_filter_zero.
  destruct (length (List.filter p l)); reflexivity.
Qed.

Lemma remove_book_connected id st :
  connection st = true ->
  remove_book id st
  = if existsb (fun b => b_id b =? id) (books st)
       && existsb (fun r => book_id r =? id) (bookings st)
    then
      (inr tt,
       set_stdout
         (stdout st ++ [ErrLine "Ошибка при удалении книги"
                          ForeignKeyViolation]) st)
    else
      let st' :=
        set_books (List.filter (fun b => negb (b_id b =? id)) (books st))
          (books_id_seq st)
          (set_book_genres
             (List.filter (fun r => negb (bg_book_id r =? id))
                (book_genres st)) st) in
      (inr tt,
       set_stdout
         (stdout st
          ++ [Line (if existsb (fun b => b_id b =? id) (books st)
                    then "Книга удалена"
                    else "Книги с таким id не существует")]) st').
Proof.
  intros H. unfold remove_book, try_except, remove_book_body.
  unfold bind at 1. rewrite cursor_connected by exact H.
  unfold bind at 1. unfold delete_book. unfold bind at 1. unfold get at 1.
  rewrite length_filter_zero, negb_involutive.
  destruct (existsb (fun b => b_id b =? id) (books st)) eqn:Eb.
  - destruct (existsb (fun r => book_id r =? id) (bookings st)) eqn:Er;
      cbn [andb].
    + reflexivity.
    + unfold bind, modify, ret. rewrite count_filter_zero, Eb. reflexivity.
  - cbn [andb]. unfold bind, modify, ret. rewrite count_filter_zero, Eb.
    reflexivity.
Qed.

(** C7, as the code has it.  On a connected store [remove_book] never
    changes the bookings ledger.  When no booking references an existing
    book of that id, the genre-join rows of the id and the book row are
    deleted, and the call prints the success line when a book row was
    deleted and the "no such book" line when none was.  When a booking
    references the book, the foreign key of [bookings.book_id] refuses the
    DELETE: the book row and its genre-join rows stay and the error line is
    printed; no booking is ever left pointing at a deleted book. *)
Theorem remove_book_frame (id : Z) (st : db) :
  connection st = true ->
  let st' := exec (remove_book id) st in
  let exists_book := existsb (fun b => b_id b =? id) (books st) in
  let referenced := existsb (fun r => book_id r =? id) (bookings st) in
  result (remove_book id) st = inr tt
  /\ bookings st' = bookings st
  /\ (exists_book && referenced = false ->
      book_genres st'
      = List.filter (fun r => negb (bg_book_id r =? id)) (book_genres st)
      /\ books st' = List.filter (fun b => negb (b_id b =? id)) (books st)
      /\ printed (remove_book id) st
         = [Line (if exists_book then "Книга удалена"
                  else "Книги с таким id не существует")])
  /\ (exists_book && referenced = true ->
      book_genres st' = book_genres st
      /\ books st' = books st
      /\ printed (remove_book id) st
         = [ErrLine "Ошибка при удалении книги" ForeignKeyViolation])
  /\ Line "Книга удалена" <> Line "Книги с таким id не существует".
Proof.
  intros Hc st' exists_book referenced.
  unfold printed, result, exec in *. subst st'.
  rewrite remove_book_connected by exact Hc.
  fold exists_book referenced.
  destruct (exists_book && referenced) eqn:E; cbv zeta; cbn [fst snd];
    (split; [reflexivity |]); (split; [reflexivity |]);
    (split; [| split; [| discriminate]]);
    try discriminate; intros _;
    (split; [reflexivity | split; [reflexivity |]]);
    apply drop_app_length.
Qed.

Lemma remove_book_frame_witness :
  connection catalogue = true
  /\ bookings (exec (remove_book 1) catalogue) = bookings catalogue.
Proof.
  split; [reflexivity |].
  apply (remove_book_frame 1 catalogue). reflexivity.
Defined.

(** C7 fails as stated: book 1 of [booked_5_15] is referenced by a
    booking, and [remove_book 1] deletes neither its genre-join row nor the
    book row; it prints the foreign-key error. *)
Lemma remove_book_refused_when_booked :
  existsb (fun b => b_id b =? 1) (books booked_5_15) = true
  /\ books (exec (remove_book 1) booked_5_15) = books booked_5_15
  /\ book_genres (exec (remove_book 1) booked_5_15)
     = book_genres booked_5_15
  /\ book_genres booked_5_15 = [{| bg_book_id := 1; bg_genre_id := 1 |}]
  /\ printed (remove_book 1) booked_5_15
     = [ErrLine "Ошибка при удалении книги" ForeignKeyViolation].
Proof. vm_compute. repeat split; reflexivity. Qed.

(** ** Failures of the store *)

Lemma unit_method_returns (body : M unit) p st :
  result (try_except body (fun e => print (ErrLine p e)) tt) st = inr tt.
Proof.
  unfold result, try_except.
  destruct (body st) as [[e | []] st']; reflexivity.
Qed.

Lemma option_method_returns {A} (body : M (option A)) p st :
  exists o, result (try_except body (fun e => print (ErrLine p e)) None) st
            = inr o.
Proof.
  apply try_except_never_raises. intros e st'. apply print_returns.
Qed.

Lemma after_sweep_returns {A} now (m : M A) st :
  (forall st', exists a, result m st' = inr a) ->
  exists a, result (_checking_booking_date now ;; m) st = inr a.
Proof.
  intros Hm. unfold result, bind.
  pose proof (unit_method_returns (_checking_booking_date_body now)
                "Ошибка при снятии бронирования по времени" st) as Hs.
  unfold result in Hs. fold (_checking_booking_date now) in Hs.
  destruct (_checking_booking_date now st) as [[e | []] st'];
    [discriminate |].
  apply Hm.
Qed.

Lemma fails_disconnected {A} (k : M A) st :
  connection st = false -> (cursor ;; k) st = (inl AttributeError, st).
Proof.
  intros H. unfold bind. rewrite cursor_disconnected by exact H.
  reflexivity.
Qed.

(** C5, as the code has it.  No method lets an exception through: each
    one catches whatever the store raises, prints a line naming the
    operation and the exception, and returns [None].  [add_book],
    [remove_book], [add_booking], [cancel_booking] and the sweep return
    [None] on success as well; the three queries return [None] instead of
    their result.  With [self.connection] left at [None] every method fails
    this way and changes nothing but the output; [add_booking] then prints
    the "already booked" line, taking the failed availability check for a
    conflict. *)
Theorem failures_are_printed_not_raised (st : db) :
  (forall book, result (add_book book) st = inr tt)
  /\ (forall id, result (remove_book id) st = inr tt)
  /\ (forall u b, result (cancel_booking u b) st = inr tt)
  /\ (forall now u b s e, result (add_booking now u b s e) st = inr tt)
  /\ (forall now, result (_checking_booking_date now) st = inr tt)
  /\ (forall now min_price max_price genre first last,
        exists o,
          result (get_books_filtered now min_price max_price genre first last)
            st = inr o)
  /\ (forall now b s, exists o,
        result (_is_available_bookings now b s) st = inr o)
  /\ (forall now now', exists o,
        result (get_active_bookings now now') st = inr o)
  /\ (connection st = false ->
      let sweep_line :=
        ErrLine "Ошибка при снятии бронирования по времени" AttributeError in
      (forall book,
         add_book book st
         = (inr tt,
            set_stdout
              (stdout st ++ [ErrLine "Ошибка при записи книги" AttributeError])
              st))
      /\ (forall id,
            remove_book id st
            = (inr tt,
               set_stdout
                 (stdout st
                  ++ [ErrLine "Ошибка при удалении книги" AttributeError])
                 st))
      /\ (forall u b,
            cancel_booking u b st
            = (inr tt,
               set_stdout
                 (stdout st
                  ++ [ErrLine "Ошибка при отмене бронирования"
                        AttributeError]) st))
      /\ (forall now u b s e,
            add_booking now u b s e st
            = (inr tt,
               set_stdout
                 (stdout st
                  ++ [sweep_line;
                      ErrLine "Ошибка при проверки бронирования"
                        AttributeError;
                      Line "Ошибка: книга уже забронирована на это время"])
                 st))
      /\ (forall now min_price max_price genre first last,
            get_books_filtered now min_price max_price genre first last st
            = (inr None,
               set_stdout
                 (stdout st
                  ++ [sweep_line;
                      ErrLine "Ошибка при выборке книг с фильтрами"
                        AttributeError]) st))
      /\ (forall now b s,
            _is_available_bookings now b s st
            = (inr None,
               set_stdout
                 (stdout st
                  ++ [sweep_line;
                      ErrLine "Ошибка при проверки бронирования"
                        AttributeError]) st))
      /\ (forall now now',
            get_active_bookings now now' st
            = (inr None,
               set_stdout
                 (stdout st
                  ++ [sweep_line;
                      ErrLine "Ошибка при получении активных бронирований"
                        AttributeError]) st))).
Proof.
  repeat match goal with |- _ /\ _ => split end.
  - intros. apply unit_method_returns.
  - intros. apply unit_method_returns.
  - intros. apply unit_method_returns.
  - intros. apply unit_method_returns.
  - intros. apply unit_method_returns.
  - intros. apply after_sweep_returns. intros st'.
    apply option_method_returns.
  - intros. apply after_sweep_returns. intros st'.
    apply option_method_returns.
  - intros. apply after_sweep_returns. intros st'.
    apply option_method_returns.
  - intros Hc sweep_line.
    assert (Hsw : forall now,
               _checking_booking_date now st
               = (inr tt, set_stdout (stdout st ++ [sweep_line]) st))
      by (intros; apply sweep_disconnected; exact Hc).
    set (st1 := set_stdout (stdout st ++ [sweep_line]) st) in *.
    assert (Hc1 : connection st1 = false) by exact Hc.
    assert (Hout : forall l,
               set_stdout (stdout st1 ++ [l]) st1
               = set_stdout (stdout st ++ [sweep_line; l]) st).
    { intros l. unfold st1, set_stdout. cbn. rewrite <- app_assoc.
      reflexivity. }
    assert (Hav : forall now b s,
               _is_available_bookings now b s st
               = (inr None,
                  set_stdout
                    (stdout st
                     ++ [sweep_line;
                         ErrLine "Ошибка при проверки бронирования"
                           AttributeError]) st)).
    { intros. unfold _is_available_bookings. unfold bind at 1. rewrite Hsw.
      rewrite <- Hout. apply try_except_catches.
      apply fails_disconnected, Hc1. }
    repeat match goal with |- _ /\ _ => split end.
    + intros. apply try_except_catches. apply fails_disconnected, Hc.
    + intros. apply try_except_catches. apply fails_disconnected, Hc.
    + intros. apply try_except_catches. apply fails_disconnected, Hc.
    + intros. unfold add_booking, try_except, add_booking_body.
      unfold bind at 1. rewrite Hav.
      cbn [is_true]. unfold print, modify.
      unfold set_stdout. cbn. rewrite <- app_assoc. reflexivity.
    + intros. unfold get_books_filtered. unfold bind at 1. rewrite Hsw.
      rewrite <- Hout. apply try_except_catches.
      apply fails_disconnected, Hc1.
    + exact Hav.
    + intros. unfold get_active_bookings. unfold bind at 1. rewrite Hsw.
      rewrite <- Hout. apply try_except_catches.
      apply fails_disconnected, Hc1.
Qed.

Lemma failures_are_printed_not_raised_witness :
  connection (disconnected catalogue) = false
  /\ get_active_bookings 0 0 (disconnected catalogue)
     = (inr None,
        set_stdout
          (stdout (disconnected catalogue)
           ++ [ErrLine "Ошибка при снятии бронирования по времени"
                 AttributeError;
               ErrLine "Ошибка при получении активных бронирований"
                 AttributeError]) (disconnected catalogue)).
Proof.
  split; [reflexivity |].
  apply (failures_are_printed_not_raised (disconnected catalogue)).
  reflexivity.
Defined.

(** C5 fails as stated: with the connection missing, the body of
    [add_book] (and of [cancel_booking]) raises, yet the method returns
    [None] to its caller, the value it returns when the book is stored (or
    the booking cancelled), and leaves every table as it was. *)
Lemma store_failure_is_swallowed :
  result (add_book_body dune) (disconnected empty_db) = inl AttributeError
  /\ result (add_book dune) (disconnected empty_db) = inr tt
  /\ result (add_book dune) empty_db = inr tt
  /\ books (exec (add_book dune) (disconnected empty_db)) = []
  /\ length (books (exec (add_book dune) empty_db)) = 1%nat
  /\ result (cancel_booking_body 1 1) (disconnected booked_5_15)
     = inl AttributeError
  /\ result (cancel_booking 1 1) (disconnected booked_5_15)
     = result (cancel_booking 1 1) booked_5_15
  /\ bookings (exec (cancel_booking 1 1) (disconnected booked_5_15))
     = bookings booked_5_15.
Proof. vm_compute. repeat split; reflexivity. Qed.

(** ** [get_books_filtered] *)

Lemma get_books_filtered_connected now min_price max_price genre first last
    st :
  connection st = true ->
  get_books_filtered now min_price max_price genre first last st
  = let st1 := set_bookings (live now (bookings st)) st in
    let query := filter_query min_price max_price genre first last in
    if forallb condition_typed query then
      (inr (Some (books_dict
                    (List.map project
                       (List.filter
                          (fun r => let '(b, g, a) := r in
                                    forallb (condition_holds b g a) query)
                          (books_join st))))), st1)
    else
      (inr None,
       set_stdout
         (stdout st
          ++ [ErrLine "Ошибка при выборке книг с фильтрами"
                UndefinedFunction]) st1).
Proof.
  intros H. cbv zeta. unfold get_books_filtered. unfold bind at 1.
  rewrite sweep_connected by exact H.
  unfold try_except, get_books_filtered_body. unfold bind at 1.
  rewrite cursor_connected by exact H.
  unfold bind at 1. unfold select_books. unfold bind at 1. unfold get at 1.
  destruct (forallb condition_typed _); reflexivity.
Qed.

Lemma filter_query_non_number_min v max_price genre first last :
  isinstance_int_float v = false ->
  filter_query v max_price genre first last
  = filter_query PyNone max_price genre first last.
Proof.
  intros H. unfold filter_query. rewrite H, andb_false_r. reflexivity.
Qed.

Lemma filter_query_non_number_max min_price v genre first last :
  isinstance_int_float v = false ->
  filter_query min_price v genre first last
  = filter_query min_price PyNone genre first last.
Proof.
  intros H. unfold filter_query. rewrite H, andb_false_r. reflexivity.
Qed.

(** C10.  A [min_price] (or [max_price]) that is neither [None] nor an int
    or a float adds no condition to the query: the call does, returns and
    prints exactly what it does when that argument is [None].  No error
    comes of it: on a connected store, with both prices of that kind, the
    call returns a dictionary and prints nothing. *)
Theorem non_number_price_is_dropped (now : datetime) (v w : pyval)
    (genre first last : option string) (st : db) :
  (is_None v = false -> isinstance_int_float v = false ->
   get_books_filtered now v w genre first last st
   = get_books_filtered now PyNone w genre first last st)
  /\ (is_None w = false -> isinstance_int_float w = false ->
      get_books_filtered now v w genre first last st
      = get_books_filtered now v PyNone genre first last st)
  /\ (connection st = true ->
      is_None v = false -> isinstance_int_float v = false ->
      is_None w = false -> isinstance_int_float w = false ->
      (exists d,
         result (get_books_filtered now v w genre first last) st
         = inr (Some d))
      /\ stdout (exec (get_books_filtered now v w genre first last) st)
         = stdout st).
Proof.
  split; [| split].
  - intros _ Hv. unfold get_books_filtered, get_books_filtered_body.
    rewrite filter_query_non_number_min by exact Hv. reflexivity.
  - intros _ Hw. unfold get_books_filtered, get_books_filtered_body.
    rewrite filter_query_non_number_max by exact Hw. reflexivity.
  - intros Hc _ Hv _ Hw. unfold result, exec.
    rewrite get_books_filtered_connected by exact Hc. cbv zeta.
    rewrite filter_query_non_number_min by exact Hv.
    rewrite filter_query_non_number_max by exact Hw.
    assert (Ht : forallb condition_typed
                   (filter_query PyNone PyNone genre first last) = true).
    { unfold filter_query. cbn [is_None negb andb].
      destruct first as [f |], last as [l |], genre as [g |];
        cbn [truthy];
        repeat match goal with
               | |- context [String.eqb ?a ?b] => destruct (String.eqb a b)
               end; reflexivity. }
    rewrite Ht. cbn [fst snd]. split; [eexists; reflexivity | reflexivity].
Qed.

Lemma non_number_price_is_dropped_witness :
  is_None (PyStr "10") = false
  /\ isinstance_int_float (PyStr "10") = false
  /\ get_books_filtered 0 (PyStr "10") PyNone None None None catalogue
     = get_books_filtered 0 PyNone PyNone None None None catalogue.
Proof.
  split; [reflexivity | split; [reflexivity |]].
  apply (proj1 (non_number_price_is_dropped 0 (PyStr "10") PyNone None None
                  None catalogue)); reflexivity.
Defined.

Lemma query_is_conjunction min_price max_price genre first last b g a :
  forallb (condition_holds b g a)
    (filter_query min_price max_price genre first last)
  = satisfies min_price max_price genre first last (b, g, a).
Proof.
  unfold filter_query, satisfies, holds, price_bound, name_filter.
  destruct min_price as [| m |], max_price as [| x |],
    genre as [gn |], first as [fn |], last as [ln |];
    cbn [is_None isinstance_int_float negb andb truthy app];
    repeat match goal with
           | |- context [String.eqb ?s ""] => destruct (String.eqb s "")
           end;
    cbn [negb app forallb condition_holds];
    repeat match goal with
           | |- context [Qle_bool ?p ?q] => destruct (Qle_bool p q)
           | |- context [String.eqb ?s ?t] => destruct (String.eqb s t)
           end; reflexivity.
Qed.

Lemma query_typed min_price max_price genre first last :
  is_bool min_price = false -> is_bool max_price = false ->
  forallb condition_typed (filter_query min_price max_price genre first last)
  = true.
Proof.
  intros Hm Hx. unfold filter_query.
  destruct min_price as [| [| |] |], max_price as [| [| |] |];
    try discriminate;
    destruct genre as [gn |], first as [fn |], last as [ln |];
    cbn [is_None isinstance_int_float negb andb truthy app];
    repeat match goal with
           | |- context [String.eqb ?s ""] => destruct (String.eqb s "")
           end; reflexivity.
Qed.

Lemma In_books_join b g a st :
  In (b, g, a) (books_join st)
  <-> In b (books st) /\ In g (genres st) /\ In a (authors st)
      /\ b_author_id b = a_id a
      /\ exists bg, In bg (book_genres st)
                    /\ bg_book_id bg = b_id b /\ bg_genre_id bg = g_id g.
Proof.
  unfold books_join. rewrite in_flat_map. split.
  - intros [b' [Hb H]].
    apply in_flat_map in H as [bg [Hbg H]].
    apply in_flat_map in H as [g' [Hg H]].
    apply in_map_iff in H as [a' [Heq Ha]].
    injection Heq as -> -> ->.
    apply List.filter_In in Hbg as [Hbg Ebg], Hg as [Hg Eg], Ha as [Ha Ea].
    apply Z.eqb_eq in Ebg, Eg, Ea.
    repeat split; auto. exists bg. auto.
  - intros (Hb & Hg & Ha & Ea & bg & Hbg & Ebg & Eg).
    exists b. split; [exact Hb |].
    apply in_flat_map. exists bg. split.
    { apply List.filter_In. split; [exact Hbg |]. apply Z.eqb_eq. auto. }
    apply in_flat_map. exists g. split.
    { apply List.filter_In. split; [exact Hg |]. apply Z.eqb_eq. auto. }
    apply in_map_iff. exists a. split; [reflexivity |].
    apply List.filter_In. split; [exact Ha |]. apply Z.eqb_eq. auto.
Qed.

Lemma fold_insert_lookup (rows : list (Z * book_info))
    (d : gmap Z book_info) id info :
  fold_left (fun (d : gmap Z book_info) r => <[r.1 := r.2]> d) rows d !! id
  = Some info ->
  In (id, info) rows \/ d !! id = Some info.
Proof.
  revert d. induction rows as [| [k v] rows IH]; intros d H.
  - right. exact H.
  - cbn [fold_left] in H. apply IH in H as [H | H].
    + left. right. exact H.
    + cbn [fst snd] in H. destruct (decide (k = id)) as [-> | Hne].
      * rewrite lookup_insert_eq in H. injection H as ->.
        left. left. reflexivity.
      * rewrite lookup_insert_ne in H by exact Hne. right. exact H.
Qed.

Lemma fold_insert_member (rows : list (Z * book_info))
    (d : gmap Z book_info) id :
  (exists info, In (id, info) rows) \/ is_Some (d !! id) ->
  is_Some
    (fold_left (fun (d : gmap Z book_info) r => <[r.1 := r.2]> d) rows d
       !! id).
Proof.
  revert d. induction rows as [| [k v] rows IH]; intros d H.
  - destruct H as [[info []] | H]. exact H.
  - cbn [fold_left fst snd]. apply IH.
    destruct H as [[info [Heq | Hin]] | H].
    + injection Heq as -> ->. right. rewrite lookup_insert_eq. eauto.
    + left. eauto.
    + right. destruct (decide (k = id)) as [-> | Hne].
      * rewrite lookup_insert_eq. eauto.
      * rewrite lookup_insert_ne by exact Hne. exact H.
Qed.

(** C8, as the code has it.  A price filter counts when its value is an int
    or a float, a name filter when it is a non-empty string
    ([price_bound], [name_filter]); any other value, [''] included, is
    treated like [None].  On a connected store, with no [bool] passed as a
    price, [get_books_filtered] returns a dictionary whose entries are
    exactly the books with a row in the join (a genre-join row, its genre
    and the author) that satisfies the conjunction of the filters that
    count, each under its id with its projected fields; a book without a
    genre-join row is in no result. *)
Theorem filter_is_conjunction (now : datetime) (min_price max_price : pyval)
    (genre first last : option string) (st : db) :
  connection st = true ->
  is_bool min_price = false -> is_bool max_price = false ->
  exists d : gmap Z book_info,
    result (get_books_filtered now min_price max_price genre first last) st
    = inr (Some d)
    /\ (forall id info,
          d !! id = Some info ->
          exists b g a,
            In (b, g, a) (books_join st)
            /\ satisfies min_price max_price genre first last (b, g, a) = true
            /\ b_id b = id
            /\ info = {| bi_title := b_title b; bi_price := b_price b;
                         bi_pages := b_pages b;
                         bi_first_name := a_first_name a;
                         bi_last_name := a_last_name a |})
    /\ (forall b g a,
          In (b, g, a) (books_join st) ->
          satisfies min_price max_price genre first last (b, g, a) = true ->
          is_Some (d !! b_id b))
    /\ (forall b g a,
          In (b, g, a) (books_join st)
          <-> In b (books st) /\ In g (genres st) /\ In a (authors st)
              /\ b_author_id b = a_id a
              /\ exists bg, In bg (book_genres st)
                            /\ bg_book_id bg = b_id b
                            /\ bg_genre_id bg = g_id g)
    /\ (forall id,
          (forall bg, In bg (book_genres st) -> bg_book_id bg <> id) ->
          d !! id = None).
Proof.
  intros Hc Hm Hx. unfold result.
  rewrite get_books_filtered_connected by exact Hc. cbv zeta.
  rewrite query_typed by assumption. cbn [fst].
  eexists. split; [reflexivity |].
  assert (Hsound : forall id info,
            books_dict
              (List.map project
                 (List.filter
                    (fun r => let '(b, g, a) := r in
                       forallb (condition_holds b g a)
                         (filter_query min_price max_price genre first last))
                    (books_join st))) !! id = Some info ->
            exists b g a,
              In (b, g, a) (books_join st)
              /\ satisfies min_price max_price genre first last (b, g, a)
                 = true
              /\ b_id b = id
              /\ info = {| bi_title := b_title b; bi_price := b_price b;
                           bi_pages := b_pages b;
                           bi_first_name := a_first_name a;
                           bi_last_name := a_last_name a |}).
  { intros id info H. unfold books_dict in H.
    apply fold_insert_lookup in H as [H | H];
      [| rewrite lookup_empty in H; discriminate].
    apply in_map_iff in H as [[[b g] a] [Hp Hin]].
    apply List.filter_In in Hin as [Hin Hsat].
    rewrite query_is_conjunction in Hsat.
    cbn [project] in Hp. injection Hp as <- <-.
    exists b, g, a. auto. }
  split; [exact Hsound | split; [| split]].
  - intros b g a Hin Hsat. unfold books_dict.
    apply fold_insert_member. left.
    exists (snd (project (b, g, a))).
    apply in_map_iff. exists (b, g, a). split; [reflexivity |].
    apply List.filter_In. split; [exact Hin |].
    rewrite query_is_conjunction. exact Hsat.
  - intros b g a. apply In_books_join.
  - intros id Hnone.
    match goal with
    | |- ?m !! id = None => destruct (m !! id) as [info |] eqn:E
    end; [| reflexivity].
    apply Hsound in E as (b & g & a & Hin & _ & Hid & _).
    apply In_books_join in Hin as (_ & _ & _ & _ & bg & Hbg & Ebg & _).
    exfalso. apply (Hnone bg Hbg). congruence.
Qed.

Lemma filter_is_conjunction_witness :
  connection catalogue = true
  /\ is_bool (PyNum (PyInt 10)) = false
  /\ is_bool PyNone = false
  /\ exists d : gmap Z book_info,
       result
         (get_books_filtered 0 (PyNum (PyInt 10)) PyNone (Some "SF") None
            None) catalogue = inr (Some d).
Proof.
  split; [reflexivity | split; [reflexivity | split; [reflexivity |]]].
  destruct (filter_is_conjunction 0 (PyNum (PyInt 10)) PyNone (Some "SF")
              None None catalogue eq_refl eq_refl eq_refl) as [d [Hd _]].
  exists d. exact Hd.
Defined.

(** C8 fails as stated: asked for the books whose author's first name is
    [''], the call on [catalogue] returns book 1, whose author's first
    name is "Frank". *)
Lemma empty_name_filter_is_ignored :
  exists d : gmap Z book_info,
    result (get_books_filtered 0 PyNone PyNone None (Some "") None) catalogue
    = inr (Some d)
    /\ d !! 1
       = Some {| bi_title := "Dune"; bi_price := 1000; bi_pages := 600;
                 bi_first_name := "Frank"; bi_last_name := "Herbert" |}
    /\ "Frank" <> "".
Proof.
  eexists. split; [vm_compute; reflexivity |].
  split; [vm_compute; reflexivity | discriminate].
Qed.

(** ** [add_book]: resolving the author *)

Lemma same_authors_refl st : same_authors st st.
Proof. repeat split. Qed.



Lemma lift_same_authors {A} (r : exn + A) st :
  same_authors st (snd (lift r st)).
Proof. destruct r; apply same_authors_refl. Qed.







Lemma varchar_fits n s :
  (String.length s <= n)%nat -> varchar n s = inr s.
Proof.
  intros H. unfold varchar.
  destruct (Nat.leb_spec (String.length s) n); [reflexivity | lia].
Qed.

Lemma find_app_none {A} (p : A -> bool) l x :
  List.find p l = None -> List.find p (l ++ [x]) = List.find p [x].
Proof.
  induction l as [| y l IH]; [reflexivity |].
  cbn [List.find app]. destruct (p y); [discriminate | exact IH].
Qed.

Lemma add_book_author_run book st :
  (String.length (first_name book) <= 50)%nat ->
  (String.length (last_name book) <= 50)%nat ->
  add_book_author book st
  = match List.find (author_matches (first_name book) (last_name book))
            (authors st) with
    | Some a => (inr (a_id a), st)
    | None =>
        (inr (authors_id_seq st),
         set_authors
           (authors st
            ++ [{| a_id := authors_id_seq st;
                   a_first_name := first_name book;
                   a_last_name := last_name book;
                   a_avatar := avatar book |}])
           (authors_id_seq st + 1) st)
    end.
Proof.
  intros Hf Hl. unfold add_book_author, select_author.
  unfold bind at 1. unfold bind at 1. unfold get at 1. unfold ret at 1.
  destruct (List.find _ (authors st)) as [a |]; cbn [option_map];
    [reflexivity |].
  unfold insert_author, bind, get, modify, lift, ret.
  rewrite (varchar_fits _ _ Hf), (varchar_fits _ _ Hl). reflexivity.
Qed.


Lemma author_matches_true fn ln a :
  author_matches fn ln a = true
  <-> a_first_name a = fn /\ a_last_name a = ln.
Proof.
  unfold author_matches. rewrite andb_true_iff, !String.eqb_eq. tauto.
Qed.



(** * More of the class *)

(** ** Computations that keep a property of the store *)

Lemma preserves_ret P {A} (a : A) : preserves P (ret a).
Proof. intros st H. exact H. Qed.

Lemma preserves_raise P {A} e : preserves P (@raise A e).
Proof. intros st H. exact H. Qed.

Lemma preserves_lift P {A} (r : exn + A) : preserves P (lift r).
Proof. destruct r; [apply preserves_raise | apply preserves_ret]. Qed.

Lemma preserves_bind P {A B} (m : M A) (k : A -> M B) :
  preserves P m -> (forall a, preserves P (k a)) ->
  preserves P (x <- m ;; k x).
Proof.
  intros Hm Hk st H. unfold bind. specialize (Hm st H).
  destruct (m st) as [[e | a] st']; cbn [snd] in *; [exact Hm |].
  apply Hk. exact Hm.
Qed.

Lemma preserves_cursor P : preserves P cursor.
Proof.
  intros st H. unfold cursor, bind, get, ret, raise.
  destruct (connection st); exact H.
Qed.

Lemma preserves_print P l :
  (forall st out, P st -> P (set_stdout out st)) -> preserves P (print l).
Proof. intros Hout st H. apply Hout. exact H. Qed.

Lemma preserves_try_except P {A} (body : M A) p (dflt : A) :
  (forall st out, P st -> P (set_stdout out st)) ->
  preserves P body ->
  preserves P (try_except body (fun e => print (ErrLine p e)) dflt).
Proof.
  intros Hout Hb st H. unfold try_except. specialize (Hb st H).
  destruct (body st) as [[e | a] st']; cbn [snd] in *; [| exact Hb].
  apply Hout. exact Hb.
Qed.

(** ** Keys and references *)

Lemma existsb_ids {A} (id : A -> Z) x l :
  existsb (fun r => id r =? x) l = true <-> In x (ids_of id l).
Proof.
  unfold ids_of. rewrite existsb_exists, in_map_iff.
  split; intros [r [H1 H2]]; exists r.
  - apply Z.eqb_eq in H2. auto.
  - rewrite Z.eqb_eq. auto.
Qed.

Lemma existsb_ids_false {A} (id : A -> Z) x l :
  existsb (fun r => id r =? x) l = false <-> ~ In x (ids_of id l).
Proof. rewrite <- existsb_ids, not_true_iff_false. reflexivity. Qed.

Lemma NoDup_snoc {A} (l : list A) x :
  List.NoDup l -> ~ In x l -> List.NoDup (l ++ [x]).
Proof.
  induction l as [| y l IH]; intros Hl Hx.
  - constructor; [intros [] | constructor].
  - inversion Hl as [| ? ? Hy Hl']; subst. cbn [app]. constructor.
    + rewrite in_app_iff. cbn [In]. intros [H | [H | []]]; [tauto |].
      subst. apply Hx. left. reflexivity.
    + apply IH; [exact Hl' |]. intros H. apply Hx. right. exact H.
Qed.

Lemma drawn_not_in {A} (id : A -> Z) seq l :
  Forall (fun r => id r < seq) l -> ~ In seq (ids_of id l).
Proof.
  intros H Hin. apply in_map_iff in Hin as [r [Heq Hr]].
  rewrite List.Forall_forall in H. specialize (H r Hr). lia.
Qed.

Lemma Forall_filter {A} (P : A -> Prop) (q : A -> bool) l :
  Forall P l -> Forall P (List.filter q l).
Proof.
  rewrite !List.Forall_forall. intros H x Hx.
  apply List.filter_In in Hx as [Hx _]. auto.
Qed.

Lemma NoDup_filter_list {A} (q : A -> bool) l :
  List.NoDup l -> List.NoDup (List.filter q l).
Proof.
  induction 1 as [| x l Hx Hl IH]; cbn [List.filter]; [constructor |].
  destruct (q x); [| exact IH].
  constructor; [| exact IH].
  intros H. apply List.filter_In in H as [H _]. tauto.
Qed.

Lemma NoDup_map_filter {A B} (f : A -> B) (q : A -> bool) l :
  List.NoDup (List.map f l) -> List.NoDup (List.map f (List.filter q l)).
Proof.
  induction l as [| x l IH]; cbn [List.map List.filter]; intros H;
    [constructor |].
  inversion H as [| ? ? Hx Hl]; subst.
  destruct (q x); [| auto]. cbn [List.map]. constructor; [| auto].
  intros Hin. apply Hx. apply in_map_iff in Hin as [y [Hy Hin]].
  apply List.filter_In in Hin as [Hin _].
  apply in_map_iff. eauto.
Qed.

(** ** The constraints are kept *)

Lemma constraints_stdout st out :
  constraints_hold st -> constraints_hold (set_stdout out st).
Proof. intros []. constructor; assumption. Qed.

Lemma constraints_author_seq st :
  constraints_hold st ->
  constraints_hold (set_authors (authors st) (authors_id_seq st + 1) st).
Proof.
  intros []. constructor; cbn; try assumption.
  eapply List.Forall_impl; [| eassumption]. cbn. intros; lia.
Qed.

Lemma constraints_author_row st fn ln av :
  constraints_hold st ->
  constraints_hold
    (set_authors
       (authors st
        ++ [{| a_id := authors_id_seq st; a_first_name := fn;
               a_last_name := ln; a_avatar := av |}])
       (authors_id_seq st + 1) st).
Proof.
  intros []. constructor; cbn; try assumption.
  - unfold ids_of. rewrite map_app. apply NoDup_snoc; [assumption |].
    apply drawn_not_in. assumption.
  - apply List.Forall_app. split.
    + eapply List.Forall_impl; [| eassumption]. cbn. intros; lia.
    + repeat constructor. cbn. lia.
  - eapply List.Forall_impl; [| eassumption]. cbn. intros b Hb.
    unfold ids_of in *. rewrite map_app, in_app_iff. left. exact Hb.
Qed.

Lemma constraints_insert_author fn ln av :
  preserves constraints_hold (insert_author fn ln av).
Proof.
  intros st H. unfold insert_author, bind, get, modify, lift, ret, raise.
  destruct (varchar 50 fn) as [e | fn']; cbn [snd];
    [apply constraints_author_seq; exact H |].
  destruct (varchar 50 ln) as [e | ln']; cbn [snd];
    [apply constraints_author_seq; exact H |].
  apply (constraints_author_row st fn' ln' av H).
Qed.

Lemma constraints_genre_seq st :
  constraints_hold st ->
  constraints_hold (set_genres (genres st) (genres_id_seq st + 1) st).
Proof.
  intros []. constructor; cbn; try assumption.
  eapply List.Forall_impl; [| eassumption]. cbn. intros; lia.
Qed.

Lemma existsb_name_false name l :
  existsb (fun g => String.eqb (g_name g) name) l = false ->
  ~ In name (List.map g_name l).
Proof.
  intros H Hin. apply in_map_iff in Hin as [g [Hg Hin]].
  assert (existsb (fun g => String.eqb (g_name g) name) l = true)
    by (apply existsb_exists; exists g; rewrite String.eqb_eq; auto).
  congruence.
Qed.

Lemma constraints_insert_genre name :
  preserves constraints_hold (insert_genre name).
Proof.
  intros st H. unfold insert_genre, bind, get, modify, lift, ret, raise.
  destruct (varchar 32 name) as [e | name']; cbn [snd];
    [apply constraints_genre_seq; exact H |].
  cbn [genres set_genres].
  destruct (existsb _ (genres st)) eqn:E; cbn [snd];
    [apply constraints_genre_seq; exact H |].
  apply existsb_name_false in E. destruct H.
  constructor; cbn; try assumption.
  - unfold ids_of. rewrite map_app. apply NoDup_snoc; [assumption |].
    apply drawn_not_in. assumption.
  - apply List.Forall_app. split.
    + eapply List.Forall_impl; [| eassumption]. cbn. intros; lia.
    + repeat constructor. cbn. lia.
  - rewrite map_app. apply NoDup_snoc; assumption.
  - eapply List.Forall_impl; [| eassumption]. cbn. intros r Hr.
    unfold ids_of in *. rewrite map_app, in_app_iff. left. exact Hr.
Qed.

Lemma constraints_book_seq st :
  constraints_hold st ->
  constraints_hold (set_books (books st) (books_id_seq st + 1) st).
Proof.
  intros []. constructor; cbn; try assumption.
  eapply List.Forall_impl; [| exact book_ids_drawn0]. cbn. intros; lia.
Qed.

Lemma existsb_title_false t l :
  existsb (fun b => String.eqb (b_title b) t) l = false ->
  ~ In t (List.map b_title l).
Proof.
  intros H Hin. apply in_map_iff in Hin as [b [Hb Hin]].
  assert (existsb (fun b => String.eqb (b_title b) t) l = true)
    by (apply existsb_exists; exists b; rewrite String.eqb_eq; auto).
  congruence.
Qed.

Lemma constraints_insert_book t p pg author :
  preserves constraints_hold (insert_book t p pg author).
Proof.
  intros st H. unfold insert_book, bind, get, modify, lift, ret, raise.
  destruct (varchar 255 t) as [e | t']; cbn [snd];
    [apply constraints_book_seq; exact H |].
  destruct (numeric_7_2 p) as [e | p']; cbn [snd];
    [apply constraints_book_seq; exact H |].
  destruct (smallint pg) as [e | pg']; cbn [snd];
    [apply constraints_book_seq; exact H |].
  cbn [books authors set_books].
  destruct (existsb _ (books st)) eqn:Et; cbn [snd];
    [apply constraints_book_seq; exact H |].
  destruct (existsb _ (authors st)) eqn:Ea; cbn [negb snd];
    [| apply constraints_book_seq; exact H].
  apply existsb_title_false in Et. apply existsb_ids in Ea. destruct H.
  constructor; cbn; try assumption.
  - unfold ids_of. rewrite map_app. apply NoDup_snoc; [assumption |].
    apply drawn_not_in. assumption.
  - apply List.Forall_app. split.
    + eapply List.Forall_impl; [| exact book_ids_drawn0]. cbn. intros; lia.
    + repeat constructor. cbn. lia.
  - rewrite map_app. apply NoDup_snoc; assumption.
  - apply List.Forall_app. split; [assumption |].
    repeat constructor. exact Ea.
  - eapply List.Forall_impl; [| exact book_genres_book_exists0].
    cbn. intros r Hr.
    unfold ids_of in *. rewrite map_app, in_app_iff. left. exact Hr.
  - eapply List.Forall_impl; [| exact bookings_book_exists0].
    cbn. intros r Hr.
    unfold ids_of in *. rewrite map_app, in_app_iff. left. exact Hr.
Qed.

Lemma existsb_link_false b g l :
  existsb (fun r => (bg_book_id r =? b) && (bg_genre_id r =? g)) l = false
  <-> ~ In {| bg_book_id := b; bg_genre_id := g |} l.
Proof.
  rewrite <- not_true_iff_false, existsb_exists. split.
  - intros H Hin. apply H. eexists. split; [exact Hin |].
    cbn. rewrite !Z.eqb_refl. reflexivity.
  - intros H [[b' g'] [Hin E]]. cbn in E.
    apply andb_true_iff in E as [E1 E2]. apply Z.eqb_eq in E1, E2.
    subst. tauto.
Qed.

Lemma constraints_insert_book_genre b g :
  preserves constraints_hold (insert_book_genre b g).
Proof.
  intros st H. unfold insert_book_genre, bind, get, modify, raise.
  destruct (existsb _ (book_genres st)) eqn:Ek; cbn [snd]; [exact H |].
  destruct (existsb (fun r => b_id r =? b) (books st)) eqn:Eb;
    cbn [andb negb snd]; [| exact H].
  destruct (existsb (fun r => g_id r =? g) (genres st)) eqn:Eg;
    cbn [negb snd]; [| exact H].
  apply existsb_link_false in Ek. apply existsb_ids in Eb, Eg. destruct H.
  constructor; cbn; try assumption.
  - apply NoDup_snoc; assumption.
  - apply List.Forall_app. split; [assumption |]. repeat constructor.
    exact Eb.
  - apply List.Forall_app. split; [assumption |]. repeat constructor.
    exact Eg.
Qed.

Lemma in_ids_filter_ne {A} (id : A -> Z) x y l :
  In x (ids_of id l) -> x <> y ->
  In x (ids_of id (List.filter (fun r => negb (id r =? y)) l)).
Proof.
  unfold ids_of. rewrite !in_map_iff. intros [r [Hid Hin]] Hne.
  exists r. split; [exact Hid |]. apply List.filter_In. split; [exact Hin |].
  apply negb_true_iff, Z.eqb_neq. congruence.
Qed.

Lemma constraints_delete_book id :
  preserves constraints_hold (delete_book id).
Proof.
  intros st H. unfold delete_book, bind, get, modify, ret, raise.
  rewrite length_filter_zero, negb_involutive.
  destruct (existsb (fun b => b_id b =? id) (books st)
            && existsb (fun r => book_id r =? id) (bookings st)) eqn:E;
    cbn [snd]; [exact H |].
  destruct H. constructor; cbn; try assumption.
  - unfold ids_of. apply NoDup_map_filter. assumption.
  - apply Forall_filter. assumption.
  - apply NoDup_map_filter. assumption.
  - apply Forall_filter. assumption.
  - apply NoDup_filter_list. assumption.
  - rewrite List.Forall_forall in *. intros r Hr.
    apply List.filter_In in Hr as [Hr Hne].
    apply negb_true_iff, Z.eqb_neq in Hne.
    apply in_ids_filter_ne; auto.
  - apply Forall_filter. assumption.
  - rewrite List.Forall_forall in *. intros r Hr.
    pose proof (bookings_book_exists0 r Hr) as Hb.
    apply in_ids_filter_ne; [exact Hb |]. intros Heq.
    apply andb_false_iff in E as [E | E].
    + apply existsb_ids_false in E. apply E. rewrite <- Heq. exact Hb.
    + apply existsb_ids_false in E. apply E.
      unfold ids_of. apply in_map_iff. eauto.
Qed.

Lemma constraints_insert_booking u b s e :
  preserves constraints_hold (insert_booking u b s e).
Proof.
  intros st H. rewrite insert_booking_run.
  destruct (fits_integer u && fits_integer b); [| exact H].
  destruct (existsb _ (books st)) eqn:Eb; [| exact H].
  apply existsb_ids in Eb. destruct H. constructor; cbn; try assumption.
  apply List.Forall_app. split; [assumption |]. repeat constructor. exact Eb.
Qed.

Lemma constraints_bookings_filter q st :
  constraints_hold st ->
  constraints_hold (set_bookings (List.filter q (bookings st)) st).
Proof.
  intros []. constructor; cbn; try assumption.
  apply Forall_filter. assumption.
Qed.

Lemma constraints_delete_bookings b u :
  preserves constraints_hold (delete_bookings b u).
Proof. intros st H. apply constraints_bookings_filter. exact H. Qed.

Lemma constraints_delete_expired now :
  preserves constraints_hold (delete_expired now).
Proof. intros st H. apply constraints_bookings_filter. exact H. Qed.

(** ** What the statements keep, the methods keep *)

Section Keeping.

Variable P : db -> Prop.
Hypothesis P_stdout : forall st out, P st -> P (set_stdout out st).
Hypothesis P_insert_author :
  forall fn ln av, preserves P (insert_author fn ln av).
Hypothesis P_insert_genre : forall name, preserves P (insert_genre name).
Hypothesis P_insert_book :
  forall t p pg author, preserves P (insert_book t p pg author).
Hypothesis P_insert_book_genre :
  forall b g, preserves P (insert_book_genre b g).
Hypothesis P_delete_book : forall id, preserves P (delete_book id).
Hypothesis P_insert_booking :
  forall u b s e, preserves P (insert_booking u b s e).
Hypothesis P_delete_bookings : forall b u, preserves P (delete_bookings b u).
Hypothesis P_delete_expired : forall now, preserves P (delete_expired now).

Lemma keeps_query {A} (f : db -> exn + A) :
  preserves P (st <- get ;; lift (f st)).
Proof.
  intros st H. unfold bind, get. destruct (f st); exact H.
Qed.

Lemma keeps_add_book_author book : preserves P (add_book_author book).
Proof.
  unfold add_book_author. apply preserves_bind.
  - intros st H. exact H.
  - intros [id |]; [apply preserves_ret | apply P_insert_author].
Qed.

Lemma keeps_add_book_genres names : preserves P (add_book_genres names).
Proof.
  induction names as [| genre rest IH]; cbn [add_book_genres].
  - apply preserves_ret.
  - apply preserves_bind; [intros st H; exact H |]. intros genre_result.
    apply preserves_bind.
    + destruct genre_result; [apply preserves_ret | apply P_insert_genre].
    + intros genre_id. apply preserves_bind; [exact IH |].
      intros genre_ids. apply preserves_ret.
Qed.

Lemma keeps_add_book_links b ids : preserves P (add_book_links b ids).
Proof.
  induction ids as [| g ids IH]; cbn [add_book_links].
  - apply preserves_ret.
  - apply preserves_bind; [apply P_insert_book_genre | intros _; exact IH].
Qed.

Lemma keeps_add_book book : preserves P (add_book book).
Proof.
  apply preserves_try_except; [exact P_stdout |].
  unfold add_book_body.
  apply preserves_bind; [apply preserves_cursor | intros _].
  apply preserves_bind; [apply keeps_add_book_author | intros author_id].
  apply preserves_bind; [apply keeps_add_book_genres | intros genre_ids].
  apply preserves_bind; [apply P_insert_book | intros b].
  apply keeps_add_book_links.
Qed.

Lemma keeps_remove_book id : preserves P (remove_book id).
Proof.
  apply preserves_try_except; [exact P_stdout |].
  unfold remove_book_body.
  apply preserves_bind; [apply preserves_cursor | intros _].
  apply preserves_bind; [apply P_delete_book | intros n].
  destruct (n =? 0); apply preserves_print, P_stdout.
Qed.

Lemma keeps_checking_booking_date now :
  preserves P (_checking_booking_date now).
Proof.
  apply preserves_try_except; [exact P_stdout |].
  apply preserves_bind; [apply preserves_cursor | intros _].
  apply P_delete_expired.
Qed.

Lemma keeps_get_books_filtered now min_price max_price g f l :
  preserves P (get_books_filtered now min_price max_price g f l).
Proof.
  apply preserves_bind; [apply keeps_checking_booking_date | intros _].
  apply preserves_try_except; [exact P_stdout |].
  apply preserves_bind; [apply preserves_cursor | intros _].
  apply preserves_bind; [| intros rows; apply preserves_ret].
  intros st H. unfold select_books, bind, get, ret, raise.
  destruct (forallb condition_typed _); exact H.
Qed.

Lemma keeps_is_available_bookings now b s :
  preserves P (_is_available_bookings now b s).
Proof.
  apply preserves_bind; [apply keeps_checking_booking_date | intros _].
  apply preserves_try_except; [exact P_stdout |].
  apply preserves_bind; [apply preserves_cursor | intros _].
  apply preserves_bind; [| intros rows; apply preserves_ret].
  intros st H. exact H.
Qed.

Lemma keeps_add_booking now u b start stop :
  preserves P (add_booking now u b start stop).
Proof.
  apply preserves_try_except; [exact P_stdout |].
  apply preserves_bind; [apply keeps_is_available_bookings |].
  intros available. destruct (is_true available).
  - apply preserves_bind; [apply preserves_cursor | intros _].
    apply preserves_bind; [apply P_insert_booking | intros _].
    apply preserves_print, P_stdout.
  - apply preserves_print, P_stdout.
Qed.

Lemma keeps_cancel_booking u b : preserves P (cancel_booking u b).
Proof.
  apply preserves_try_except; [exact P_stdout |].
  apply preserves_bind; [apply preserves_cursor | intros _].
  apply preserves_bind; [apply P_delete_bookings | intros _].
  apply preserves_print, P_stdout.
Qed.

Lemma keeps_get_active_bookings now now' :
  preserves P (get_active_bookings now now').
Proof.
  apply preserves_bind; [apply keeps_checking_booking_date | intros _].
  apply preserves_try_except; [exact P_stdout |].
  apply preserves_bind; [apply preserves_cursor | intros _].
  apply preserves_bind; [| intros rows; apply preserves_ret].
  intros st H. exact H.
Qed.

Lemma keeps_get_genres_by_book_id le b :
  preserves P (get_genres_by_book_id le b).
Proof.
  apply preserves_try_except; [exact P_stdout |].
  apply preserves_bind; [apply preserves_cursor | intros _].
  apply preserves_bind; [| intros rows; apply preserves_ret].
  intros st H. exact H.
Qed.

End Keeping.

Lemma constraints_run_call c st :
  constraints_hold st -> constraints_hold (run_call c st).
Proof.
  intros H.
  destruct c; cbn [run_call]; unfold exec;
    [ apply keeps_add_book | apply keeps_remove_book
    | apply keeps_get_books_filtered | apply keeps_is_available_bookings
    | apply keeps_add_booking | apply keeps_cancel_booking
    | apply keeps_checking_booking_date | apply keeps_get_active_bookings
    | apply keeps_get_genres_by_book_id ];
    first [ exact H
          | intros; apply constraints_stdout; assumption
          | intros; apply constraints_insert_author
          | intros; apply constraints_insert_genre
          | intros; apply constraints_insert_book
          | intros; apply constraints_insert_book_genre
          | intros; apply constraints_delete_book
          | intros; apply constraints_insert_booking
          | intros; apply constraints_delete_bookings
          | intros; apply constraints_delete_expired ].
Qed.

Lemma constraints_run_calls calls st :
  constraints_hold st -> constraints_hold (run_calls calls st).
Proof.
  revert st. induction calls as [| c calls IH]; intros st H; [exact H |].
  cbn [run_calls fold_left]. apply IH, constraints_run_call, H.
Qed.

Lemma constraints_empty_db : constraints_hold empty_db.
Proof. constructor; cbn; constructor. Qed.

(** X1.  The constraints declared in [create_tables] survive every call:
    from a store where they hold (the fresh store is one), any run of
    method calls, failing or not, leaves ids, titles, genre names and
    (book, genre) pairs unique, every id below its sequence, and every
    author, book and genre reference pointing at a stored row; in
    particular no booking and no genre link ever references a missing
    book. *)
Theorem constraints_kept_by_every_call (calls : list call) (st : db) :
  constraints_hold st ->
  constraints_hold (run_calls calls st)
  /\ (forall r, In r (bookings (run_calls calls st)) ->
        exists b, In b (books (run_calls calls st)) /\ b_id b = book_id r)
  /\ (forall r, In r (book_genres (run_calls calls st)) ->
        (exists b, In b (books (run_calls calls st))
                   /\ b_id b = bg_book_id r)
        /\ exists g, In g (genres (run_calls calls st))
                     /\ g_id g = bg_genre_id r).
Proof.
  intros H. pose proof (constraints_run_calls calls st H) as Hfin.
  split; [exact Hfin |]. destruct Hfin. split.
  - intros r Hr. rewrite List.Forall_forall in bookings_book_exists0.
    apply bookings_book_exists0, in_map_iff in Hr as [b [Hb Hin]]. eauto.
  - intros r Hr. rewrite List.Forall_forall in book_genres_book_exists0.
    rewrite List.Forall_forall in book_genres_genre_exists0.
    split.
    + apply book_genres_book_exists0, in_map_iff in Hr as [b [Hb Hin]].
      eauto.
    + apply book_genres_genre_exists0, in_map_iff in Hr as [g [Hg Hin]].
      eauto.
Qed.

Lemma constraints_kept_by_every_call_witness :
  constraints_hold empty_db
  /\ constraints_hold
       (run_calls
          [AddBook dune; AddBooking 0 1 1 (seconds 5) (seconds 15);
           RemoveBook 1; AddBook dune] empty_db).
Proof.
  split; [exact constraints_empty_db |].
  apply (constraints_kept_by_every_call
           [AddBook dune; AddBooking 0 1 1 (seconds 5) (seconds 15);
            RemoveBook 1; AddBook dune] empty_db).
  exact constraints_empty_db.
Defined.

(** ** The catalogue statements leave the ledger alone *)

Lemma insert_author_bookings fn ln av st :
  bookings (snd (insert_author fn ln av st)) = bookings st.
Proof.
  unfold insert_author, bind, get, modify, lift, ret, raise.
  destruct (varchar 50 fn); [reflexivity |].
  destruct (varchar 50 ln); reflexivity.
Qed.

Lemma insert_genre_bookings name st :
  bookings (snd (insert_genre name st)) = bookings st.
Proof.
  unfold insert_genre, bind, get, modify, lift, ret, raise.
  destruct (varchar 32 name); [reflexivity |].
  cbn [genres set_genres]. destruct (existsb _ (genres st)); reflexivity.
Qed.

Lemma insert_book_bookings t p pg author st :
  bookings (snd (insert_book t p pg author st)) = bookings st.
Proof.
  unfold insert_book, bind, get, modify, lift, ret, raise.
  destruct (varchar 255 t); [reflexivity |].
  destruct (numeric_7_2 p); [reflexivity |].
  destruct (smallint pg); [reflexivity |].
  cbn [books authors set_books].
  destruct (existsb _ (books st)); [reflexivity |].
  destruct (negb _); reflexivity.
Qed.

Lemma insert_book_genre_bookings b g st :
  bookings (snd (insert_book_genre b g st)) = bookings st.
Proof.
  unfold insert_book_genre, bind, get, modify, raise.
  destruct (existsb _ (book_genres st)); [reflexivity |].
  destruct (negb _); reflexivity.
Qed.

Lemma delete_book_bookings id st :
  bookings (snd (delete_book id st)) = bookings st.
Proof.
  unfold delete_book, bind, get, modify, ret, raise.
  destruct (_ && _); reflexivity.
Qed.

Lemma order_run_call c st :
  no_overlap_in_order (bookings st) = true ->
  no_overlap_in_order (bookings (run_call c st)) = true.
Proof.
  intros H.
  set (P := fun st => no_overlap_in_order (bookings st) = true).
  assert (Hout : forall st out, P st -> P (set_stdout out st))
    by (intros; assumption).
  assert (Hfilter : forall q st,
             P st -> P (set_bookings (List.filter q (bookings st)) st))
    by (intros q st0 H0; apply no_overlap_in_order_filter; exact H0).
  change (P (run_call c st)).
  destruct c; cbn [run_call]; unfold exec.
  - apply keeps_add_book; try assumption; intros; intros st0 H0; unfold P.
    + rewrite insert_author_bookings. exact H0.
    + rewrite insert_genre_bookings. exact H0.
    + rewrite insert_book_bookings. exact H0.
    + rewrite insert_book_genre_bookings. exact H0.
  - apply keeps_remove_book; try assumption; intros; intros st0 H0;
      unfold P. rewrite delete_book_bookings. exact H0.
  - apply keeps_get_books_filtered; try assumption.
    intros; intros st0 H0. apply Hfilter, H0.
  - apply keeps_is_available_bookings; try assumption.
    intros; intros st0 H0. apply Hfilter, H0.
  - apply add_booking_keeps_order. exact H.
  - apply keeps_cancel_booking; try assumption.
    intros; intros st0 H0. apply Hfilter, H0.
  - apply keeps_checking_booking_date; try assumption.
    intros; intros st0 H0. apply Hfilter, H0.
  - apply keeps_get_active_bookings; try assumption.
    intros; intros st0 H0. apply Hfilter, H0.
  - apply keeps_get_genres_by_book_id; try assumption.
Qed.

(** X2.  Whatever methods are called, in whatever order, a stored booking
    never starts strictly inside a booking of the same book that was stored
    before it and is still stored: cancelling, sweeping, removing books and
    the catalogue calls keep what [add_booking] establishes. *)
Theorem order_kept_by_every_call (calls : list call) (st : db) :
  no_overlap_in_order (bookings st) = true ->
  no_overlap_in_order (bookings (run_calls calls st)) = true
  /\ forall l1 a l2 b l3,
       bookings (run_calls calls st) = l1 ++ a :: l2 ++ b :: l3 ->
       book_id a = book_id b ->
       ~ (start_date a < start_date b /\ start_date b < end_date a).
Proof.
  intros H.
  assert (Hfin : no_overlap_in_order (bookings (run_calls calls st)) = true).
  { revert st H. induction calls as [| c calls IH]; intros st H; [exact H |].
    cbn [run_calls fold_left]. apply IH, order_run_call, H. }
  split; [exact Hfin |].
  intros l1 a l2 b l3 Hsplit Hbook [H1 H2].
  pose proof (no_overlap_in_order_split _ Hfin _ _ _ _ _ Hsplit) as Hno.
  unfold starts_inside in Hno.
  apply Z.eqb_eq in Hbook. apply Z.ltb_lt in H1, H2.
  rewrite Hbook, H1, H2 in Hno. discriminate.
Qed.

Lemma order_kept_by_every_call_witness :
  no_overlap_in_order (bookings empty_db) = true
  /\ no_overlap_in_order
       (bookings
          (run_calls
             [AddBook dune; AddBooking 0 1 1 (seconds 5) (seconds 15);
              CancelBooking 1 1; AddBooking 0 2 1 (seconds 7) (seconds 9)]
             empty_db)) = true.
Proof.
  split; [reflexivity |].
  apply (order_kept_by_every_call
           [AddBook dune; AddBooking 0 1 1 (seconds 5) (seconds 15);
            CancelBooking 1 1; AddBooking 0 2 1 (seconds 7) (seconds 9)]
           empty_db).
  reflexivity.
Defined.

(** ** [add_book]: resolving the genres *)

Lemma find_app_some {A} (p : A -> bool) l ext x :
  List.find p l = Some x -> List.find p (l ++ ext) = Some x.
Proof.
  induction l as [| y l IH]; [discriminate |].
  cbn [List.find app]. destruct (p y); auto.
Qed.

Lemma find_none_existsb {A} (p : A -> bool) l :
  List.find p l = None -> existsb p l = false.
Proof.
  induction l as [| y l IH]; [reflexivity |].
  cbn [List.find existsb]. destruct (p y); [discriminate | auto].
Qed.

Lemma set_genres_same st : set_genres (genres st) (genres_id_seq st) st = st.
Proof. destruct st; reflexivity. Qed.

Lemma add_book_genres_run names st :
  Forall (fun n => (String.length n <= 32)%nat) names ->
  exists ids ext seq,
    add_book_genres names st
    = (inr ids, set_genres (genres st ++ ext) seq st)
    /\ Forall2
         (fun name id =>
            option_map g_id
              (List.find (fun g => String.eqb (g_name g) name)
                 (genres st ++ ext)) = Some id)
         names ids
    /\ (length ext <= length names)%nat.
Proof.
  intros Hfit. revert st.
  induction Hfit as [| name rest Hname Hrest IH]; intros st.
  - exists [], [], (genres_id_seq st). rewrite app_nil_r, set_genres_same.
    split; [reflexivity | split; [constructor | reflexivity]].
  - cbn [add_book_genres]. unfold bind at 1. unfold select_genre at 1.
    unfold bind at 1. unfold get at 1. unfold ret at 1.
    destruct (List.find (fun g => String.eqb (g_name g) name) (genres st))
      as [g |] eqn:Efind; cbn [option_map].
    + unfold bind at 1. unfold ret at 1.
      destruct (IH st) as (ids & ext & seq & Hrun & Hall & Hlen).
      unfold bind at 1. rewrite Hrun.
      exists (g_id g :: ids), ext, seq. split; [reflexivity |].
      split; [| cbn [length]; lia].
      constructor; [| exact Hall].
      rewrite (find_app_some _ _ _ _ Efind). reflexivity.
    + unfold bind at 1. unfold insert_genre.
      unfold bind at 1. unfold get at 1. unfold bind at 1.
      unfold modify at 1. unfold bind at 1.
      rewrite (varchar_fits _ _ Hname). unfold lift at 1, ret at 1.
      rewrite (find_none_existsb _ _ Efind).
      unfold bind at 1. unfold modify at 1. unfold ret at 1.
      set (row := {| g_id := genres_id_seq st; g_name := name |}).
      set (st1 := set_genres _ _ _).
      destruct (IH st1) as (ids & ext & seq & Hrun & Hall & Hlen).
      unfold bind at 1. rewrite Hrun.
      exists (genres_id_seq st :: ids), (row :: ext), seq.
      assert (Hg : genres st1 ++ ext = genres st ++ row :: ext).
      { subst st1. cbn [genres set_genres]. rewrite <- app_assoc.
        reflexivity. }
      rewrite Hg in *. split; [reflexivity |].
      split; [| cbn [length]; lia].
      constructor; [| exact Hall].
      change (genres st ++ row :: ext) with (genres st ++ [row] ++ ext).
      rewrite app_assoc.
      rewrite (find_app_some _ (genres st ++ [row]) ext row);
        [reflexivity |].
      rewrite (find_app_none _ _ row Efind). cbn [List.find row g_name].
      rewrite String.eqb_refl. reflexivity.
Qed.

Lemma add_book_genres_again names ids st :
  Forall2
    (fun name id =>
       option_map g_id
         (List.find (fun g => String.eqb (g_name g) name) (genres st))
       = Some id)
    names ids ->
  add_book_genres names st = (inr ids, st).
Proof.
  induction 1 as [| name id names ids Hfind Hall IH]; [reflexivity |].
  cbn [add_book_genres]. unfold bind at 1. unfold select_genre at 1.
  unfold bind at 1. unfold get at 1. unfold ret at 1.
  destruct (List.find _ (genres st)) as [g |]; [| discriminate].
  cbn [option_map] in *. injection Hfind as ->.
  unfold bind at 1. unfold ret at 1. unfold bind at 1. rewrite IH.
  reflexivity.
Qed.

(** ** [add_book]: the book row and its genre links *)

Lemma bind_run {A B} (m : M A) (k : A -> M B) st a st' :
  m st = (inr a, st') -> (x <- m ;; k x) st = k a st'.
Proof. intros H. unfold bind. rewrite H. reflexivity. Qed.

Lemma bind_fail {A B} (m : M A) (k : A -> M B) st e st' :
  m st = (inl e, st') -> (x <- m ;; k x) st = (inl e, st').
Proof. intros H. unfold bind. rewrite H. reflexivity. Qed.

Lemma existsb_title t l :
  existsb (fun b => String.eqb (b_title b) t) l = true
  <-> In t (List.map b_title l).
Proof.
  rewrite existsb_exists, in_map_iff.
  split; intros [b [H1 H2]]; exists b.
  - apply String.eqb_eq in H2. auto.
  - rewrite String.eqb_eq. auto.
Qed.

Lemma smallint_fits pg :
  -32768 <= pg <= 32767 -> smallint pg = inr pg.
Proof.
  intros [H1 H2]. unfold smallint.
  apply Z.leb_le in H1, H2. rewrite H1, H2. reflexivity.
Qed.

Lemma insert_book_run t p pg author st p' :
  (String.length t <= 255)%nat ->
  numeric_7_2 p = inr p' ->
  -32768 <= pg <= 32767 ->
  ~ In t (List.map b_title (books st)) ->
  In author (ids_of a_id (authors st)) ->
  insert_book t p pg author st
  = (inr (books_id_seq st),
     set_books
       (books st
        ++ [{| b_id := books_id_seq st; b_title := t; b_price := p';
               b_pages := pg; b_author_id := author |}])
       (books_id_seq st + 1) st).
Proof.
  intros Ht Hp Hpg Hfresh Hauthor.
  unfold insert_book, bind, get, modify, lift, ret, raise.
  rewrite (varchar_fits _ _ Ht), Hp, (smallint_fits _ Hpg).
  cbn [books authors set_books].
  destruct (existsb _ (books st)) eqn:Et;
    [apply existsb_title in Et; tauto |].
  apply existsb_ids in Hauthor. rewrite Hauthor. reflexivity.
Qed.

Lemma insert_book_taken t p pg author st p' :
  (String.length t <= 255)%nat ->
  numeric_7_2 p = inr p' ->
  -32768 <= pg <= 32767 ->
  In t (List.map b_title (books st)) ->
  insert_book t p pg author st
  = (inl UniqueViolation, set_books (books st) (books_id_seq st + 1) st).
Proof.
  intros Ht Hp Hpg Htaken.
  unfold insert_book, bind, get, modify, lift, ret, raise.
  rewrite (varchar_fits _ _ Ht), Hp, (smallint_fits _ Hpg).
  cbn [books authors set_books].
  apply existsb_title in Htaken. rewrite Htaken. reflexivity.
Qed.

Lemma add_book_links_run b ids st :
  In b (ids_of b_id (books st)) ->
  Forall (fun g => In g (ids_of g_id (genres st))) ids ->
  List.NoDup ids ->
  Forall
    (fun g => ~ In {| bg_book_id := b; bg_genre_id := g |} (book_genres st))
    ids ->
  add_book_links b ids st
  = (inr tt,
     set_book_genres
       (book_genres st
        ++ List.map (fun g => {| bg_book_id := b; bg_genre_id := g |}) ids)
       st).
Proof.
  intros Hb Hg Hnd Hfresh. revert st Hb Hg Hfresh.
  induction Hnd as [| g ids Hnotin Hnd IH]; intros st Hb Hg Hfresh.
  - cbn [add_book_links List.map]. rewrite app_nil_r.
    destruct st; reflexivity.
  - cbn [add_book_links].
    inversion Hg as [| ? ? Hg1 Hg2]; subst.
    inversion Hfresh as [| ? ? Hf1 Hf2]; subst.
    assert (Hstep : insert_book_genre b g st
                    = (inr tt,
                       set_book_genres
                         (book_genres st
                          ++ [{| bg_book_id := b; bg_genre_id := g |}]) st)).
    { unfold insert_book_genre, bind, get, modify, raise.
      apply existsb_link_false in Hf1. rewrite Hf1.
      apply existsb_ids in Hb, Hg1. rewrite Hb, Hg1. reflexivity. }
    rewrite (bind_run _ _ _ _ _ Hstep).
    rewrite IH; cbn [books genres book_genres set_book_genres];
      try assumption.
    + rewrite <- app_assoc. reflexivity.
    + rewrite List.Forall_forall in *. intros g' Hin Hlink.
      apply in_app_iff in Hlink as [Hlink | [Hlink | []]].
      * apply (Hf2 g' Hin Hlink).
      * injection Hlink as ->. tauto.
Qed.

Lemma add_book_links_repeat b ids st :
  In b (ids_of b_id (books st)) ->
  Forall (fun g => In g (ids_of g_id (genres st))) ids ->
  (exists g, In g ids
             /\ In {| bg_book_id := b; bg_genre_id := g |} (book_genres st))
  \/ ~ List.NoDup ids ->
  exists links,
    add_book_links b ids st
    = (inl UniqueViolation, set_book_genres (book_genres st ++ links) st).
Proof.
  intros Hb Hg. revert st Hb Hg.
  induction ids as [| g ids IH]; intros st Hb Hg Hbad.
  - exfalso. destruct Hbad as [[g [[] _]] | H]. apply H. constructor.
  - cbn [add_book_links]. inversion Hg as [| ? ? Hg1 Hg2]; subst.
    destruct (existsb
                (fun r => (bg_book_id r =? b) && (bg_genre_id r =? g))
                (book_genres st)) eqn:E.
    + exists []. rewrite app_nil_r.
      erewrite bind_fail;
        [| unfold insert_book_genre, bind, get, raise; rewrite E;
           reflexivity].
      destruct st; reflexivity.
    + assert (Hstep : insert_book_genre b g st
                      = (inr tt,
                         set_book_genres
                           (book_genres st
                            ++ [{| bg_book_id := b; bg_genre_id := g |}])
                           st)).
      { unfold insert_book_genre, bind, get, modify, raise. rewrite E.
        apply existsb_ids in Hb, Hg1. rewrite Hb, Hg1. reflexivity. }
      rewrite (bind_run _ _ _ _ _ Hstep).
      apply existsb_link_false in E.
      destruct (IH (set_book_genres
                      (book_genres st
                       ++ [{| bg_book_id := b; bg_genre_id := g |}]) st))
        as [links Hrun]; try assumption.
      * destruct Hbad as [[g' [[-> | Hin] Hlink]] | Hdup].
        -- tauto.
        -- left. exists g'. split; [exact Hin |].
           cbn [book_genres set_book_genres]. apply in_app_iff. auto.
        -- destruct (in_dec Z.eq_dec g ids) as [Hin | Hout].
           ++ left. exists g. split; [exact Hin |].
              cbn [book_genres set_book_genres]. apply in_app_iff.
              right. left. reflexivity.
           ++ right. intros Hnd. apply Hdup. constructor; assumption.
      * exists ({| bg_book_id := b; bg_genre_id := g |} :: links).
        rewrite Hrun. cbn [book_genres set_book_genres].
        rewrite <- app_assoc. reflexivity.
Qed.

Lemma NoDup_map_eq {A B} (f : A -> B) l x y :
  List.NoDup (List.map f l) -> In x l -> In y l -> f x = f y -> x = y.
Proof.
  induction l as [| z l IH]; cbn [List.map In]; [tauto |].
  intros Hnd Hx Hy Heq. inversion Hnd as [| ? ? Hz Hnd']; subst.
  destruct Hx as [-> | Hx], Hy as [-> | Hy]; auto.
  - exfalso. apply Hz. rewrite Heq. apply in_map. exact Hy.
  - exfalso. apply Hz. rewrite <- Heq. apply in_map. exact Hx.
Qed.

Lemma Forall2_NoDup {A B} (R : A -> B -> Prop) l k :
  Forall2 R l k ->
  (forall x y z, R x z -> R y z -> x = y) ->
  List.NoDup l -> List.NoDup k.
Proof.
  intros HR Hinj. induction HR as [| x z l k Hxz HR IH]; intros Hnd;
    [constructor |].
  inversion Hnd as [| ? ? Hx Hnd']; subst. constructor; [| auto].
  intros Hz. apply Hx. clear IH Hnd Hnd' Hx.
  induction HR as [| y z' l k Hyz HR IH]; [destruct Hz |].
  destruct Hz as [-> | Hz]; [left; eauto | right; auto].
Qed.

Lemma Forall2_repeat {A B} (R : A -> B -> Prop) l k :
  Forall2 R l k ->
  (forall x z z', R x z -> R x z' -> z = z') ->
  ~ List.NoDup l -> ~ List.NoDup k.
Proof.
  intros HR Hfun Hdup Hnd. apply Hdup. clear Hdup.
  induction HR as [| x z l k Hxz HR IH]; [constructor |].
  inversion Hnd as [| ? ? Hz Hnd']; subst. constructor; [| auto].
  intros Hx. apply Hz. clear IH Hnd Hnd' Hz.
  induction HR as [| y z' l k Hyz HR IH]; [destruct Hx |].
  destruct Hx as [-> | Hx]; [left; eauto | right; auto].
Qed.

Lemma Forall2_in_right {A B} (R : A -> B -> Prop) l k z :
  Forall2 R l k -> In z k -> exists x, In x l /\ R x z.
Proof.
  induction 1 as [| x z' l k Hxz HR IH]; [intros [] |].
  intros [-> | Hz]; [exists x; split; [left; reflexivity | exact Hxz] |].
  destruct (IH Hz) as [y [Hy Hyz]]. exists y. split; [right |]; assumption.
Qed.

Lemma found_genre name id l :
  option_map g_id (List.find (fun g => String.eqb (g_name g) name) l)
  = Some id ->
  In {| g_id := id; g_name := name |} l.
Proof.
  destruct (List.find _ l) as [[gid gname] |] eqn:E; [| discriminate].
  cbn. intros [= <-]. apply find_some in E as [Hin Hname].
  cbn in Hname. apply String.eqb_eq in Hname. subst. exact Hin.
Qed.

Lemma set_authors_same st :
  set_authors (authors st) (authors_id_seq st) st = st.
Proof. destruct st; reflexivity. Qed.

Lemma add_book_author_row book st :
  (String.length (first_name book) <= 50)%nat ->
  (String.length (last_name book) <= 50)%nat ->
  exists author rows seq,
    add_book_author book st = (inr (a_id author), set_authors rows seq st)
    /\ In author rows
    /\ a_first_name author = first_name book
    /\ a_last_name author = last_name book.
Proof.
  intros Hf Hl. rewrite add_book_author_run by assumption.
  destruct (List.find _ (authors st)) as [a |] eqn:E.
  - exists a, (authors st), (authors_id_seq st).
    rewrite set_authors_same. apply find_some in E as [Hin Hm].
    apply author_matches_true in Hm. tauto.
  - exists {| a_id := authors_id_seq st; a_first_name := first_name book;
              a_last_name := last_name book; a_avatar := avatar book |}.
    eexists _, _. split; [reflexivity |].
    split; [apply in_or_app; right; left; reflexivity |].
    split; reflexivity.
Qed.

Lemma add_book_run book st p :
  connection st = true ->
  constraints_hold st ->
  (String.length (first_name book) <= 50)%nat ->
  (String.length (last_name book) <= 50)%nat ->
  Forall (fun n => (String.length n <= 32)%nat) (genres_of book) ->
  (String.length (title book) <= 255)%nat ->
  numeric_7_2 (price book) = inr p ->
  -32768 <= pages book <= 32767 ->
  exists author rows aseq ids ext gseq,
    let st2 := set_genres (genres st ++ ext) gseq (set_authors rows aseq st) in
    let row := {| b_id := books_id_seq st; b_title := title book;
                  b_price := p; b_pages := pages book;
                  b_author_id := a_id author |} in
    let failed :=
      ErrLine "Ошибка при записи книги" UniqueViolation in
    In author rows
    /\ a_first_name author = first_name book
    /\ a_last_name author = last_name book
    /\ constraints_hold st2
    /\ Forall2
         (fun name id =>
            option_map g_id
              (List.find (fun g => String.eqb (g_name g) name)
                 (genres st ++ ext)) = Some id)
         (genres_of book) ids
    /\ (In (title book) (List.map b_title (books st)) ->
        add_book book st
        = (inr tt,
           set_stdout (stdout st ++ [failed])
             (set_books (books st) (books_id_seq st + 1) st2)))
    /\ (~ In (title book) (List.map b_title (books st)) ->
        List.NoDup (genres_of book) ->
        add_book book st
        = (inr tt,
           set_book_genres
             (book_genres st
              ++ List.map
                   (fun g => {| bg_book_id := books_id_seq st;
                                bg_genre_id := g |}) ids)
             (set_books (books st ++ [row]) (books_id_seq st + 1) st2)))
    /\ (~ In (title book) (List.map b_title (books st)) ->
        ~ List.NoDup (genres_of book) ->
        exists links,
          add_book book st
          = (inr tt,
             set_stdout (stdout st ++ [failed])
               (set_book_genres (book_genres st ++ links)
                  (set_books (books st ++ [row]) (books_id_seq st + 1)
                     st2)))).
Proof.
  intros Hc Hok Hf Hl Hg Ht Hp Hpg.
  destruct (add_book_author_row book st Hf Hl)
    as (author & rows & aseq & Hauthor & Hin & Hfn & Hln).
  set (st1 := set_authors rows aseq st) in *.
  destruct (add_book_genres_run (genres_of book) st1 Hg)
    as (ids & ext & gseq & Hgenres & Hfound & _).
  cbn [genres set_authors st1] in Hgenres, Hfound.
  exists author, rows, aseq, ids, ext, gseq. cbv zeta.
  set (st2 := set_genres (genres st ++ ext) gseq st1) in *.
  assert (Hok2 : constraints_hold st2).
  { replace st2 with (snd (add_book_genres (genres_of book) st1))
      by (rewrite Hgenres; reflexivity).
    apply keeps_add_book_genres; [apply constraints_insert_genre |].
    replace st1 with (snd (add_book_author book st))
      by (rewrite Hauthor; reflexivity).
    apply keeps_add_book_author; [apply constraints_insert_author |].
    exact Hok. }
  assert (Hauthor2 : In (a_id author) (ids_of a_id (authors st2)))
    by (apply in_map; exact Hin).
  assert (Hbody : forall rest : Z -> list Z -> M unit,
             add_book_body book st
             = (b <- insert_book (title book) (price book) (pages book)
                       (a_id author) ;;
                add_book_links b ids) st2).
  { intros _. unfold add_book_body.
    rewrite (bind_run _ _ _ _ _ (cursor_connected st Hc)).
    rewrite (bind_run _ _ _ _ _ Hauthor).
    rewrite (bind_run _ _ _ _ _ Hgenres). reflexivity. }
  specialize (Hbody (fun _ _ => ret tt)).
  repeat match goal with |- _ /\ _ => split end; try assumption.
  - intros Htaken. unfold add_book.
    erewrite try_except_catches; cycle 1.
    { rewrite Hbody. apply bind_fail.
      apply (insert_book_taken _ _ _ _ st2 p); assumption. }
    reflexivity.
  - intros Hfresh Hnd. unfold add_book.
    apply try_except_returns. rewrite Hbody.
    rewrite (bind_run _ _ _ _ _
               (insert_book_run _ _ _ _ st2 p Ht Hp Hpg Hfresh Hauthor2)).
    cbn [books_id_seq books set_genres set_authors st2 st1].
    rewrite add_book_links_run; [reflexivity | | | |].
    + cbn. unfold ids_of. rewrite map_app. apply in_or_app. right.
      left. reflexivity.
    + cbn. rewrite List.Forall_forall. intros g Hgin.
      destruct (Forall2_in_right _ _ _ _ Hfound Hgin) as [name [_ Hname]].
      apply found_genre in Hname.
      apply (in_map g_id) in Hname. exact Hname.
    + eapply Forall2_NoDup; [exact Hfound | | exact Hnd].
      intros n1 n2 id H1 H2. apply found_genre in H1, H2.
      pose proof (NoDup_map_eq g_id _ _ _ (genre_ids_unique _ Hok2) H1 H2
                    eq_refl) as Heq.
      congruence.
    + cbn. rewrite List.Forall_forall. intros g _ Hlink.
      pose proof (book_genres_book_exists _ Hok) as Hb.
      rewrite List.Forall_forall in Hb. apply Hb in Hlink. cbn in Hlink.
      apply (drawn_not_in b_id _ _ (book_ids_drawn _ Hok)). exact Hlink.
  - intros Hfresh Hdup. unfold add_book.
    destruct (add_book_links_repeat (books_id_seq st) ids
                (set_books
                   (books st
                    ++ [{| b_id := books_id_seq st; b_title := title book;
                           b_price := p; b_pages := pages book;
                           b_author_id := a_id author |}])
                   (books_id_seq st + 1) st2)) as [links Hlinks].
    + cbn. unfold ids_of. rewrite map_app. apply in_or_app. right.
      left. reflexivity.
    + cbn. rewrite List.Forall_forall. intros g Hgin.
      destruct (Forall2_in_right _ _ _ _ Hfound Hgin) as [name [_ Hname]].
      apply found_genre in Hname.
      apply (in_map g_id) in Hname. exact Hname.
    + right. eapply Forall2_repeat; [exact Hfound | | exact Hdup].
      intros n id1 id2 H1 H2. congruence.
    + exists links.
      erewrite try_except_catches; cycle 1.
      { rewrite Hbody.
        rewrite (bind_run _ _ _ _ _
                   (insert_book_run _ _ _ _ st2 p Ht Hp Hpg Hfresh
                      Hauthor2)).
        exact Hlinks. }
      reflexivity.
Qed.

Lemma constraints_catalogue : constraints_hold catalogue.
Proof.
  unfold catalogue.
  exact (constraints_run_call (AddBook dune) empty_db constraints_empty_db).
Qed.

(** X3.  [add_book] on a connected store where the constraints hold, for a
    book whose fields fit their columns, whose title is new and whose
    genres are pairwise different: the call prints nothing and stores one
    book row, under the next value of the books sequence, with the price
    rounded to hundredths and the id of an author row carrying the book's
    names; it stores one genre-link row per genre of the book, in order,
    each pointing at a genre row of that name; bookings are untouched. *)
Theorem add_book_stores_book (book : BookModel) (st : db) (p : Z) :
  connection st = true ->
  constraints_hold st ->
  (String.length (first_name book) <= 50)%nat ->
  (String.length (last_name book) <= 50)%nat ->
  Forall (fun n => (String.length n <= 32)%nat) (genres_of book) ->
  List.NoDup (genres_of book) ->
  (String.length (title book) <= 255)%nat ->
  ~ In (title book) (List.map b_title (books st)) ->
  numeric_7_2 (price book) = inr p ->
  -32768 <= pages book <= 32767 ->
  let st' := exec (add_book book) st in
  result (add_book book) st = inr tt
  /\ stdout st' = stdout st
  /\ bookings st' = bookings st
  /\ books_id_seq st' = books_id_seq st + 1
  /\ exists author ids,
       In author (authors st')
       /\ a_first_name author = first_name book
       /\ a_last_name author = last_name book
       /\ books st'
          = books st
            ++ [{| b_id := books_id_seq st; b_title := title book;
                   b_price := p; b_pages := pages book;
                   b_author_id := a_id author |}]
       /\ Forall2
            (fun name id => In {| g_id := id; g_name := name |} (genres st'))
            (genres_of book) ids
       /\ book_genres st'
          = book_genres st
            ++ List.map
                 (fun g => {| bg_book_id := books_id_seq st;
                              bg_genre_id := g |}) ids.
Proof.
  intros Hc Hok Hf Hl Hg Hnd Ht Hfresh Hp Hpg st'.
  destruct (add_book_run book st p Hc Hok Hf Hl Hg Ht Hp Hpg)
    as (author & rows & aseq & ids & ext & gseq & Hin & Hfn & Hln & _
        & Hfound & _ & Hrun & _).
  specialize (Hrun Hfresh Hnd).
  unfold result, exec in *. subst st'. rewrite Hrun. cbn [fst snd].
  repeat split.
  exists author, ids. cbn. repeat split; try assumption.
  clear Hrun. induction Hfound as [| name id names ids' H1 H2 IH];
    constructor; [apply found_genre; exact H1 | apply IH].
  - inversion Hg; assumption.
  - inversion Hnd; assumption.
Qed.

Lemma add_book_stores_book_witness :
  result (add_book children_of_dune) catalogue = inr tt
  /\ stdout (exec (add_book children_of_dune) catalogue) = stdout catalogue.
Proof.
  destruct (add_book_stores_book children_of_dune catalogue 1250)
    as (H1 & H2 & _).
  - reflexivity.
  - exact constraints_catalogue.
  - vm_compute; lia.
  - vm_compute; lia.
  - repeat constructor; vm_compute; lia.
  - repeat constructor; cbn; intuition discriminate.
  - vm_compute; lia.
  - vm_compute. intros [H | []]. discriminate H.
  - reflexivity.
  - vm_compute. split; discriminate.
  - split; assumption.
Defined.

(** X4.  [add_book] with a title that is already stored (all fields
    fitting their columns): the store refuses the book row, the call
    prints the unique-violation line and returns [None]; no book and no
    genre link is added, yet the author and the genres resolved before the
    INSERT stay, and a value of the books sequence is used up. *)
Theorem add_book_duplicate_title (book : BookModel) (st : db) (p : Z) :
  connection st = true ->
  constraints_hold st ->
  (String.length (first_name book) <= 50)%nat ->
  (String.length (last_name book) <= 50)%nat ->
  Forall (fun n => (String.length n <= 32)%nat) (genres_of book) ->
  (String.length (title book) <= 255)%nat ->
  In (title book) (List.map b_title (books st)) ->
  numeric_7_2 (price book) = inr p ->
  -32768 <= pages book <= 32767 ->
  let st' := exec (add_book book) st in
  result (add_book book) st = inr tt
  /\ printed (add_book book) st
     = [ErrLine "Ошибка при записи книги" UniqueViolation]
  /\ books st' = books st
  /\ book_genres st' = book_genres st
  /\ books_id_seq st' = books_id_seq st + 1
  /\ (exists author,
        In author (authors st')
        /\ a_first_name author = first_name book
        /\ a_last_name author = last_name book)
  /\ Forall (fun name => In name (List.map g_name (genres st')))
       (genres_of book).
Proof.
  intros Hc Hok Hf Hl Hg Ht Htaken Hp Hpg st'.
  destruct (add_book_run book st p Hc Hok Hf Hl Hg Ht Hp Hpg)
    as (author & rows & aseq & ids & ext & gseq & Hin & Hfn & Hln & _
        & Hfound & Hrun & _).
  specialize (Hrun Htaken).
  unfold printed, result, exec in *. subst st'. rewrite Hrun.
  cbn [fst snd]. cbn.
  split; [reflexivity |]. split; [apply drop_app_length |].
  repeat split.
  - exists author. auto.
  - clear Hrun Hg. rewrite List.Forall_forall. intros name Hname.
    induction Hfound as [| n id names ids' H1 H2 IH]; [destruct Hname |].
    destruct Hname as [-> | Hname]; [| auto].
    apply found_genre in H1. apply (in_map g_name) in H1. exact H1.
Qed.

Lemma add_book_duplicate_title_witness :
  printed (add_book dune) catalogue
  = [ErrLine "Ошибка при записи книги" UniqueViolation]
  /\ books (exec (add_book dune) catalogue) = books catalogue.
Proof.
  destruct (add_book_duplicate_title dune catalogue 1000)
    as (_ & H1 & H2 & _).
  - reflexivity.
  - exact constraints_catalogue.
  - vm_compute; lia.
  - vm_compute; lia.
  - repeat constructor; vm_compute; lia.
  - vm_compute; lia.
  - vm_compute. left. reflexivity.
  - reflexivity.
  - vm_compute. split; discriminate.
  - split; assumption.
Defined.

(** X5.  [add_book] with a genre named twice in [book.genres] (a new title,
    all fields fitting): the book row is stored, then the second link to
    the same genre breaks the primary key of [book_genres]; the call
    prints the unique-violation line, and since every statement is
    committed on its own the book stays in the catalogue with the links
    stored before the failure. *)
Theorem add_book_repeated_genre (book : BookModel) (st : db) (p : Z) :
  connection st = true ->
  constraints_hold st ->
  (String.length (first_name book) <= 50)%nat ->
  (String.length (last_name book) <= 50)%nat ->
  Forall (fun n => (String.length n <= 32)%nat) (genres_of book) ->
  ~ List.NoDup (genres_of book) ->
  (String.length (title book) <= 255)%nat ->
  ~ In (title book) (List.map b_title (books st)) ->
  numeric_7_2 (price book) = inr p ->
  -32768 <= pages book <= 32767 ->
  let st' := exec (add_book book) st in
  result (add_book book) st = inr tt
  /\ printed (add_book book) st
     = [ErrLine "Ошибка при записи книги" UniqueViolation]
  /\ (exists author,
        In author (authors st')
        /\ a_first_name author = first_name book
        /\ a_last_name author = last_name book
        /\ books st'
           = books st
             ++ [{| b_id := books_id_seq st; b_title := title book;
                    b_price := p; b_pages := pages book;
                    b_author_id := a_id author |}])
  /\ exists links, book_genres st' = book_genres st ++ links.
Proof.
  intros Hc Hok Hf Hl Hg Hdup Ht Hfresh Hp Hpg st'.
  destruct (add_book_run book st p Hc Hok Hf Hl Hg Ht Hp Hpg)
    as (author & rows & aseq & ids & ext & gseq & Hin & Hfn & Hln & _
        & Hfound & _ & _ & Hrun).
  destruct (Hrun Hfresh Hdup) as [links Hlinks].
  unfold printed, result, exec in *. subst st'. rewrite Hlinks.
  cbn [fst snd]. cbn.
  split; [reflexivity |]. split; [apply drop_app_length |].
  split; [exists author; auto | exists links; reflexivity].
Qed.

Lemma add_book_repeated_genre_witness :
  printed (add_book dune_messiah) catalogue
  = [ErrLine "Ошибка при записи книги" UniqueViolation]
  /\ length (books (exec (add_book dune_messiah) catalogue)) = 2%nat.
Proof.
  destruct (add_book_repeated_genre dune_messiah catalogue 900)
    as (_ & H1 & (author & _ & _ & _ & H2) & _).
  - reflexivity.
  - exact constraints_catalogue.
  - vm_compute; lia.
  - vm_compute; lia.
  - repeat constructor; vm_compute; lia.
  - intros H. inversion H as [| ? ? Hin _]. apply Hin. left. reflexivity.
  - vm_compute; lia.
  - vm_compute. intros [H | []]. discriminate H.
  - reflexivity.
  - vm_compute. split; discriminate.
  - split; [exact H1 |]. rewrite H2. reflexivity.
Defined.

(** X6.  The genre loop of [add_book] resolves or creates: for names that
    fit VARCHAR(32) it never fails, adds at most one genre row per name and
    touches no other table; run again on the store it leaves, it returns
    the same ids and changes nothing. *)
Theorem genres_resolved_once (names : list string) (st : db) :
  Forall (fun n => (String.length n <= 32)%nat) names ->
  exists ids st1,
    add_book_genres names st = (inr ids, st1)
    /\ add_book_genres names st1 = (inr ids, st1)
    /\ Forall2 (fun name id => In {| g_id := id; g_name := name |}
                                 (genres st1)) names ids
    /\ (exists ext, genres st1 = genres st ++ ext
                    /\ (length ext <= length names)%nat)
    /\ st1 = set_genres (genres st1) (genres_id_seq st1) st.
Proof.
  intros Hfit.
  destruct (add_book_genres_run names st Hfit)
    as (ids & ext & seq & Hrun & Hfound & Hlen).
  exists ids, (set_genres (genres st ++ ext) seq st).
  split; [exact Hrun |]. split; [| split; [| split]].
  - apply add_book_genres_again. exact Hfound.
  - cbn [genres set_genres]. clear Hrun Hlen Hfit.
    induction Hfound as [| name id names ids' H1 H2 IH]; constructor;
      [apply found_genre; exact H1 | exact IH].
  - exists ext. split; [reflexivity | exact Hlen].
  - reflexivity.
Qed.

Lemma genres_resolved_once_witness :
  exists ids st1,
    add_book_genres ["SF"; "Saga"] catalogue = (inr ids, st1)
    /\ add_book_genres ["SF"; "Saga"] st1 = (inr ids, st1).
Proof.
  destruct (genres_resolved_once ["SF"; "Saga"] catalogue)
    as (ids & st1 & H1 & H2 & _).
  - repeat constructor; vm_compute; lia.
  - exists ids, st1. split; assumption.
Defined.

(** ** More on the ledger *)

Lemma live_live now now' l :
  live now' (live now l) = live (Z.max now now') l.
Proof.
  unfold live, expired. induction l as [| r l IH]; [reflexivity |].
  cbn [List.filter].
  destruct (end_date r <? now) eqn:E1; cbn [negb].
  - assert ((end_date r <? Z.max now now') = true) as ->
        by (apply Z.ltb_lt; apply Z.ltb_lt in E1; lia).
    cbn [negb]. exact IH.
  - cbn [List.filter].
    destruct (end_date r <? now') eqn:E2; cbn [negb].
    + assert ((end_date r <? Z.max now now') = true) as ->
          by (apply Z.ltb_lt; apply Z.ltb_lt in E2; lia).
      cbn [negb]. exact IH.
    + assert ((end_date r <? Z.max now now') = false) as ->
          by (apply Z.ltb_ge; apply Z.ltb_ge in E1, E2; lia).
      cbn [negb]. rewrite IH. reflexivity.
Qed.

Lemma live_app now l k : live now (l ++ k) = live now l ++ live now k.
Proof. unfold live. apply List.filter_app. Qed.

(** X7.  [add_booking] refuses a booking whose start, cut to the whole
    second, falls strictly inside a booking of the same book that has not
    expired: nothing is stored, the ledger is the swept one and the
    "already booked" line is printed. *)
Theorem add_booking_refused_inside (now : datetime) (u b : Z)
    (start stop : datetime) (st : db) (r : bookings_row) :
  connection st = true ->
  In r (bookings st) ->
  book_id r = b ->
  ~ end_date r < now ->
  start_date r < replace_microsecond_0 start ->
  replace_microsecond_0 start < end_date r ->
  result (add_booking now u b start stop) st = inr tt
  /\ bookings (exec (add_booking now u b start stop) st)
     = live now (bookings st)
  /\ printed (add_booking now u b start stop) st
     = [Line "Ошибка: книга уже забронирована на это время"].
Proof.
  intros Hc Hr Hb Hlive H1 H2. unfold printed, result, exec.
  rewrite add_booking_connected by exact Hc. cbv zeta.
  assert (Hno : forallb
                  (fun r => negb (conflicts b (replace_microsecond_0 start) r))
                  (live now (bookings st)) = false).
  { apply not_true_iff_false. rewrite forallb_forall. intros Hall.
    specialize (Hall r (proj2 (In_live now r _) (conj Hr Hlive))).
    apply negb_true_iff in Hall.
    assert (conflicts b (replace_microsecond_0 start) r = true)
      by (apply conflicts_true; tauto).
    congruence. }
  rewrite Hno. cbn [fst snd]. cbn.
  repeat split. apply drop_app_length.
Qed.

Lemma add_booking_refused_inside_witness :
  bookings (exec (add_booking 0 2 1 (seconds 10) (seconds 20)) booked_5_15)
  = live 0 (bookings booked_5_15).
Proof.
  apply (add_booking_refused_inside 0 2 1 (seconds 10) (seconds 20)
           booked_5_15
           {| user_id := 1; book_id := 1; start_date := seconds 5;
              end_date := seconds 15 |}).
  - reflexivity.
  - vm_compute. left. reflexivity.
  - reflexivity.
  - vm_compute. discriminate.
  - vm_compute. reflexivity.
  - vm_compute. reflexivity.
Defined.



Lemma add_booking_ledger now u b start stop st :
  connection st = true ->
  bookings (exec (add_booking now u b start stop) st)
  = live now (bookings st)
  \/ bookings (exec (add_booking now u b start stop) st)
     = live now (bookings st)
       ++ [{| user_id := u; book_id := b;
              start_date := replace_microsecond_0 start;
              end_date := replace_microsecond_0 stop |}].
Proof.
  intros Hc. unfold exec. rewrite add_booking_connected by exact Hc.
  cbv zeta. destruct (forallb _ _); [| left; reflexivity].
  rewrite insert_booking_run.
  destruct (fits_integer u && fits_integer b); [| left; reflexivity].
  cbn [books set_bookings].
  destruct (existsb _ (books st)); [right | left]; reflexivity.
Qed.

Lemma add_booking_connection now u b start stop st :
  connection (exec (add_booking now u b start stop) st) = connection st.
Proof.
  destruct (connection st) eqn:Hc.
  - unfold exec. rewrite add_booking_connected by exact Hc. cbv zeta.
    destruct (forallb _ _); [| exact Hc].
    rewrite insert_booking_run.
    destruct (fits_integer u && fits_integer b); [| exact Hc].
    cbn [books set_bookings]. destruct (existsb _ (books st)); exact Hc.
  - unfold exec, add_booking, try_except, add_booking_body.
    unfold bind at 1. unfold _is_available_bookings. unfold bind at 1.
    rewrite sweep_disconnected by exact Hc.
    unfold try_except, _is_available_bookings_body. unfold bind at 1.
    rewrite cursor_disconnected by exact Hc. exact Hc.
Qed.

(** X9.  Books do not interfere: a call of [add_booking] for one book,
    stored or refused, does not change the answer of the availability
    check for any other book (at a clock reading that is not earlier). *)
Theorem add_booking_other_book (now now' : datetime) (u b b' : Z)
    (start stop s : datetime) (st : db) :
  connection st = true ->
  b <> b' ->
  now <= now' ->
  result (_is_available_bookings now' b' s)
    (exec (add_booking now u b start stop) st)
  = result (_is_available_bookings now' b' s) st.
Proof.
  intros Hc Hne Hnow. unfold result.
  rewrite !is_available_connected
    by (rewrite ?add_booking_connection; exact Hc).
  cbn [fst]. do 2 f_equal.
  destruct (add_booking_ledger now u b start stop st Hc) as [-> | ->].
  - rewrite live_live, Z.max_r by lia. reflexivity.
  - rewrite live_app, forallb_app, live_live, Z.max_r by lia.
    match goal with |- ?x && ?y = ?x => assert (y = true) as ->;
      [| apply andb_true_r] end.
    rewrite forallb_forall. intros r Hr.
    apply In_live in Hr as [[<- | []] _].
    unfold conflicts. cbn [book_id].
    apply Z.eqb_neq in Hne. rewrite Hne. reflexivity.
Qed.

Lemma add_booking_other_book_witness :
  result (_is_available_bookings 0 2 (seconds 10))
    (exec (add_booking 0 1 1 (seconds 5) (seconds 15)) catalogue)
  = result (_is_available_bookings 0 2 (seconds 10)) catalogue.
Proof.
  apply (add_booking_other_book 0 0 1 1 2 (seconds 5) (seconds 15)
           (seconds 10) catalogue).
  - reflexivity.
  - discriminate.
  - reflexivity.
Defined.

(** X10.  Sweeps compose: on a connected store a sweep at [now] followed by
    a sweep at [now'] leaves the store a single sweep at the later of the
    two leaves; sweeping twice at the same instant is sweeping once. *)
Theorem sweeps_compose (now now' : datetime) (st : db) :
  connection st = true ->
  exec (_checking_booking_date now') (exec (_checking_booking_date now) st)
  = exec (_checking_booking_date (Z.max now now')) st
  /\ exec (_checking_booking_date now) (exec (_checking_booking_date now) st)
     = exec (_checking_booking_date now) st.
Proof.
  intros Hc. unfold exec.
  rewrite !(sweep_connected _ st Hc). cbn [snd].
  rewrite !sweep_connected by exact Hc. cbn [snd bookings set_bookings].
  rewrite !live_live, Z.max_id. split; reflexivity.
Qed.

Lemma sweeps_compose_witness :
  exec (_checking_booking_date (seconds 16))
    (exec (_checking_booking_date (seconds 3)) booked_twice)
  = exec (_checking_booking_date (Z.max (seconds 3) (seconds 16)))
      booked_twice.
Proof.
  apply (sweeps_compose (seconds 3) (seconds 16) booked_twice).
  reflexivity.
Defined.

(** X11.  [add_booking] for a book id that is not in the catalogue stores
    nothing: where the constraints hold no booking of that id can be in
    the way, so the availability check passes and the INSERT is refused by
    the foreign key; the error line is printed and the ledger is the swept
    one. *)
Theorem add_booking_unknown_book (now : datetime) (u b : Z)
    (start stop : datetime) (st : db) :
  connection st = true ->
  constraints_hold st ->
  fits_integer u = true -> fits_integer b = true ->
  ~ In b (ids_of b_id (books st)) ->
  result (add_booking now u b start stop) st = inr tt
  /\ bookings (exec (add_booking now u b start stop) st)
     = live now (bookings st)
  /\ printed (add_booking now u b start stop) st
     = [ErrLine "Ошибка при создании бронирования" ForeignKeyViolation].
Proof.
  intros Hc Hok Hu Hb Hmissing. unfold printed, result, exec.
  rewrite add_booking_connected by exact Hc. cbv zeta.
  assert (Hav : forallb
                  (fun r => negb (conflicts b (replace_microsecond_0 start) r))
                  (live now (bookings st)) = true).
  { rewrite forallb_forall. intros r Hr. apply In_live in Hr as [Hr _].
    pose proof (bookings_book_exists _ Hok) as Hfk.
    rewrite List.Forall_forall in Hfk. specialize (Hfk r Hr).
    unfold conflicts.
    destruct (Z.eqb_spec (book_id r) b) as [Heq | Hne]; [| reflexivity].
    rewrite Heq in Hfk. tauto. }
  rewrite Hav, insert_booking_run, Hu, Hb. cbn [andb books set_bookings].
  apply existsb_ids_false in Hmissing. rewrite Hmissing.
  cbn [fst snd]. cbn. repeat split. apply drop_app_length.
Qed.

Lemma add_booking_unknown_book_witness :
  printed (add_booking 0 1 7 (seconds 5) (seconds 15)) catalogue
  = [ErrLine "Ошибка при создании бронирования" ForeignKeyViolation].
Proof.
  apply (add_booking_unknown_book 0 1 7 (seconds 5) (seconds 15) catalogue).
  - reflexivity.
  - exact constraints_catalogue.
  - reflexivity.
  - reflexivity.
  - vm_compute. intros [H | []]. discriminate H.
Defined.

(** ** The joins under the constraints *)






(** X13.  [get_books_filtered] is not a pure read: on a connected store
    every call, whatever its filters and whether or not the query
    succeeds, deletes the bookings that have expired at [now]; it changes
    no catalogue table and no sequence. *)
Theorem get_books_filtered_sweeps (now : datetime)
    (min_price max_price : pyval) (genre first last : option string)
    (st : db) :
  connection st = true ->
  let st' :=
    exec (get_books_filtered now min_price max_price genre first last) st in
  bookings st' = live now (bookings st)
  /\ st' = set_stdout (stdout st') (set_bookings (bookings st') st).
Proof.
  intros Hc st'. subst st'. unfold exec.
  rewrite get_books_filtered_connected by exact Hc. cbv zeta.
  destruct (forallb condition_typed _); split; reflexivity.
Qed.

Lemma get_books_filtered_sweeps_witness :
  bookings
    (exec (get_books_filtered (seconds 16) PyNone PyNone None None None)
       booked_twice)
  = live (seconds 16) (bookings booked_twice).
Proof.
  apply (get_books_filtered_sweeps (seconds 16) PyNone PyNone None None None
           booked_twice).
  reflexivity.
Defined.

(** X14.  A Python [bool] passes the [isinstance(..., (int, float))] guard
    of [get_books_filtered]; the store has no comparison between NUMERIC
    and BOOLEAN, so the call with [True] or [False] as a price fails: it
    prints the error line and returns [None], not a dictionary. *)
Theorem get_books_filtered_bool_price (now : datetime)
    (min_price max_price : pyval) (genre first last : option string)
    (st : db) :
  connection st = true ->
  is_bool min_price = true \/ is_bool max_price = true ->
  result (get_books_filtered now min_price max_price genre first last) st
  = inr None
  /\ printed (get_books_filtered now min_price max_price genre first last) st
     = [ErrLine "Ошибка при выборке книг с фильтрами" UndefinedFunction].
Proof.
  intros Hc Hbool. unfold printed, result, exec.
  rewrite get_books_filtered_connected by exact Hc. cbv zeta.
  assert (Ht : forallb condition_typed
                 (filter_query min_price max_price genre first last)
               = false).
  { unfold filter_query.
    destruct min_price as [| [bm | zm | qm] |],
             max_price as [| [bx | zx | qx] |];
      cbn [is_bool] in Hbool; try (destruct Hbool; discriminate);
      cbn [is_None isinstance_int_float negb andb app];
      destruct first as [f |], last as [l |], genre as [g |];
      cbn [truthy];
      repeat match goal with
             | |- context [String.eqb ?a ?b] => destruct (String.eqb a b)
             end; reflexivity. }
  rewrite Ht. cbn [fst snd]. cbn. split; [reflexivity |].
  apply drop_app_length.
Qed.

Lemma get_books_filtered_bool_price_witness :
  result
    (get_books_filtered 0 (PyNum (PyBool true)) PyNone None None None)
    catalogue = inr None.
Proof.
  apply (get_books_filtered_bool_price 0 (PyNum (PyBool true)) PyNone None
           None None catalogue).
  - reflexivity.
  - left. reflexivity.
Defined.

(** ** Reading the catalogue back *)

Lemma filter_nil {A} (p : A -> bool) l :
  (forall x, In x l -> p x = false) -> List.filter p l = [].
Proof.
  induction l as [| y l IH]; intros H; [reflexivity |].
  cbn [List.filter]. rewrite (H y) by (left; reflexivity).
  apply IH. intros x Hx. apply H. right. exact Hx.
Qed.

Lemma filtered_lookup_sound now min_price max_price genre first last st d id
    info :
  connection st = true ->
  result (get_books_filtered now min_price max_price genre first last) st
  = inr (Some d) ->
  d !! id = Some info ->
  exists b g a,
    In (b, g, a) (books_join st)
    /\ satisfies min_price max_price genre first last (b, g, a) = true
    /\ b_id b = id
    /\ info = {| bi_title := b_title b; bi_price := b_price b;
                 bi_pages := b_pages b; bi_first_name := a_first_name a;
                 bi_last_name := a_last_name a |}.
Proof.
  intros Hc Hres Hd. unfold result in Hres.
  rewrite get_books_filtered_connected in Hres by exact Hc. cbv zeta in Hres.
  destruct (forallb condition_typed _); [| discriminate].
  cbn [fst] in Hres. injection Hres as <-.
  unfold books_dict in Hd.
  apply fold_insert_lookup in Hd as [Hd | Hd];
    [| rewrite lookup_empty in Hd; discriminate].
  apply in_map_iff in Hd as [[[b g] a] [Hp Hin]].
  apply List.filter_In in Hin as [Hin Hsat].
  rewrite query_is_conjunction in Hsat.
  cbn [project] in Hp. injection Hp as <- <-.
  exists b, g, a. auto.
Qed.

Lemma filtered_lookup_complete now min_price max_price genre first last st
    b g a :
  connection st = true ->
  is_bool min_price = false -> is_bool max_price = false ->
  In (b, g, a) (books_join st) ->
  satisfies min_price max_price genre first last (b, g, a) = true ->
  exists d,
    result (get_books_filtered now min_price max_price genre first last) st
    = inr (Some d)
    /\ is_Some (d !! b_id b).
Proof.
  intros Hc Hm Hx Hin Hsat. unfold result.
  rewrite get_books_filtered_connected by exact Hc. cbv zeta.
  rewrite query_typed by assumption. cbn [fst].
  eexists. split; [reflexivity |].
  unfold books_dict. apply fold_insert_member. left.
  exists (snd (project (b, g, a))).
  apply in_map_iff. exists (b, g, a). split; [reflexivity |].
  apply List.filter_In. split; [exact Hin |].
  rewrite query_is_conjunction. exact Hsat.
Qed.

(** X15.  An inverted price range selects nothing: with two numbers as
    prices (no [bool]) and max_price < min_price, [get_books_filtered] on a
    connected store returns the empty dictionary, whatever the other
    filters. *)
Theorem get_books_filtered_inverted_range (now : datetime) (m x : pynum)
    (genre first last : option string) (st : db) :
  connection st = true ->
  is_bool (PyNum m) = false -> is_bool (PyNum x) = false ->
  (pynum_value x < pynum_value m)%Q ->
  result (get_books_filtered now (PyNum m) (PyNum x) genre first last) st
  = inr (Some ∅).
Proof.
  intros Hc Hm Hx Hlt. unfold result.
  rewrite get_books_filtered_connected by exact Hc. cbv zeta.
  rewrite query_typed by assumption. cbn [fst]. do 2 f_equal.
  rewrite filter_nil; [reflexivity |].
  intros [[b g] a] _. rewrite query_is_conjunction.
  unfold satisfies, holds, price_bound.
  destruct (Qle_bool (pynum_value m) (price_of_hundredths (b_price b)))
    eqn:E1; [| reflexivity].
  destruct (Qle_bool (price_of_hundredths (b_price b)) (pynum_value x))
    eqn:E2; [| reflexivity].
  exfalso. apply Qle_bool_iff in E1, E2.
  apply (Qlt_not_le _ _ Hlt). eapply Qle_trans; eassumption.
Qed.

Lemma get_books_filtered_inverted_range_witness :
  result
    (get_books_filtered 0 (PyNum (PyInt 20)) (PyNum (PyFloat (5 # 1))) None
       None None) catalogue
  = inr (Some ∅).
Proof.
  apply (get_books_filtered_inverted_range 0 (PyInt 20) (PyFloat (5 # 1))
           None None None catalogue); reflexivity.
Defined.

Lemma get_genres_by_book_id_connected le b st :
  connection st = true ->
  get_genres_by_book_id le b st
  = (inr (Some (order_by le (genre_names_join b st))), st).
Proof.
  intros Hc. unfold get_genres_by_book_id. apply try_except_returns.
  unfold get_genres_by_book_id_body.
  rewrite (bind_run _ _ _ _ _ (cursor_connected st Hc)). reflexivity.
Qed.

Lemma In_genre_names_join name b st :
  In name (genre_names_join b st)
  <-> exists g bg, In g (genres st) /\ In bg (book_genres st)
                   /\ g_name g = name /\ bg_genre_id bg = g_id g
                   /\ bg_book_id bg = b.
Proof.
  unfold genre_names_join. rewrite in_flat_map. split.
  - intros [g [Hg Hin]]. apply in_map_iff in Hin as [bg [Hname Hbg]].
    apply List.filter_In in Hbg as [Hbg E].
    apply andb_true_iff in E as [E1 E2]. apply Z.eqb_eq in E1, E2.
    exists g, bg. auto.
  - intros (g & bg & Hg & Hbg & Hname & E1 & E2).
    exists g. split; [exact Hg |]. apply in_map_iff. exists bg.
    split; [exact Hname |]. apply List.filter_In. split; [exact Hbg |].
    apply andb_true_iff. rewrite !Z.eqb_eq. auto.
Qed.

Lemma order_by_nil le l : l = [] -> order_by le l = [].
Proof. intros ->. reflexivity. Qed.

(** X16.  After [remove_book] of a book that no booking references (on a
    connected store) the id is gone for every reader: it is in no
    dictionary that [get_books_filtered] returns, [get_genres_by_book_id]
    returns the empty list for it, and a second [remove_book] of the same
    id changes nothing and prints the "no such book" line. *)
Theorem remove_book_then_absent (id : Z) (st : db) :
  connection st = true ->
  existsb (fun r => book_id r =? id) (bookings st) = false ->
  let st1 := exec (remove_book id) st in
  (forall now min_price max_price genre first last d,
     result (get_books_filtered now min_price max_price genre first last) st1
     = inr (Some d) ->
     d !! id = None)
  /\ (forall le, result (get_genres_by_book_id le id) st1 = inr (Some []))
  /\ printed (remove_book id) st1 = [Line "Книги с таким id не существует"]
  /\ books (exec (remove_book id) st1) = books st1
  /\ book_genres (exec (remove_book id) st1) = book_genres st1.
Proof.
  intros Hc Href st1.
  assert (Hst1 : books st1
                 = List.filter (fun b => negb (b_id b =? id)) (books st)
                 /\ book_genres st1
                    = List.filter (fun r => negb (bg_book_id r =? id))
                        (book_genres st)
                 /\ bookings st1 = bookings st
                 /\ connection st1 = true).
  { unfold st1, exec. rewrite remove_book_connected by exact Hc.
    rewrite Href, andb_false_r. cbv zeta. cbn. auto. }
  destruct Hst1 as (Hbooks & Hlinks & Hbookings & Hc1).
  assert (Hgone : existsb (fun b => b_id b =? id) (books st1) = false).
  { apply existsb_ids_false. rewrite Hbooks. intros Hin.
    apply in_map_iff in Hin as [b [Hid Hin]].
    apply List.filter_In in Hin as [_ Hne].
    apply negb_true_iff, Z.eqb_neq in Hne. tauto. }
  split; [| split].
  - intros now min_price max_price genre first last d Hres.
    destruct (d !! id) as [info |] eqn:E; [| reflexivity].
    destruct (filtered_lookup_sound _ _ _ _ _ _ _ _ _ _ Hc1 Hres E)
      as (b & g & a & Hin & _ & Hid & _).
    apply In_books_join in Hin as (Hb & _).
    apply existsb_ids_false in Hgone. exfalso. apply Hgone.
    rewrite <- Hid. apply in_map. exact Hb.
  - intros le. unfold result.
    rewrite get_genres_by_book_id_connected by exact Hc1. cbn [fst].
    do 2 f_equal. apply order_by_nil.
    destruct (genre_names_join id st1) as [| name l] eqn:E; [reflexivity |].
    assert (Hin : In name (genre_names_join id st1))
      by (rewrite E; left; reflexivity).
    apply In_genre_names_join in Hin as (g & bg & _ & Hbg & _ & _ & Hid).
    rewrite Hlinks in Hbg. apply List.filter_In in Hbg as [_ Hne].
    apply negb_true_iff, Z.eqb_neq in Hne. tauto.
  - unfold printed, exec. rewrite (remove_book_connected id st1 Hc1).
    rewrite Hgone. cbn [andb]. cbv zeta. cbn [snd stdout set_stdout books
    book_genres set_books set_book_genres].
    split; [apply drop_app_length |].
    rewrite Hbooks, Hlinks, !filter_idem. split; reflexivity.
Qed.

Lemma remove_book_then_absent_witness :
  printed (remove_book 1) (exec (remove_book 1) catalogue)
  = [Line "Книги с таким id не существует"].
Proof.
  apply (remove_book_then_absent 1 catalogue); reflexivity.
Defined.

Lemma constraints_add_book book st :
  constraints_hold st -> constraints_hold (exec (add_book book) st).
Proof. intros H. exact (constraints_run_call (AddBook book) st H). Qed.

(** X17.  A book stored by [add_book] can be read back only if it has a
    genre: after a successful [add_book] (hypotheses of X3) the unfiltered
    [get_books_filtered] returns, under the new id, the title, the price in
    hundredths, the pages and the author's names of the book when
    [book.genres] is not empty; a book added with an empty genre list is
    stored but is in no dictionary the call returns. *)
Theorem add_book_then_listed (book : BookModel) (st : db) (p : Z)
    (now : datetime) :
  connection st = true ->
  constraints_hold st ->
  (String.length (first_name book) <= 50)%nat ->
  (String.length (last_name book) <= 50)%nat ->
  Forall (fun n => (String.length n <= 32)%nat) (genres_of book) ->
  List.NoDup (genres_of book) ->
  (String.length (title book) <= 255)%nat ->
  ~ In (title book) (List.map b_title (books st)) ->
  numeric_7_2 (price book) = inr p ->
  -32768 <= pages book <= 32767 ->
  let st' := exec (add_book book) st in
  In (books_id_seq st) (ids_of b_id (books st'))
  /\ exists d : gmap Z book_info,
       result (get_books_filtered now PyNone PyNone None None None) st'
       = inr (Some d)
       /\ (genres_of book <> [] ->
           d !! books_id_seq st
           = Some {| bi_title := title book; bi_price := p;
                     bi_pages := pages book;
                     bi_first_name := first_name book;
                     bi_last_name := last_name book |})
       /\ (genres_of book = [] -> d !! books_id_seq st = None).
Proof.
  intros Hc Hok Hf Hl Hg Hnd Ht Hfresh Hp Hpg st'.
  pose proof (constraints_add_book book st Hok) as Hok'. fold st' in Hok'.
  destruct (add_book_run book st p Hc Hok Hf Hl Hg Ht Hp Hpg)
    as (author & rows & aseq & ids & ext & gseq & Hin & Hfn & Hln & _
        & Hfound & _ & Hrun & _).
  specialize (Hrun Hfresh Hnd).
  set (row := {| b_id := books_id_seq st; b_title := title book;
                 b_price := p; b_pages := pages book;
                 b_author_id := a_id author |}) in *.
  assert (Hst' : connection st' = true
                 /\ authors st' = rows
                 /\ genres st' = genres st ++ ext
                 /\ books st' = books st ++ [row]
                 /\ book_genres st'
                    = book_genres st
                      ++ List.map
                           (fun g => {| bg_book_id := books_id_seq st;
                                        bg_genre_id := g |}) ids).
  { unfold st', exec. rewrite Hrun. cbn. auto. }
  destruct Hst' as (Hc' & Hauthors & Hgenres & Hbooks & Hlinks).
  assert (Hrow : In row (books st'))
    by (rewrite Hbooks; apply in_or_app; right; left; reflexivity).
  assert (Hin' : In author (authors st')) by (rewrite Hauthors; exact Hin).
  clear Hauthors.
  split; [apply (in_map b_id) in Hrow; exact Hrow |].
  assert (Hres : exists d,
             result (get_books_filtered now PyNone PyNone None None None) st'
             = inr (Some d)).
  { unfold result. rewrite get_books_filtered_connected by exact Hc'.
    cbv zeta. cbn [filter_query is_None negb andb truthy forallb fst].
    eexists. reflexivity. }
  destruct Hres as [d Hres]. exists d. split; [exact Hres |].
  assert (Hsound : forall info,
             d !! books_id_seq st = Some info ->
             exists g bg,
               In bg (book_genres st') /\ bg_book_id bg = books_id_seq st
               /\ info = {| bi_title := title book; bi_price := p;
                            bi_pages := pages book;
                            bi_first_name := first_name book;
                            bi_last_name := last_name book |}
               /\ In g (genres st')).
  { intros info Hd.
    destruct (filtered_lookup_sound _ _ _ _ _ _ _ _ _ _ Hc' Hres Hd)
      as (b & g & a & Hjoin & _ & Hid & ->).
    apply In_books_join in Hjoin
      as (Hb & Hg' & Ha & Hauth & bg & Hbg & Hbgb & _).
    assert (b = row)
      by (apply (NoDup_map_eq b_id (books st')); auto;
          apply (book_ids_unique _ Hok')).
    subst b.
    assert (a = author).
    { apply (NoDup_map_eq a_id (authors st')); auto.
      apply (author_ids_unique _ Hok'). }
    subst a. exists g, bg. rewrite Hfn, Hln.
    split; [exact Hbg |]. split; [rewrite Hbgb; exact Hid |].
    split; [reflexivity | exact Hg']. }
  split.
  - intros Hne.
    destruct (genres_of book) as [| name names] eqn:Eg; [congruence |].
    inversion Hfound as [| ? id ? ids' Hname Hrest]; subst.
    apply found_genre in Hname.
    destruct (filtered_lookup_complete now PyNone PyNone None None None st'
                row {| g_id := id; g_name := name |} author Hc' eq_refl
                eq_refl) as (d' & Hres' & [info Hinfo]).
    + apply In_books_join. rewrite Hgenres.
      repeat split; auto.
      exists {| bg_book_id := books_id_seq st; bg_genre_id := id |}.
      rewrite Hlinks. repeat split.
      apply in_or_app. right. left. reflexivity.
    + reflexivity.
    + rewrite Hres in Hres'. injection Hres' as <-.
      cbn [row b_id] in Hinfo. rewrite Hinfo.
      destruct (Hsound info Hinfo) as (_ & _ & _ & _ & -> & _).
      reflexivity.
  - intros Hempty. rewrite Hempty in Hfound. inversion Hfound; subst.
    destruct (d !! books_id_seq st) as [info |] eqn:E; [| reflexivity].
    destruct (Hsound info eq_refl) as (g & bg & Hbg & Hid & _).
    rewrite Hlinks in Hbg. cbn [List.map] in Hbg. rewrite app_nil_r in Hbg.
    pose proof (book_genres_book_exists _ Hok) as Hfk.
    rewrite List.Forall_forall in Hfk. apply Hfk in Hbg.
    rewrite Hid in Hbg.
    exfalso. apply (drawn_not_in b_id _ _ (book_ids_drawn _ Hok)). exact Hbg.
Qed.

Lemma add_book_then_listed_witness :
  In (books_id_seq catalogue) (ids_of b_id (books (exec (add_book eye) catalogue)))
  /\ exists d : gmap Z book_info,
       result (get_books_filtered 0 PyNone PyNone None None None)
         (exec (add_book eye) catalogue) = inr (Some d)
       /\ d !! books_id_seq catalogue = None.
Proof.
  destruct (add_book_then_listed eye catalogue 799 0)
    as (H1 & d & H2 & _ & H3).
  - reflexivity.
  - exact constraints_catalogue.
  - vm_compute; lia.
  - vm_compute; lia.
  - constructor.
  - constructor.
  - vm_compute; lia.
  - vm_compute. intros [H | []]. discriminate H.
  - reflexivity.
  - vm_compute. split; discriminate.
  - split; [exact H1 |]. exists d. split; [exact H2 |]. apply H3.
    reflexivity.
Defined.

(** ** [get_genres_by_book_id] *)

Lemma insert_by_perm le x l : Permutation (insert_by le x l) (x :: l).
Proof.
  induction l as [| y l IH]; cbn [insert_by]; [reflexivity |].
  destruct (le x y); [reflexivity |].
  rewrite IH. apply perm_swap.
Qed.

Lemma order_by_perm le l : Permutation (order_by le l) l.
Proof.
  induction l as [| x l IH]; cbn [order_by]; [reflexivity |].
  rewrite insert_by_perm. apply perm_skip. exact IH.
Qed.

Lemma insert_by_sorted le x l :
  (forall a b, le a b = true \/ le b a = true) ->
  sorted_by le l = true -> sorted_by le (insert_by le x l) = true.
Proof.
  intros Htotal. induction l as [| y l IH]; [reflexivity |].
  intros Hs. cbn [insert_by]. destruct (le x y) eqn:Exy.
  - cbn [sorted_by] in *. rewrite Exy. exact Hs.
  - assert (Hyx : le y x = true)
      by (destruct (Htotal x y); congruence).
    destruct l as [| z l].
    + cbn [insert_by sorted_by]. rewrite Hyx. reflexivity.
    + cbn [sorted_by] in Hs. apply andb_true_iff in Hs as [Hyz Hs].
      specialize (IH Hs). cbn [insert_by] in *.
      destruct (le x z); cbn [sorted_by] in *.
      * rewrite Hyx. exact IH.
      * rewrite Hyz. exact IH.
Qed.

Lemma order_by_sorted le l :
  (forall a b, le a b = true \/ le b a = true) ->
  sorted_by le (order_by le l) = true.
Proof.
  intros Htotal. induction l as [| x l IH]; [reflexivity |].
  cbn [order_by]. apply insert_by_sorted; assumption.
Qed.

Lemma filter_at_most_one {A} (p : A -> bool) l :
  List.NoDup l ->
  (forall x y, p x = true -> p y = true -> x = y) ->
  List.filter p l = [] \/ exists x, List.filter p l = [x].
Proof.
  intros Hnd Hone. induction Hnd as [| y l Hy Hnd IH]; [left; reflexivity |].
  cbn [List.filter]. destruct (p y) eqn:Ey; [| exact IH].
  right. exists y. f_equal. apply filter_nil. intros x Hx.
  destruct (p x) eqn:Ex; [| reflexivity].
  exfalso. apply Hy. rewrite (Hone y x Ey Ex). exact Hx.
Qed.

Lemma genre_names_join_NoDup b st :
  constraints_hold st -> List.NoDup (genre_names_join b st).
Proof.
  intros Hok. unfold genre_names_join.
  pose proof (genre_names_unique _ Hok) as Hnames.
  pose proof (book_genres_unique _ Hok) as Hlinks.
  induction (genres st) as [| g G IH]; [constructor |].
  cbn [flat_map List.map] in *. inversion Hnames as [| ? ? Hg HG]; subst.
  specialize (IH HG).
  assert (Hrest : ~ In (g_name g)
                      (flat_map
                         (fun g0 =>
                            List.map (fun _ => g_name g0)
                              (List.filter
                                 (fun bg =>
                                    (g_id g0 =? bg_genre_id bg)
                                    && (bg_book_id bg =? b))
                                 (book_genres st))) G)).
  { intros Hin. apply in_flat_map in Hin as [g' [Hg' Hin]].
    apply in_map_iff in Hin as [_ [Heq _]].
    apply Hg. rewrite <- Heq. apply in_map. exact Hg'. }
  destruct (filter_at_most_one
              (fun bg => (g_id g =? bg_genre_id bg) && (bg_book_id bg =? b))
              (book_genres st) Hlinks) as [-> | [bg ->]].
  - intros [b1 g1] [b2 g2] H1 H2. cbn in H1, H2.
    apply andb_true_iff in H1 as [H1 H1'], H2 as [H2 H2'].
    apply Z.eqb_eq in H1, H1', H2, H2'. congruence.
  - exact IH.
  - cbn [List.map app]. constructor; assumption.
Qed.

(** X18.  [get_genres_by_book_id] on a connected store changes nothing and
    returns the names of the genres linked to the book id, in the order of
    the collation [le] (any total order): a name is returned exactly when a
    genre of that name has a link row with the book id.  An id with no link
    row, such as an id that was never a book, gives the empty list, not an
    error; where the constraints hold no name is returned twice. *)
Theorem get_genres_by_book_id_sorted (le : string -> string -> bool)
    (b : Z) (st : db) :
  connection st = true ->
  (forall x y, le x y = true \/ le y x = true) ->
  exists names,
    get_genres_by_book_id le b st = (inr (Some names), st)
    /\ sorted_by le names = true
    /\ Permutation names (genre_names_join b st)
    /\ (forall name,
          In name names <->
          exists g bg, In g (genres st) /\ In bg (book_genres st)
                       /\ g_name g = name /\ bg_genre_id bg = g_id g
                       /\ bg_book_id bg = b)
    /\ ((forall bg, In bg (book_genres st) -> bg_book_id bg <> b) ->
        names = [])
    /\ (constraints_hold st -> List.NoDup names).
Proof.
  intros Hc Htotal. exists (order_by le (genre_names_join b st)).
  split; [apply get_genres_by_book_id_connected; exact Hc |].
  split; [apply order_by_sorted; exact Htotal |].
  split; [apply order_by_perm |].
  split; [| split].
  - intros name. rewrite <- In_genre_names_join.
    split; apply Permutation_in;
      [apply order_by_perm | symmetry; apply order_by_perm].
  - intros Hnone. apply order_by_nil.
    destruct (genre_names_join b st) as [| name l] eqn:E; [reflexivity |].
    assert (Hin : In name (genre_names_join b st))
      by (rewrite E; left; reflexivity).
    apply In_genre_names_join in Hin as (g & bg & _ & Hbg & _ & _ & Hid).
    exfalso. apply (Hnone bg Hbg Hid).
  - intros Hok.
    apply (Permutation_NoDup (l := genre_names_join b st));
      [symmetry; apply order_by_perm |].
    apply genre_names_join_NoDup. exact Hok.
Qed.

Lemma get_genres_by_book_id_sorted_witness :
  exists names,
    get_genres_by_book_id String.leb 2 (exec (add_book children_of_dune)
                                          catalogue)
    = (inr (Some names), exec (add_book children_of_dune) catalogue)
    /\ sorted_by String.leb names = true.
Proof.
  destruct (get_genres_by_book_id_sorted String.leb 2
              (exec (add_book children_of_dune) catalogue))
    as (names & H1 & H2 & _).
  - reflexivity.
  - exact String.leb_total.
  - exists names. split; assumption.
Defined.

Lemma Forall2_in_left {A B} (R : A -> B -> Prop) l k x :
  Forall2 R l k -> In x l -> exists z, In z k /\ R x z.
Proof.
  induction 1 as [| x' z l k Hxz HR IH]; [intros [] |].
  intros [-> | Hx]; [exists z; split; [left; reflexivity | exact Hxz] |].
  destruct (IH Hx) as [y [Hy Hxy]]. exists y. split; [right |]; assumption.
Qed.

(** X19.  Genres round trip: after a successful [add_book] (hypotheses of
    X3), [get_genres_by_book_id] for the new id returns the names of
    [book.genres], each once, rearranged in the order of the collation. *)
Theorem add_book_then_genres (book : BookModel) (st : db) (p : Z)
    (le : string -> string -> bool) :
  connection st = true ->
  constraints_hold st ->
  (String.length (first_name book) <= 50)%nat ->
  (String.length (last_name book) <= 50)%nat ->
  Forall (fun n => (String.length n <= 32)%nat) (genres_of book) ->
  List.NoDup (genres_of book) ->
  (String.length (title book) <= 255)%nat ->
  ~ In (title book) (List.map b_title (books st)) ->
  numeric_7_2 (price book) = inr p ->
  -32768 <= pages book <= 32767 ->
  (forall x y, le x y = true \/ le y x = true) ->
  exists names,
    result (get_genres_by_book_id le (books_id_seq st))
      (exec (add_book book) st) = inr (Some names)
    /\ sorted_by le names = true
    /\ Permutation names (genres_of book).
Proof.
  intros Hc Hok Hf Hl Hg Hnd Ht Hfresh Hp Hpg Htotal.
  set (st' := exec (add_book book) st).
  pose proof (constraints_add_book book st Hok) as Hok'. fold st' in Hok'.
  destruct (add_book_run book st p Hc Hok Hf Hl Hg Ht Hp Hpg)
    as (author & rows & aseq & ids & ext & gseq & _ & _ & _ & _
        & Hfound & _ & Hrun & _).
  specialize (Hrun Hfresh Hnd).
  assert (Hst' : connection st' = true
                 /\ genres st' = genres st ++ ext
                 /\ book_genres st'
                    = book_genres st
                      ++ List.map
                           (fun g => {| bg_book_id := books_id_seq st;
                                        bg_genre_id := g |}) ids).
  { unfold st', exec. rewrite Hrun. cbn. auto. }
  destruct Hst' as (Hc' & Hgenres & Hlinks).
  exists (order_by le (genre_names_join (books_id_seq st) st')).
  unfold result. rewrite get_genres_by_book_id_connected by exact Hc'.
  split; [reflexivity |]. split; [apply order_by_sorted; exact Htotal |].
  rewrite order_by_perm.
  apply Permutation.NoDup_Permutation;
    [apply genre_names_join_NoDup; exact Hok' | exact Hnd |].
  intros name. rewrite In_genre_names_join. split.
  - intros (g & bg & Hgin & Hbg & Hname & Hgid & Hbid).
    rewrite Hlinks in Hbg. apply in_app_iff in Hbg as [Hbg | Hbg].
    + exfalso.
      pose proof (book_genres_book_exists _ Hok) as Hfk.
      rewrite List.Forall_forall in Hfk. apply Hfk in Hbg.
      rewrite Hbid in Hbg.
      apply (drawn_not_in b_id _ _ (book_ids_drawn _ Hok)). exact Hbg.
    + apply in_map_iff in Hbg as [id [<- Hid]]. cbn in Hgid.
      destruct (Forall2_in_right _ _ _ _ Hfound Hid) as [name' [Hin Hn]].
      apply found_genre in Hn. rewrite <- Hgenres in Hn.
      assert (g = {| g_id := id; g_name := name' |}).
      { apply (NoDup_map_eq g_id (genres st')); auto.
        apply (genre_ids_unique _ Hok'). }
      subst g. cbn in Hname. subst name'. exact Hin.
  - intros Hin.
    destruct (Forall2_in_left _ _ _ _ Hfound Hin) as [id [Hid Hn]].
    apply found_genre in Hn. rewrite <- Hgenres in Hn.
    exists {| g_id := id; g_name := name |},
           {| bg_book_id := books_id_seq st; bg_genre_id := id |}.
    repeat split; auto.
    rewrite Hlinks. apply in_or_app. right.
    apply in_map_iff. exists id. auto.
Qed.

Lemma add_book_then_genres_witness :
  exists names,
    result (get_genres_by_book_id String.leb (books_id_seq catalogue))
      (exec (add_book children_of_dune) catalogue) = inr (Some names)
    /\ sorted_by String.leb names = true
    /\ Permutation names (genres_of children_of_dune).
Proof.
  apply (add_book_then_genres children_of_dune catalogue 1250 String.leb).
  - reflexivity.
  - exact constraints_catalogue.
  - vm_compute; lia.
  - vm_compute; lia.
  - repeat constructor; vm_compute; lia.
  - repeat constructor; cbn; intuition discriminate.
  - vm_compute; lia.
  - vm_compute. intros [H | []]. discriminate H.
  - reflexivity.
  - vm_compute. split; discriminate.
  - exact String.leb_total.
Defined.

(** ** Cancelling, and what it makes possible *)

Lemma cancelled_do_not_count now u b s l :
  forallb (fun r => negb (conflicts b s r))
    (live now
       (List.filter (fun r => negb ((book_id r =? b) && (user_id r =? u))) l))
  = forallb (fun r => negb (conflicts b s r))
      (List.filter (fun r => negb (user_id r =? u)) (live now l)).
Proof.
  unfold live. induction l as [| r l IH]; [reflexivity |].
  assert (Hother : (book_id r =? b) = false -> conflicts b s r = false)
    by (intros E; unfold conflicts; rewrite E; reflexivity).
  cbn [List.filter].
  destruct (book_id r =? b) eqn:Eb, (user_id r =? u) eqn:Eu;
    cbn [negb andb List.filter];
    destruct (negb (expired now r)) eqn:El;
    cbn [List.filter forallb]; rewrite ?Eu; cbn [negb List.filter forallb];
    rewrite ?IH, ?Hother by reflexivity; reflexivity.
Qed.

(** X20.  After [cancel_booking] for a user and a book, the bookings of
    that user no longer count in the availability check of the book: the
    answer is the one computed on the live bookings of the other users,
    and when every booking of the book was the user's, the book is
    available at any start. *)
Theorem cancel_then_available (now : datetime) (u b : Z) (s : datetime)
    (st : db) :
  connection st = true ->
  result (_is_available_bookings now b s) (exec (cancel_booking u b) st)
  = inr (Some
           (forallb (fun r => negb (conflicts b s r))
              (List.filter (fun r => negb (user_id r =? u))
                 (live now (bookings st)))))
  /\ ((forall r, In r (bookings st) -> book_id r = b -> user_id r = u) ->
      result (_is_available_bookings now b s) (exec (cancel_booking u b) st)
      = inr (Some true)).
Proof.
  intros Hc.
  assert (Hres : result (_is_available_bookings now b s)
                   (exec (cancel_booking u b) st)
                 = inr (Some
                          (forallb (fun r => negb (conflicts b s r))
                             (live now
                                (List.filter
                                   (fun r => negb ((book_id r =? b)
                                                   && (user_id r =? u)))
                                   (bookings st)))))).
  { unfold result, exec. rewrite cancel_booking_connected by exact Hc.
    cbn [snd]. rewrite is_available_connected by exact Hc. reflexivity. }
  rewrite Hres. split.
  - do 2 f_equal. apply cancelled_do_not_count.
  - intros Hall. do 2 f_equal. apply forallb_forall. intros r Hr.
    apply In_live in Hr as [Hr _]. apply List.filter_In in Hr as [Hr Hne].
    unfold conflicts.
    destruct (Z.eqb_spec (book_id r) b) as [Hb | _]; [| reflexivity].
    rewrite (proj2 (Z.eqb_eq _ _) (Hall r Hr Hb)) in Hne.
    discriminate Hne.
Qed.

Lemma cancel_then_available_witness :
  result (_is_available_bookings 0 1 (seconds 10))
    (exec (cancel_booking 1 1) booked_5_15)
  = inr (Some true).
Proof.
  apply (cancel_then_available 0 1 1 (seconds 10) booked_5_15).
  - reflexivity.
  - vm_compute. intros r [<- | []] _. reflexivity.
Defined.

(** X21.  A booked book can be removed once its bookings are cancelled:
    when every booking of an existing book belongs to one user, on a
    connected store [cancel_booking] for that user and book followed by
    [remove_book] deletes the book row and its genre links and prints the
    success line, where [remove_book] alone is refused as long as a
    booking is stored. *)
Theorem cancel_then_remove_book (u id : Z) (st : db) :
  connection st = true ->
  In id (ids_of b_id (books st)) ->
  (forall r, In r (bookings st) -> book_id r = id -> user_id r = u) ->
  let st1 := exec (cancel_booking u id) st in
  printed (remove_book id) st1 = [Line "Книга удалена"]
  /\ books (exec (remove_book id) st1)
     = List.filter (fun b => negb (b_id b =? id)) (books st)
  /\ book_genres (exec (remove_book id) st1)
     = List.filter (fun r => negb (bg_book_id r =? id)) (book_genres st)
  /\ (existsb (fun r => book_id r =? id) (bookings st) = true ->
      books (exec (remove_book id) st) = books st).
Proof.
  intros Hc Hbook Hall st1.
  assert (Hst1 : cancel_booking u id st
                 = (inr tt,
                    set_stdout
                      (stdout st ++ [Line "Бронирование успешно отменено"])
                      (set_bookings
                         (List.filter
                            (fun r => negb ((book_id r =? id)
                                            && (user_id r =? u)))
                            (bookings st)) st)))
    by (apply cancel_booking_connected; exact Hc).
  assert (Hfree : existsb (fun r => book_id r =? id) (bookings st1) = false).
  { unfold st1, exec. rewrite Hst1. cbn [snd bookings set_stdout
    set_bookings]. apply existsb_ids_false. intros Hin.
    apply in_map_iff in Hin as [r [Hid Hr]].
    apply List.filter_In in Hr as [Hr Hne].
    rewrite (proj2 (Z.eqb_eq _ _) Hid),
      (proj2 (Z.eqb_eq _ _) (Hall r Hr Hid)) in Hne. discriminate. }
  assert (Hc1 : connection st1 = true)
    by (unfold st1, exec; rewrite Hst1; exact Hc).
  assert (Hbooks1 : books st1 = books st /\ book_genres st1 = book_genres st)
    by (unfold st1, exec; rewrite Hst1; split; reflexivity).
  destruct Hbooks1 as [Hb1 Hl1]. apply existsb_ids in Hbook.
  unfold printed, exec. rewrite (remove_book_connected id st1 Hc1).
  rewrite Hfree, andb_false_r, Hb1, Hl1, Hbook. cbv zeta.
  cbn [snd stdout books book_genres set_stdout set_books set_book_genres].
  split; [apply drop_app_length |]. split; [reflexivity |].
  split; [reflexivity |].
  intros Href. rewrite remove_book_connected by exact Hc.
  rewrite Hbook, Href. reflexivity.
Qed.

Lemma cancel_then_remove_book_witness :
  printed (remove_book 1) (exec (cancel_booking 1 1) booked_5_15)
  = [Line "Книга удалена"].
Proof.
  apply (cancel_then_remove_book 1 1 booked_5_15).
  - reflexivity.
  - vm_compute. left. reflexivity.
  - vm_compute. intros r [<- | []] _. reflexivity.
Defined.
